(** * virt-viewer: the main window controller (src/virt-viewer-window.c)

    A shallow embedding of the stateful part of [virt-viewer-window.c]:
    the fullscreen transition, the zoom level, the modifier (accelerator)
    arbitration, kiosk mode, and the show/hide and desktop-resize handlers.

    The C functions work on one [VirtViewerWindow] whose private struct they
    mutate, and they call into GTK, into the attached [VirtViewerDisplay] and
    into GLib's logging.  Here a window is a record, every C function is a
    computation in a small state monad over that record, and the calls to
    the toolkit's widgets, to the display and to the log are appended to the
    [calls] field, in program order.  What the code reads back from its
    surroundings (the window's visible and mapped flags, the two GtkSettings
    properties, the display's fields) is kept as state next to the private
    struct. *)

From Stdlib Require Import ZArith QArith Qround Qminmax List String Bool Lia.
From Stdlib Require Import Floats Uint63 Ascii.
Import ListNotations.

Local Open Scope Z_scope.

(* ------------------------------------------------------------------ *)
(** ** Data *)

(** A [GtkAccelGroup *], compared by address in the C code. *)
Definition AccelGroup := Z.

(** The [GdkRectangle] that [gdk_screen_get_monitor_geometry] fills in for a
    monitor number. *)
Inductive GdkRectangle : Type :=
| monitor_geometry (n : Z).

(** What the window code reads from and writes to the attached
    [VirtViewerDisplay]. *)
Record VirtViewerDisplay : Type := mkDisplay {
  desktop_width : Z;        (* guint, virt_viewer_display_get_desktop_size *)
  desktop_height : Z;       (* guint *)
  display_zoom_level : Z;   (* virt_viewer_display_get_zoom_level *)
  display_enabled : bool;   (* virt_viewer_display_get_enabled *)
  display_monitor : Z;
  display_fullscreen : bool;
  allocation_width : Z      (* GtkAllocation.width of the display widget *)
}.

(** Calls that leave the file. *)
Inductive Call : Type :=
| virt_viewer_display_set_monitor_call (monitor : Z)
| virt_viewer_display_set_fullscreen_call (fs : bool)
| virt_viewer_display_set_zoom_level_call (zoom : Z)
| virt_viewer_display_enable_call
| virt_viewer_display_disable_call
| g_signal_connect_map_event
| g_signal_handlers_disconnect_mapped
| gtk_window_move (mon : GdkRectangle)
| gtk_widget_set_size_request (mon : option GdkRectangle)   (* None: -1, -1 *)
| gtk_widget_show_fullscreen_headerbar
| gtk_widget_hide_fullscreen_headerbar
| virt_viewer_timed_revealer_force_reveal (reveal : bool)
| gtk_window_fullscreen
| gtk_window_unfullscreen
| gtk_widget_show_window
| gtk_widget_hide_window
| gtk_window_set_default_size_unset                          (* -1, -1 *)
| gtk_window_resize_natural
| gtk_window_remove_accel_group (g : AccelGroup)
| gtk_window_add_accel_group (g : AccelGroup)
| gtk_header_bar_set_title (with_ungrab_hint : bool)
| g_warning (msg : string)
| g_debug (msg : string)
| g_critical (msg : string).

(** The window: [struct _VirtViewerWindowPrivate], followed by the state of
    the toolkit and of the application that the functions below consult. *)
Record VirtViewerWindow : Type := mkWindow {
  accel_group : AccelGroup;
  display : option VirtViewerDisplay;
  accel_enabled : bool;
  accel_setting : option string;
  accel_list : list AccelGroup;
  enable_mnemonics_save : bool;
  grabbed : bool;
  fullscreen_monitor : Z;
  desktop_resize_pending : bool;
  kiosk : bool;
  zoomlevel : Z;
  fullscreen : bool;
  initial_zoom_set : bool;
  (* GtkWidget *window *)
  window_visible : bool;            (* gtk_widget_get_visible *)
  window_mapped : bool;             (* gtk_widget_get_mapped *)
  map_event_handlers : nat;         (* connections of [mapped] to "map-event" *)
  (* GtkSettings *)
  gtk_menu_bar_accel : option string;
  gtk_enable_mnemonics : bool;
  (* preferred width of the "top-menu" widget *)
  top_menu_width : Z;
  (* VirtViewerApp *)
  app_enable_accel : bool;          (* virt_viewer_app_get_enable_accel *)
  calls : list Call
}.

(* ------------------------------------------------------------------ *)
(** ** Field updates *)

Definition set_display v w :=
  mkWindow (accel_group w) v (accel_enabled w) (accel_setting w) (accel_list w)
    (enable_mnemonics_save w) (grabbed w) (fullscreen_monitor w)
    (desktop_resize_pending w) (kiosk w) (zoomlevel w) (fullscreen w)
    (initial_zoom_set w) (window_visible w) (window_mapped w)
    (map_event_handlers w) (gtk_menu_bar_accel w) (gtk_enable_mnemonics w)
    (top_menu_width w) (app_enable_accel w) (calls w).

Definition set_accel_enabled v w :=
  mkWindow (accel_group w) (display w) v (accel_setting w) (accel_list w)
    (enable_mnemonics_save w) (grabbed w) (fullscreen_monitor w)
    (desktop_resize_pending w) (kiosk w) (zoomlevel w) (fullscreen w)
    (initial_zoom_set w) (window_visible w) (window_mapped w)
    (map_event_handlers w) (gtk_menu_bar_accel w) (gtk_enable_mnemonics w)
    (top_menu_width w) (app_enable_accel w) (calls w).

Definition set_accel_setting v w :=
  mkWindow (accel_group w) (display w) (accel_enabled w) v (accel_list w)
    (enable_mnemonics_save w) (grabbed w) (fullscreen_monitor w)
    (desktop_resize_pending w) (kiosk w) (zoomlevel w) (fullscreen w)
    (initial_zoom_set w) (window_visible w) (window_mapped w)
    (map_event_handlers w) (gtk_menu_bar_accel w) (gtk_enable_mnemonics w)
    (top_menu_width w) (app_enable_accel w) (calls w).

Definition set_enable_mnemonics_save v w :=
  mkWindow (accel_group w) (display w) (accel_enabled w) (accel_setting w)
    (accel_list w) v (grabbed w) (fullscreen_monitor w)
    (desktop_resize_pending w) (kiosk w) (zoomlevel w) (fullscreen w)
    (initial_zoom_set w) (window_visible w) (window_mapped w)
    (map_event_handlers w) (gtk_menu_bar_accel w) (gtk_enable_mnemonics w)
    (top_menu_width w) (app_enable_accel w) (calls w).

Definition set_grabbed v w :=
  mkWindow (accel_group w) (display w) (accel_enabled w) (accel_setting w)
    (accel_list w) (enable_mnemonics_save w) v (fullscreen_monitor w)
    (desktop_resize_pending w) (kiosk w) (zoomlevel w) (fullscreen w)
    (initial_zoom_set w) (window_visible w) (window_mapped w)
    (map_event_handlers w) (gtk_menu_bar_accel w) (gtk_enable_mnemonics w)
    (top_menu_width w) (app_enable_accel w) (calls w).

Definition set_fullscreen_monitor v w :=
  mkWindow (accel_group w) (display w) (accel_enabled w) (accel_setting w)
    (accel_list w) (enable_mnemonics_save w) (grabbed w) v
    (desktop_resize_pending w) (kiosk w) (zoomlevel w) (fullscreen w)
    (initial_zoom_set w) (window_visible w) (window_mapped w)
    (map_event_handlers w) (gtk_menu_bar_accel w) (gtk_enable_mnemonics w)
    (top_menu_width w) (app_enable_accel w) (calls w).

Definition set_desktop_resize_pending v w :=
  mkWindow (accel_group w) (display w) (accel_enabled w) (accel_setting w)
    (accel_list w) (enable_mnemonics_save w) (grabbed w) (fullscreen_monitor w)
    v (kiosk w) (zoomlevel w) (fullscreen w)
    (initial_zoom_set w) (window_visible w) (window_mapped w)
    (map_event_handlers w) (gtk_menu_bar_accel w) (gtk_enable_mnemonics w)
    (top_menu_width w) (app_enable_accel w) (calls w).

Definition set_kiosk v w :=
  mkWindow (accel_group w) (display w) (accel_enabled w) (accel_setting w)
    (accel_list w) (enable_mnemonics_save w) (grabbed w) (fullscreen_monitor w)
    (desktop_resize_pending w) v (zoomlevel w) (fullscreen w)
    (initial_zoom_set w) (window_visible w) (window_mapped w)
    (map_event_handlers w) (gtk_menu_bar_accel w) (gtk_enable_mnemonics w)
    (top_menu_width w) (app_enable_accel w) (calls w).

Definition set_zoomlevel v w :=
  mkWindow (accel_group w) (display w) (accel_enabled w) (accel_setting w)
    (accel_list w) (enable_mnemonics_save w) (grabbed w) (fullscreen_monitor w)
    (desktop_resize_pending w) (kiosk w) v (fullscreen w)
    (initial_zoom_set w) (window_visible w) (window_mapped w)
    (map_event_handlers w) (gtk_menu_bar_accel w) (gtk_enable_mnemonics w)
    (top_menu_width w) (app_enable_accel w) (calls w).

Definition set_fullscreen v w :=
  mkWindow (accel_group w) (display w) (accel_enabled w) (accel_setting w)
    (accel_list w) (enable_mnemonics_save w) (grabbed w) (fullscreen_monitor w)
    (desktop_resize_pending w) (kiosk w) (zoomlevel w) v
    (initial_zoom_set w) (window_visible w) (window_mapped w)
    (map_event_handlers w) (gtk_menu_bar_accel w) (gtk_enable_mnemonics w)
    (top_menu_width w) (app_enable_accel w) (calls w).

Definition set_window_visible v w :=
  mkWindow (accel_group w) (display w) (accel_enabled w) (accel_setting w)
    (accel_list w) (enable_mnemonics_save w) (grabbed w) (fullscreen_monitor w)
    (desktop_resize_pending w) (kiosk w) (zoomlevel w) (fullscreen w)
    (initial_zoom_set w) v (window_mapped w)
    (map_event_handlers w) (gtk_menu_bar_accel w) (gtk_enable_mnemonics w)
    (top_menu_width w) (app_enable_accel w) (calls w).

Definition set_window_mapped v w :=
  mkWindow (accel_group w) (display w) (accel_enabled w) (accel_setting w)
    (accel_list w) (enable_mnemonics_save w) (grabbed w) (fullscreen_monitor w)
    (desktop_resize_pending w) (kiosk w) (zoomlevel w) (fullscreen w)
    (initial_zoom_set w) (window_visible w) v
    (map_event_handlers w) (gtk_menu_bar_accel w) (gtk_enable_mnemonics w)
    (top_menu_width w) (app_enable_accel w) (calls w).

Definition set_map_event_handlers v w :=
  mkWindow (accel_group w) (display w) (accel_enabled w) (accel_setting w)
    (accel_list w) (enable_mnemonics_save w) (grabbed w) (fullscreen_monitor w)
    (desktop_resize_pending w) (kiosk w) (zoomlevel w) (fullscreen w)
    (initial_zoom_set w) (window_visible w) (window_mapped w)
    v (gtk_menu_bar_accel w) (gtk_enable_mnemonics w)
    (top_menu_width w) (app_enable_accel w) (calls w).

Definition set_gtk_menu_bar_accel v w :=
  mkWindow (accel_group w) (display w) (accel_enabled w) (accel_setting w)
    (accel_list w) (enable_mnemonics_save w) (grabbed w) (fullscreen_monitor w)
    (desktop_resize_pending w) (kiosk w) (zoomlevel w) (fullscreen w)
    (initial_zoom_set w) (window_visible w) (window_mapped w)
    (map_event_handlers w) v (gtk_enable_mnemonics w)
    (top_menu_width w) (app_enable_accel w) (calls w).

Definition set_gtk_enable_mnemonics v w :=
  mkWindow (accel_group w) (display w) (accel_enabled w) (accel_setting w)
    (accel_list w) (enable_mnemonics_save w) (grabbed w) (fullscreen_monitor w)
    (desktop_resize_pending w) (kiosk w) (zoomlevel w) (fullscreen w)
    (initial_zoom_set w) (window_visible w) (window_mapped w)
    (map_event_handlers w) (gtk_menu_bar_accel w) v
    (top_menu_width w) (app_enable_accel w) (calls w).

Definition set_calls v w :=
  mkWindow (accel_group w) (display w) (accel_enabled w) (accel_setting w)
    (accel_list w) (enable_mnemonics_save w) (grabbed w) (fullscreen_monitor w)
    (desktop_resize_pending w) (kiosk w) (zoomlevel w) (fullscreen w)
    (initial_zoom_set w) (window_visible w) (window_mapped w)
    (map_event_handlers w) (gtk_menu_bar_accel w) (gtk_enable_mnemonics w)
    (top_menu_width w) (app_enable_accel w) v.

(* ------------------------------------------------------------------ *)
(** ** The state monad of the window *)

Definition M (A : Type) : Type := VirtViewerWindow -> A * VirtViewerWindow.

Definition ret {A} (a : A) : M A := fun w => (a, w).

Definition bind {A B} (m : M A) (k : A -> M B) : M B :=
  fun w => let (a, w') := m w in k a w'.

Definition gets {A} (f : VirtViewerWindow -> A) : M A := fun w => (f w, w).

Definition modify (f : VirtViewerWindow -> VirtViewerWindow) : M unit :=
  fun w => (tt, f w).

(** Record a call that leaves the file. *)
Definition call (c : Call) : M unit :=
  modify (fun w => set_calls (calls w ++ [c]) w).

Definition exec {A} (m : M A) (w : VirtViewerWindow) : VirtViewerWindow :=
  snd (m w).

Definition eval {A} (m : M A) (w : VirtViewerWindow) : A := fst (m w).

Declare Scope window_scope.
Delimit Scope window_scope with window.

Notation "x <- m ;; k" := (bind m (fun x => k))
  (at level 61, m at next level, right associativity) : window_scope.
Notation "m ;; k" := (bind m (fun _ => k))
  (at level 61, right associativity) : window_scope.

Local Open Scope window_scope.

(** [for (it = l; it; it = it->next) body(it->data);] *)
Fixpoint for_each {A} (l : list A) (body : A -> M unit) : M unit :=
  match l with
  | [] => ret tt
  | a :: l' => body a ;; for_each l' body
  end.

(* ------------------------------------------------------------------ *)
(** ** Constants *)

(** [#define ZOOM_STEP 10] *)
Definition ZOOM_STEP : Z := 10.

(** Modelled from the spec: [NORMAL_ZOOM_LEVEL] is declared in
    virt-viewer-display.h, which is not part of the sources at hand; the
    glossary gives it as 100, the 1:1 scale. *)
Definition NORMAL_ZOOM_LEVEL : Z := 100.

(* ------------------------------------------------------------------ *)
(** ** The display, as the window uses it *)

Definition with_display (f : VirtViewerDisplay -> VirtViewerDisplay) : M unit :=
  modify (fun w => set_display (option_map f (display w)) w).

(** Modelled from the spec: [virt_viewer_display_set_monitor] lives in
    virt-viewer-display.c; the display accepts the monitor directive. *)
Definition virt_viewer_display_set_monitor (monitor : Z) : M unit :=
  call (virt_viewer_display_set_monitor_call monitor) ;;
  with_display (fun d =>
    mkDisplay (desktop_width d) (desktop_height d) (display_zoom_level d)
      (display_enabled d) monitor (display_fullscreen d) (allocation_width d)).

(** Modelled from the spec: [virt_viewer_display_set_fullscreen] lives in
    virt-viewer-display.c; the display accepts the fullscreen directive. *)
Definition virt_viewer_display_set_fullscreen (fs : bool) : M unit :=
  call (virt_viewer_display_set_fullscreen_call fs) ;;
  with_display (fun d =>
    mkDisplay (desktop_width d) (desktop_height d) (display_zoom_level d)
      (display_enabled d) (display_monitor d) fs (allocation_width d)).

(** Modelled from the spec: [virt_viewer_display_set_zoom_level] lives in
    virt-viewer-display.c; the display accepts the zoom directive. *)
Definition virt_viewer_display_set_zoom_level (zoom : Z) : M unit :=
  call (virt_viewer_display_set_zoom_level_call zoom) ;;
  with_display (fun d =>
    mkDisplay (desktop_width d) (desktop_height d) zoom
      (display_enabled d) (display_monitor d) (display_fullscreen d)
      (allocation_width d)).

(** Modelled from the spec: [virt_viewer_display_enable] lives in
    virt-viewer-display.c; it raises the display's enabled flag. *)
Definition virt_viewer_display_enable : M unit :=
  call virt_viewer_display_enable_call ;;
  with_display (fun d =>
    mkDisplay (desktop_width d) (desktop_height d) (display_zoom_level d)
      true (display_monitor d) (display_fullscreen d) (allocation_width d)).

(** Modelled from the spec: [virt_viewer_display_disable] lives in
    virt-viewer-display.c; it clears the display's enabled flag. *)
Definition virt_viewer_display_disable : M unit :=
  call virt_viewer_display_disable_call ;;
  with_display (fun d =>
    mkDisplay (desktop_width d) (desktop_height d) (display_zoom_level d)
      false (display_monitor d) (display_fullscreen d) (allocation_width d)).

(** [if (priv->display) { ... }] *)
Definition if_display (body : M unit) : M unit :=
  d <- gets display ;;
  match d with
  | Some _ => body
  | None => ret tt
  end.

(* ------------------------------------------------------------------ *)
(** ** The toolkit, as the window uses it *)

(** [gtk_widget_show(priv->window)]: a toplevel is visible and mapped when the
    call returns; its "map-event" is delivered later by the main loop. *)
Definition gtk_widget_show_priv_window : M unit :=
  call gtk_widget_show_window ;;
  modify (set_window_visible true) ;;
  modify (set_window_mapped true).

(** [gtk_widget_hide(priv->window)] *)
Definition gtk_widget_hide_priv_window : M unit :=
  call gtk_widget_hide_window ;;
  modify (set_window_visible false) ;;
  modify (set_window_mapped false).

(** [g_signal_connect(priv->window, "map-event", G_CALLBACK(mapped), self)] *)
Definition g_signal_connect_mapped : M unit :=
  call g_signal_connect_map_event ;;
  n <- gets map_event_handlers ;;
  modify (set_map_event_handlers (S n)).

(** [g_signal_handlers_disconnect_by_func(priv->window, mapped, self)]:
    every connection of [mapped] goes. *)
Definition g_signal_handlers_disconnect_by_func_mapped : M unit :=
  call g_signal_handlers_disconnect_mapped ;;
  modify (set_map_event_handlers O).

(* ------------------------------------------------------------------ *)
(** ** Construction *)

(** The fields as [virt_viewer_window_init] leaves them: the private struct is
    zero-filled by GObject, then [fullscreen_monitor = -1],
    [accel_enabled = TRUE], [zoomlevel = NORMAL_ZOOM_LEVEL], and [accel_list]
    holds the groups [gtk_accel_groups_from_object] reports.  The arguments
    are what the builder and the environment provide; the calls made during
    construction are not recorded. *)
Definition virt_viewer_window_init
    (builder_accel_group : AccelGroup) (groups_from_object : list AccelGroup)
    (settings_menu_bar_accel : option string) (settings_enable_mnemonics : bool)
    (top_menu_req_width : Z) (enable_accel : bool) : VirtViewerWindow :=
  {| accel_group := builder_accel_group;
     display := None;
     accel_enabled := true;
     accel_setting := None;
     accel_list := groups_from_object;
     enable_mnemonics_save := false;
     grabbed := false;
     fullscreen_monitor := -1;
     desktop_resize_pending := false;
     kiosk := false;
     zoomlevel := NORMAL_ZOOM_LEVEL;
     fullscreen := false;
     initial_zoom_set := false;
     window_visible := false;
     window_mapped := false;
     map_event_handlers := O;
     gtk_menu_bar_accel := settings_menu_bar_accel;
     gtk_enable_mnemonics := settings_enable_mnemonics;
     top_menu_width := top_menu_req_width;
     app_enable_accel := enable_accel;
     calls := [] |}.

(* ------------------------------------------------------------------ *)
(** ** Resize requests *)

(** [virt_viewer_window_queue_resize] *)
Definition virt_viewer_window_queue_resize : M unit :=
  call gtk_window_set_default_size_unset ;;
  call gtk_window_resize_natural.

(** [virt_viewer_window_desktop_resize] *)
Definition virt_viewer_window_desktop_resize : M unit :=
  visible <- gets window_visible ;;
  if negb visible then
    modify (set_desktop_resize_pending true)
  else
    virt_viewer_window_queue_resize.

(* ------------------------------------------------------------------ *)
(** ** Fullscreen *)

(** [virt_viewer_window_move_to_monitor] *)
Definition virt_viewer_window_move_to_monitor : M unit :=
  n <- gets fullscreen_monitor ;;
  if n =? -1 then ret tt
  else
    call (gtk_window_move (monitor_geometry n)) ;;
    call (gtk_widget_set_size_request (Some (monitor_geometry n))).

(** [virt_viewer_window_leave_fullscreen] *)
Definition virt_viewer_window_leave_fullscreen : M unit :=
  g_signal_handlers_disconnect_by_func_mapped ;;
  fs <- gets fullscreen ;;
  if negb fs then ret tt
  else
    modify (set_fullscreen false) ;;
    modify (set_fullscreen_monitor (-1)) ;;
    if_display (
      virt_viewer_display_set_monitor (-1) ;;
      virt_viewer_display_set_fullscreen false) ;;
    call (virt_viewer_timed_revealer_force_reveal false) ;;
    call gtk_widget_hide_fullscreen_headerbar ;;
    call (gtk_widget_set_size_request None) ;;
    call gtk_window_unfullscreen.

(** [virt_viewer_window_enter_fullscreen] *)
Definition virt_viewer_window_enter_fullscreen (monitor : Z) : M unit :=
  fs <- gets fullscreen ;;
  cur <- gets fullscreen_monitor ;;
  (if fs && negb (cur =? monitor)
   then virt_viewer_window_leave_fullscreen else ret tt) ;;
  fs <- gets fullscreen ;;
  if fs then ret tt
  else
    modify (set_fullscreen_monitor monitor) ;;
    modify (set_fullscreen true) ;;
    is_mapped <- gets window_mapped ;;
    if negb is_mapped then
      virt_viewer_window_move_to_monitor ;;
      g_signal_connect_mapped
    else
      call gtk_widget_show_fullscreen_headerbar ;;
      call (virt_viewer_timed_revealer_force_reveal true) ;;
      if_display (
        virt_viewer_display_set_monitor monitor ;;
        virt_viewer_display_set_fullscreen true) ;;
      virt_viewer_window_move_to_monitor ;;
      call gtk_window_fullscreen.

(** [mapped], the "map-event" handler *)
Definition mapped : M unit :=
  g_signal_handlers_disconnect_by_func_mapped ;;
  modify (set_fullscreen false) ;;
  monitor <- gets fullscreen_monitor ;;
  virt_viewer_window_enter_fullscreen monitor.

(** Delivery of "map-event" by the main loop: [mapped] runs if it is connected;
    its first run disconnects every connection. *)
Definition map_event : M unit :=
  n <- gets map_event_handlers ;;
  match n with
  | O => ret tt
  | S _ => mapped
  end.

(* ------------------------------------------------------------------ *)
(** ** Modifiers *)

(** The test that exempts a group from removal and from re-adding:
    [virt_viewer_app_get_enable_accel(priv->app) && priv->accel_group == accels->data] *)
Definition exempt (w : VirtViewerWindow) (g : AccelGroup) : bool :=
  app_enable_accel w && (accel_group w =? g).

(** [virt_viewer_window_disable_modifiers] *)
Definition virt_viewer_window_disable_modifiers : M unit :=
  enabled <- gets accel_enabled ;;
  if negb enabled then ret tt
  else
    (* This stops F10 activating menu bar *)
    current <- gets gtk_menu_bar_accel ;;
    modify (set_accel_setting current) ;;
    modify (set_gtk_menu_bar_accel None) ;;
    (* This stops global accelerators like Ctrl+Q == Quit *)
    accels <- gets accel_list ;;
    for_each accels (fun g =>
      skip <- gets (fun w => exempt w g) ;;
      if skip then ret tt else call (gtk_window_remove_accel_group g)) ;;
    (* This stops menu bar shortcuts like Alt+F == File *)
    mnemonics <- gets gtk_enable_mnemonics ;;
    modify (set_enable_mnemonics_save mnemonics) ;;
    modify (set_gtk_enable_mnemonics false) ;;
    modify (set_accel_enabled false).

(** [virt_viewer_window_enable_modifiers] *)
Definition virt_viewer_window_enable_modifiers : M unit :=
  enabled <- gets accel_enabled ;;
  if enabled then ret tt
  else
    (* This allows F10 activating menu bar *)
    saved <- gets accel_setting ;;
    modify (set_gtk_menu_bar_accel saved) ;;
    (* This allows global accelerators like Ctrl+Q == Quit *)
    accels <- gets accel_list ;;
    for_each accels (fun g =>
      skip <- gets (fun w => exempt w g) ;;
      if skip then ret tt else call (gtk_window_add_accel_group g)) ;;
    (* This allows menu bar shortcuts like Alt+F == File *)
    saved_mnemonics <- gets enable_mnemonics_save ;;
    modify (set_gtk_enable_mnemonics saved_mnemonics) ;;
    modify (set_accel_enabled true).

(* ------------------------------------------------------------------ *)
(** ** Grab signals *)

(** [virt_viewer_window_update_title]: the title carries the
    "(Press ... to release pointer)" hint exactly when [priv->grabbed]; the
    text itself is left out. *)
Definition virt_viewer_window_update_title : M unit :=
  g <- gets grabbed ;;
  call (gtk_header_bar_set_title g).

(** [virt_viewer_window_pointer_grab] *)
Definition virt_viewer_window_pointer_grab : M unit :=
  modify (set_grabbed true) ;;
  virt_viewer_window_update_title.

(** [virt_viewer_window_pointer_ungrab] *)
Definition virt_viewer_window_pointer_ungrab : M unit :=
  modify (set_grabbed false) ;;
  virt_viewer_window_update_title.

(** [virt_viewer_window_keyboard_grab] *)
Definition virt_viewer_window_keyboard_grab : M unit :=
  virt_viewer_window_disable_modifiers.

(** [virt_viewer_window_keyboard_ungrab] *)
Definition virt_viewer_window_keyboard_ungrab : M unit :=
  virt_viewer_window_enable_modifiers.

(* ------------------------------------------------------------------ *)
(** ** Kiosk mode, show and hide *)

(** [virt_viewer_window_enable_kiosk] *)
Definition virt_viewer_window_enable_kiosk : M unit :=
  call (virt_viewer_timed_revealer_force_reveal false) ;;
  virt_viewer_window_disable_modifiers.

(** [virt_viewer_window_show] *)
Definition virt_viewer_window_show : M unit :=
  d <- gets display ;;
  match d with
  | Some dpy =>
      if negb (display_enabled dpy) then virt_viewer_display_enable else ret tt
  | None => ret tt
  end ;;
  pending <- gets desktop_resize_pending ;;
  (if pending then
     virt_viewer_window_queue_resize ;;
     modify (set_desktop_resize_pending false)
   else ret tt) ;;
  gtk_widget_show_priv_window ;;
  k <- gets kiosk ;;
  (if k then virt_viewer_window_enable_kiosk else ret tt) ;;
  fs <- gets fullscreen ;;
  if fs then virt_viewer_window_move_to_monitor else ret tt.

(** [virt_viewer_window_hide] *)
Definition virt_viewer_window_hide : M unit :=
  k <- gets kiosk ;;
  if k then call (g_warning "Can't hide windows in kiosk mode"%string)
  else
    gtk_widget_hide_priv_window ;;
    if_display virt_viewer_display_disable.

(** [virt_viewer_window_set_kiosk] *)
Definition virt_viewer_window_set_kiosk (enabled : bool) : M unit :=
  k <- gets kiosk ;;
  if Bool.eqb k enabled then ret tt
  else
    modify (set_kiosk enabled) ;;
    if enabled then virt_viewer_window_enable_kiosk
    else call (g_debug "disabling kiosk not implemented yet"%string).

(* ------------------------------------------------------------------ *)
(** ** Zoom *)

(** GLib's [#define MAX(a, b)  (((a) > (b)) ? (a) : (b))], on integers. *)
Definition MAX (a b : Z) : Z := if a >? b then a else b.

(** GLib's [#define CLAMP(x, low, high)
    (((x) > (high)) ? (high) : (((x) < (low)) ? (low) : (x)))]. *)
Definition CLAMP (x low high : Z) : Z :=
  if x >? high then high else if x <? low then low else x.

(** A [gint] is a 32-bit integer in two's complement, [G_MININT] to
    [G_MAXINT]; the model holds it in [Z]. *)
Definition G_MININT : Z := -2147483648.
Definition G_MAXINT : Z := 2147483647.

(** The [gint] that the sum, difference or product [n] of two [gint]s is
    stored as: [n] itself when it fits.  C leaves the overflow of a signed
    integer undefined; the machine's arithmetic wraps around modulo 2^32,
    and so does this. *)
Definition wrap_gint (n : Z) : Z := (n - G_MININT) mod 2 ^ 32 + G_MININT.

(** A C [double]: a finite value, an infinity or a NaN.  The finite values
    are read as exact rationals (the binary64 reading is compared with this
    one further down); the sign of zero is not kept, a zero is +0, as it is
    wherever this file divides by one: the divisors are conversions of
    unsigned integers. *)
Inductive double : Type :=
| finite (x : Q)
| infinity (negative : bool)
| NaN.

(** [(double) n] for an integer [n]. *)
Definition double_of_int (n : Z) : double := finite (inject_Z n).

Definition Qnegative (x : Q) : bool := negb (Qle_bool 0 x).

(** [a * b] on doubles. *)
Definition double_mul (a b : double) : double :=
  match a, b with
  | finite x, finite y => finite (x * y)
  | finite x, infinity s | infinity s, finite x =>
      if Qeq_bool x 0 then NaN else infinity (xorb s (Qnegative x))
  | infinity s, infinity t => infinity (xorb s t)
  | NaN, _ | _, NaN => NaN
  end.

(** [a / b] on doubles: a quotient by zero is an infinity, or a NaN for
    0 / 0. *)
Definition double_div (a b : double) : double :=
  match a, b with
  | finite x, finite y =>
      if Qeq_bool y 0 then
        if Qeq_bool x 0 then NaN else infinity (Qnegative x)
      else finite (x / y)
  | finite _, infinity _ => finite 0
  | infinity s, finite y => infinity (xorb s (Qnegative y))
  | infinity _, infinity _ => NaN
  | NaN, _ | _, NaN => NaN
  end.

(** [a > b] on doubles: false as soon as one of them is a NaN. *)
Definition double_gt (a b : double) : bool :=
  match a, b with
  | finite x, finite y => negb (Qle_bool x y)
  | finite _, infinity s => s
  | infinity s, finite _ => negb s
  | infinity s, infinity t => negb s && t
  | NaN, _ | _, NaN => false
  end.

Declare Scope double_scope.
Delimit Scope double_scope with double.
Infix "*" := double_mul : double_scope.
Infix "/" := double_div : double_scope.

(** GLib's [MAX] on doubles. *)
Definition MAX_double (a b : double) : double :=
  if double_gt a b then a else b.

(** [ceil] of math.h. *)
Definition ceil (x : double) : double :=
  match x with
  | finite q => finite (inject_Z (Qceiling q))
  | _ => x
  end.

(** [round] of math.h: to the nearest integer, halfway cases away from zero. *)
Definition round (x : double) : double :=
  match x with
  | finite q =>
      finite (inject_Z (if Qle_bool 0 q then Qfloor (q + (1 # 2))
                        else Qceiling (q - (1 # 2))))
  | _ => x
  end.

(** The conversion of a [double] to [gint], as in [gint zoom = ceil(...)]
    and in the [return round(...)] of a function that returns [gint]: the
    value truncated towards zero when that fits a [gint].  C leaves every
    other case (a value out of range, an infinity, a NaN) undefined; the
    conversion instruction of x86-64 then gives [G_MININT], and so does
    this. *)
Definition gint_of_double (x : double) : Z :=
  match x with
  | finite q =>
      let n := if Qle_bool 0 q then Qfloor q else Qceiling q in
      if (G_MININT <=? n) && (n <=? G_MAXINT) then n else G_MININT
  | _ => G_MININT
  end.

(** What the main loop can ask of the window: the signals of the display
    and of the toolkit that the file subscribes to, and its public entry
    points. *)
Inductive Event : Type :=
| display_pointer_grab
| display_pointer_ungrab
| display_keyboard_grab
| display_keyboard_ungrab
| display_desktop_resize
| window_map_event
| enter_fullscreen (monitor : Z)
| leave_fullscreen
| set_kiosk_mode (enabled : bool)
| show
| hide
| set_zoom_level (zoom_level : Z).

Section Zoom.

(** [MIN_ZOOM_LEVEL], [MAX_ZOOM_LEVEL], [MIN_DISPLAY_WIDTH] and
    [MIN_DISPLAY_HEIGHT] are declared in virt-viewer-display.h, which is not
    part of the sources at hand: they are parameters here. *)
Variables MIN_ZOOM_LEVEL MAX_ZOOM_LEVEL : Z.
Variables MIN_DISPLAY_WIDTH MIN_DISPLAY_HEIGHT : Z.

(** [virt_viewer_window_get_real_zoom_level] *)
Definition virt_viewer_window_get_real_zoom_level : M Z :=
  d <- gets display ;;
  match d with
  | None =>
      call (g_critical "self->priv->display != NULL"%string) ;;
      ret NORMAL_ZOOM_LEVEL
  | Some dpy =>
      let allocation_width := allocation_width dpy in
      let width := desktop_width dpy in
      ret (gint_of_double
             (round (double_of_int NORMAL_ZOOM_LEVEL
                     * double_of_int allocation_width
                     / double_of_int width)%double))
  end.

(** [virt_viewer_window_get_minimal_dimensions]: (width, height) *)
Definition virt_viewer_window_get_minimal_dimensions : M (Z * Z) :=
  req_width <- gets top_menu_width ;;
  ret (MAX MIN_DISPLAY_WIDTH req_width, MIN_DISPLAY_HEIGHT).

(** [virt_viewer_window_get_minimal_zoom_level] *)
Definition virt_viewer_window_get_minimal_zoom_level : M Z :=
  d <- gets display ;;
  match d with
  | None =>
      call (g_critical "VIRT_VIEWER_IS_WINDOW(self) && self->priv->display != NULL"%string) ;;
      ret MIN_ZOOM_LEVEL
  | Some dpy =>
      dims <- virt_viewer_window_get_minimal_dimensions ;;
      let min_width := fst dims in
      let min_height := snd dims in
      let width := desktop_width dpy in
      let height := desktop_height dpy in
      let width_ratio :=
        (double_of_int min_width / double_of_int width)%double in
      let height_ratio :=
        (double_of_int min_height / double_of_int height)%double in
      let zoom :=
        gint_of_double
          (ceil (double_of_int 10
                 * MAX_double width_ratio height_ratio)%double) in
      ret (CLAMP (wrap_gint (zoom * ZOOM_STEP))
                 MIN_ZOOM_LEVEL NORMAL_ZOOM_LEVEL)
  end.

(** [virt_viewer_window_set_zoom_level] *)
Definition virt_viewer_window_set_zoom_level (zoom_level : Z) : M unit :=
  let zoom_level :=
    if zoom_level <? MIN_ZOOM_LEVEL then MIN_ZOOM_LEVEL else zoom_level in
  let zoom_level :=
    if zoom_level >? MAX_ZOOM_LEVEL then MAX_ZOOM_LEVEL else zoom_level in
  modify (set_zoomlevel zoom_level) ;;
  d <- gets display ;;
  match d with
  | None => ret tt
  | Some dpy =>
      min_zoom <- virt_viewer_window_get_minimal_zoom_level ;;
      z <- gets zoomlevel ;;
      (if min_zoom >? z then
         call (g_debug "Cannot set zoom level %d, using %d"%string) ;;
         modify (set_zoomlevel min_zoom)
       else ret tt) ;;
      z <- gets zoomlevel ;;
      unchanged <-
        (if z =? display_zoom_level dpy then
           real <- virt_viewer_window_get_real_zoom_level ;;
           ret (z =? real)
         else ret false) ;;
      if unchanged
      then call (g_debug "Zoom level not changed, using: %d"%string)
      else
        virt_viewer_display_set_zoom_level z ;;
        virt_viewer_window_queue_resize
  end.

(** [virt_viewer_window_get_zoom_level] *)
Definition virt_viewer_window_get_zoom_level : M Z := gets zoomlevel.

(* ---------------------------------------------------------------- *)
(** ** The window as an event-driven machine *)

Definition handle (e : Event) : M unit :=
  match e with
  | display_pointer_grab => virt_viewer_window_pointer_grab
  | display_pointer_ungrab => virt_viewer_window_pointer_ungrab
  | display_keyboard_grab => virt_viewer_window_keyboard_grab
  | display_keyboard_ungrab => virt_viewer_window_keyboard_ungrab
  | display_desktop_resize => virt_viewer_window_desktop_resize
  | window_map_event => map_event
  | enter_fullscreen monitor => virt_viewer_window_enter_fullscreen monitor
  | leave_fullscreen => virt_viewer_window_leave_fullscreen
  | set_kiosk_mode enabled => virt_viewer_window_set_kiosk enabled
  | show => virt_viewer_window_show
  | hide => virt_viewer_window_hide
  | set_zoom_level zoom_level => virt_viewer_window_set_zoom_level zoom_level
  end.

(** The main loop handles one event to completion before the next. *)
Fixpoint run (es : list Event) (w : VirtViewerWindow) : VirtViewerWindow :=
  match es with
  | [] => w
  | e :: es' => run es' (exec (handle e) w)
  end.

End Zoom.


(* ------------------------------------------------------------------ *)
(** ** The zoom floor in binary64

    The same computation as [virt_viewer_window_get_minimal_zoom_level] with
    the kernel's IEEE 754 binary64 numbers in place of exact rationals, to
    compare the two readings of [double] on concrete desktop sizes. *)

(** [(double) n] for a [guint]. *)
Definition double_of_guint (n : Z) : float :=
  PrimFloat.of_uint63 (Uint63.of_Z n).

(** [MAX] on binary64 numbers. *)
Definition MAX_binary64 (a b : float) : float :=
  if PrimFloat.ltb b a then a else b.

(** [ceil] followed by the conversion to [gint]. *)
Definition gint_of_ceil_binary64 (x : float) : Z :=
  match Prim2SF x with
  | S754_zero _ => 0
  | S754_finite s m e =>
      let v := if s then Z.neg m else Z.pos m in
      let n := if 0 <=? e then v * 2 ^ e else - ((- v) / 2 ^ (- e)) in
      if (G_MININT <=? n) && (n <=? G_MAXINT) then n else G_MININT
  | S754_infinity _ => G_MININT
  | S754_nan => G_MININT
  end.

Definition minimal_zoom_level_binary64
    (MIN_ZOOM_LEVEL min_width min_height width height : Z) : Z :=
  let width_ratio := (double_of_guint min_width / double_of_guint width)%float in
  let height_ratio := (double_of_guint min_height / double_of_guint height)%float in
  let zoom :=
    gint_of_ceil_binary64 (10 * MAX_binary64 width_ratio height_ratio)%float in
  CLAMP (wrap_gint (zoom * ZOOM_STEP)) MIN_ZOOM_LEVEL NORMAL_ZOOM_LEVEL.

(** The rational reading of the same expression, on the same arguments. *)
Definition minimal_zoom_level_exact
    (MIN_ZOOM_LEVEL min_width min_height width height : Z) : Z :=
  let width_ratio := (double_of_int min_width / double_of_int width)%double in
  let height_ratio :=
    (double_of_int min_height / double_of_int height)%double in
  let zoom :=
    gint_of_double
      (ceil (double_of_int 10 * MAX_double width_ratio height_ratio)%double) in
  CLAMP (wrap_gint (zoom * ZOOM_STEP)) MIN_ZOOM_LEVEL NORMAL_ZOOM_LEVEL.

(** Desktop sizes [from], [from + 1], ..., [from + n - 1]. *)
Fixpoint sizes (from : Z) (n : nat) : list Z :=
  match n with
  | O => []
  | S n' => from :: sizes (from + 1) n'
  end.

(** Do the two readings agree for this minimal size on these desktop sizes? *)
Definition readings_agree (min_size : Z) (desktop_sizes : list Z) : bool :=
  forallb (fun size =>
    minimal_zoom_level_binary64 10 min_size min_size size size
    =? minimal_zoom_level_exact 10 min_size min_size size size) desktop_sizes.

(* ------------------------------------------------------------------ *)
(** ** Vocabulary of the statements *)

(** The calls an operation added to the log of [w]. *)
Definition new_calls {A} (m : M A) (w : VirtViewerWindow) : list Call :=
  skipn (List.length (calls w)) (calls (exec m w)).

(** The display's fullscreen and monitor setters. *)
Definition is_display_setter (c : Call) : bool :=
  match c with
  | virt_viewer_display_set_monitor_call _ => true
  | virt_viewer_display_set_fullscreen_call _ => true
  | _ => false
  end.

Definition is_unfullscreen (c : Call) : bool :=
  match c with
  | gtk_window_unfullscreen => true
  | _ => false
  end.

(** What [virt_viewer_window_move_to_monitor] asks of the toolkit for a
    target monitor. *)
Definition move_to_monitor_calls (monitor : Z) : list Call :=
  if monitor =? -1 then []
  else [gtk_window_move (monitor_geometry monitor);
        gtk_widget_set_size_request (Some (monitor_geometry monitor))].

(** The complete side-effect sequence of leaving fullscreen. *)
Definition leave_sequence (d : option VirtViewerDisplay) : list Call :=
  [g_signal_handlers_disconnect_mapped]
  ++ match d with
     | Some _ => [virt_viewer_display_set_monitor_call (-1);
                  virt_viewer_display_set_fullscreen_call false]
     | None => []
     end
  ++ [virt_viewer_timed_revealer_force_reveal false;
      gtk_widget_hide_fullscreen_headerbar;
      gtk_widget_set_size_request None;
      gtk_window_unfullscreen].

(** The side effects of entering fullscreen on [monitor] from the normal
    state: deferred behind the map handler if the window is not mapped. *)
Definition enter_sequence (is_mapped : bool) (d : option VirtViewerDisplay)
    (monitor : Z) : list Call :=
  if is_mapped then
    [gtk_widget_show_fullscreen_headerbar;
     virt_viewer_timed_revealer_force_reveal true]
    ++ match d with
       | Some _ => [virt_viewer_display_set_monitor_call monitor;
                    virt_viewer_display_set_fullscreen_call true]
       | None => []
       end
    ++ move_to_monitor_calls monitor
    ++ [gtk_window_fullscreen]
  else
    move_to_monitor_calls monitor ++ [g_signal_connect_map_event].

Definition queue_resize_calls : list Call :=
  [gtk_window_set_default_size_unset; gtk_window_resize_natural].

(** The groups of [accel_list] that the exemption rule lets through. *)
Definition non_exempt_groups (w : VirtViewerWindow) : list AccelGroup :=
  filter (fun g => negb (exempt w g)) (accel_list w).

(** The events that switch the modifiers off in state [w]. *)
Definition disables_modifiers (e : Event) (w : VirtViewerWindow) : bool :=
  match e with
  | display_keyboard_grab => true
  | set_kiosk_mode true => negb (kiosk w)
  | show => kiosk w
  | _ => false
  end.

Definition is_keyboard_ungrab (e : Event) : bool :=
  match e with
  | display_keyboard_ungrab => true
  | _ => false
  end.

Definition is_show (e : Event) : bool :=
  match e with
  | show => true
  | _ => false
  end.

(** Clamping into a closed interval, as the specification words it. *)
Definition clamp (low high x : Z) : Z := Z.max low (Z.min high x).


(** An operation leaves an observation of the window alone. *)
Definition preserves {A B} (f : VirtViewerWindow -> A) (m : M B) : Prop :=
  forall w, f (exec m w) = f w.

(* ------------------------------------------------------------------ *)
(** ** Sample windows *)

(** A display of a 550x400 desktop, attached but neither enabled nor ready. *)
Definition sample_display : VirtViewerDisplay :=
  {| desktop_width := 550;
     desktop_height := 400;
     display_zoom_level := 100;
     display_enabled := false;
     display_monitor := -1;
     display_fullscreen := false;
     allocation_width := 550 |}.

(** A freshly built window: one accelerator group, accelerators enabled in
    the application, F10 as menu-bar accelerator. *)
Definition fresh_window : VirtViewerWindow :=
  virt_viewer_window_init 1 [1; 2] (Some "F10"%string) true 200 true.

(** The same window with [sample_display] attached, before it was ever shown. *)
Definition fresh_window_with_display : VirtViewerWindow :=
  set_display (Some sample_display) fresh_window.

(* ------------------------------------------------------------------ *)
(** ** The send-key actions *)

(** The key symbols of gdkkeysyms.h that the file names. *)
Inductive GdkKey : Type :=
| GDK_KEY_Control_L | GDK_KEY_Alt_L | GDK_KEY_Delete | GDK_KEY_BackSpace
| GDK_KEY_Print
| GDK_KEY_F1 | GDK_KEY_F2 | GDK_KEY_F3 | GDK_KEY_F4 | GDK_KEY_F5 | GDK_KEY_F6
| GDK_KEY_F7 | GDK_KEY_F8 | GDK_KEY_F9 | GDK_KEY_F10 | GDK_KEY_F11
| GDK_KEY_F12.

(** GLib's [g_str_has_suffix]: compare the last [strlen (suffix)] characters
    of [str] with [suffix]. *)
Definition g_str_has_suffix (str suffix : string) : bool :=
  let str_len := String.length str in
  let suffix_len := String.length suffix in
  if (str_len <? suffix_len)%nat then false
  else String.eqb (substring (str_len - suffix_len) suffix_len str) suffix.

(** [ctrl_alt_del_activated]: the keys handed to
    [virt_viewer_display_send_keys]. *)
Definition ctrl_alt_del_activated : list GdkKey :=
  [GDK_KEY_Control_L; GDK_KEY_Alt_L; GDK_KEY_Delete].

(** [ctrl_alt_backspace_activated] *)
Definition ctrl_alt_backspace_activated : list GdkKey :=
  [GDK_KEY_Control_L; GDK_KEY_Alt_L; GDK_KEY_BackSpace].

(** [printscreen_activated] *)
Definition printscreen_activated : list GdkKey := [GDK_KEY_Print].

(** [ctrl_alt_fn_activated], on the name of the activated action: the keys
    handed to [virt_viewer_display_send_keys], or [None] where the function
    returns without sending. *)
Definition ctrl_alt_fn_activated (name : string) : option (list GdkKey) :=
  let keys (key : GdkKey) := Some [GDK_KEY_Control_L; GDK_KEY_Alt_L; key] in
  if g_str_has_suffix name "f1" then keys GDK_KEY_F1
  else if g_str_has_suffix name "f2" then keys GDK_KEY_F2
  else if g_str_has_suffix name "f3" then keys GDK_KEY_F3
  else if g_str_has_suffix name "f4" then keys GDK_KEY_F4
  else if g_str_has_suffix name "f5" then keys GDK_KEY_F5
  else if g_str_has_suffix name "f6" then keys GDK_KEY_F6
  else if g_str_has_suffix name "f7" then keys GDK_KEY_F7
  else if g_str_has_suffix name "f8" then keys GDK_KEY_F8
  else if g_str_has_suffix name "f9" then keys GDK_KEY_F9
  else if g_str_has_suffix name "f10" then keys GDK_KEY_F10
  else if g_str_has_suffix name "f11" then keys GDK_KEY_F11
  else if g_str_has_suffix name "f12" then keys GDK_KEY_F12
  else None.

(** The callbacks of [send_key_entries]. *)
Inductive SendKeyCallback : Type :=
| usb_device_selection_activated_callback
| ctrl_alt_del_activated_callback
| ctrl_alt_backspace_activated_callback
| ctrl_alt_fn_activated_callback
| printscreen_activated_callback.

(** [static GActionEntry send_key_entries[]]: action name and callback. *)
Definition send_key_entries : list (string * SendKeyCallback) :=
  [("usb-device-selection"%string, usb_device_selection_activated_callback);
   ("ctrl+alt+del"%string, ctrl_alt_del_activated_callback);
   ("ctrl+alt+backspace"%string, ctrl_alt_backspace_activated_callback);
   ("ctrl+alt+f1"%string, ctrl_alt_fn_activated_callback);
   ("ctrl+alt+f2"%string, ctrl_alt_fn_activated_callback);
   ("ctrl+alt+f3"%string, ctrl_alt_fn_activated_callback);
   ("ctrl+alt+f4"%string, ctrl_alt_fn_activated_callback);
   ("ctrl+alt+f5"%string, ctrl_alt_fn_activated_callback);
   ("ctrl+alt+f6"%string, ctrl_alt_fn_activated_callback);
   ("ctrl+alt+f7"%string, ctrl_alt_fn_activated_callback);
   ("ctrl+alt+f8"%string, ctrl_alt_fn_activated_callback);
   ("ctrl+alt+f9"%string, ctrl_alt_fn_activated_callback);
   ("ctrl+alt+f10"%string, ctrl_alt_fn_activated_callback);
   ("ctrl+alt+f11"%string, ctrl_alt_fn_activated_callback);
   ("ctrl+alt+f12"%string, ctrl_alt_fn_activated_callback);
   ("printscreen"%string, printscreen_activated_callback)].

(** Activation of an entry: its callback runs on the action of that name;
    the result is the keys sent to the display, if any. *)
Definition activate_send_key_entry (entry : string * SendKeyCallback)
    : option (list GdkKey) :=
  match snd entry with
  | usb_device_selection_activated_callback => None
  | ctrl_alt_del_activated_callback => Some ctrl_alt_del_activated
  | ctrl_alt_backspace_activated_callback => Some ctrl_alt_backspace_activated
  | ctrl_alt_fn_activated_callback => ctrl_alt_fn_activated (fst entry)
  | printscreen_activated_callback => Some printscreen_activated
  end.

(** The function keys by the label that ends the action's name. *)
Definition function_keys : list (string * GdkKey) :=
  [("f1"%string, GDK_KEY_F1); ("f2"%string, GDK_KEY_F2);
   ("f3"%string, GDK_KEY_F3); ("f4"%string, GDK_KEY_F4);
   ("f5"%string, GDK_KEY_F5); ("f6"%string, GDK_KEY_F6);
   ("f7"%string, GDK_KEY_F7); ("f8"%string, GDK_KEY_F8);
   ("f9"%string, GDK_KEY_F9); ("f10"%string, GDK_KEY_F10);
   ("f11"%string, GDK_KEY_F11); ("f12"%string, GDK_KEY_F12)].

(* ------------------------------------------------------------------ *)
(** ** Screenshots: the image format of a file name *)

(** What the file asks of a [GdkPixbufFormat]. *)
Record GdkPixbufFormat : Type := mkFormat {
  gdk_pixbuf_format_get_name : string;
  gdk_pixbuf_format_is_writable : bool;
  gdk_pixbuf_format_get_extensions : list string
}.

(** A [GHashTable] from extension to format, with [g_str_equal] keys: the
    most recent insertion of a key is the one a lookup finds. *)
Definition GHashTable : Type := list (string * GdkPixbufFormat).

Definition g_hash_table_insert (table : GHashTable) (key : string)
    (value : GdkPixbufFormat) : GHashTable :=
  (key, value) :: filter (fun e => negb (String.eqb (fst e) key)) table.

Definition g_hash_table_lookup (table : GHashTable) (key : string)
    : option GdkPixbufFormat :=
  match find (fun e => String.eqb (fst e) key) table with
  | Some e => Some (snd e)
  | None => None
  end.

(** [add_if_writable] *)
Definition add_if_writable (data : GdkPixbufFormat) (formats : GHashTable)
    : GHashTable :=
  if gdk_pixbuf_format_is_writable data then
    fold_left (fun table ext => g_hash_table_insert table ext data)
      (gdk_pixbuf_format_get_extensions data) formats
  else formats.

(** [init_image_formats], on the list [gdk_pixbuf_get_formats] returns. *)
Definition init_image_formats (formats : list GdkPixbufFormat) : GHashTable :=
  fold_left (fun format_map data => add_if_writable data format_map) formats [].

(** [strrchr]: the tail of [s] from the last occurrence of [c] on. *)
Fixpoint strrchr (s : string) (c : Ascii.ascii) : option string :=
  match s with
  | EmptyString => None
  | String a s' =>
      match strrchr s' c with
      | Some tail => Some tail
      | None => if Ascii.eqb a c then Some s else None
      end
  end.

(** [get_image_format]; the table is built once, from [formats]. *)
Definition get_image_format (formats : list GdkPixbufFormat)
    (filename : string) : option GdkPixbufFormat :=
  match strrchr filename "."%char with
  | None => None
  | Some ext =>
      let ext := match ext with String _ rest => rest | EmptyString => ext end in
      g_hash_table_lookup (init_image_formats formats) ext
  end.

(** The arguments of one [gdk_pixbuf_save]. *)
Record GdkPixbufSave : Type := mkSave {
  save_filename : string;
  save_type : string;
  save_generator_text : bool    (* "tEXt::Generator App", PACKAGE *)
}.

(** [virt_viewer_window_save_screenshot]: the save it performs. *)
Definition virt_viewer_window_save_screenshot
    (formats : list GdkPixbufFormat) (file : string) : GdkPixbufSave :=
  match get_image_format formats file with
  | None =>
      if negb (g_str_has_suffix file ".png") then
        mkSave (file ++ ".png") "png" true
      else
        mkSave file "png" true
  | Some format =>
      mkSave file (gdk_pixbuf_format_get_name format) false
  end.

(** The text after the last dot of a file name, if it has a dot. *)
Definition extension_of (filename : string) : option string :=
  match strrchr filename "."%char with
  | Some (String _ rest) => Some rest
  | _ => None
  end.

(** Can [format] be written and does it list the extension [ext]? *)
Definition writes_extension (ext : string) (format : GdkPixbufFormat) : bool :=
  gdk_pixbuf_format_is_writable format
  && existsb (String.eqb ext) (gdk_pixbuf_format_get_extensions format).

(* ------------------------------------------------------------------ *)
(** ** The actions of the menus, and the show hint *)

Definition set_initial_zoom_set v w :=
  mkWindow (accel_group w) (display w) (accel_enabled w) (accel_setting w)
    (accel_list w) (enable_mnemonics_save w) (grabbed w) (fullscreen_monitor w)
    (desktop_resize_pending w) (kiosk w) (zoomlevel w) (fullscreen w)
    v (window_visible w) (window_mapped w)
    (map_event_handlers w) (gtk_menu_bar_accel w) (gtk_enable_mnemonics w)
    (top_menu_width w) (app_enable_accel w) (calls w).

(** What [virt_viewer_window_set_fullscreen] asks of the application object;
    the application acts on it outside this file. *)
Inductive AppRequest : Type :=
| g_object_set_app_fullscreen (fs : bool).

(** [virt_viewer_window_set_fullscreen]; [app_fullscreen] is what
    [virt_viewer_app_get_fullscreen] answers, and the result lists the
    requests made to the application. *)
Definition virt_viewer_window_set_fullscreen (app_fullscreen : bool)
    (fs : bool) : M (list AppRequest) :=
  if fs then
    virt_viewer_window_enter_fullscreen (-1) ;;
    ret []
  else
    (* leave all windows fullscreen state *)
    if app_fullscreen then ret [g_object_set_app_fullscreen false]
    (* or just this window *)
    else
      virt_viewer_window_leave_fullscreen ;;
      ret [].

(** [virt_viewer_window_menu_view_fullscreen] *)
Definition virt_viewer_window_menu_view_fullscreen (app_fullscreen : bool)
    : M (list AppRequest) :=
  fs <- gets fullscreen ;;
  virt_viewer_window_set_fullscreen app_fullscreen (negb fs).

(** [virt_viewer_window_headerbar_leave_fullscreen] *)
Definition virt_viewer_window_headerbar_leave_fullscreen
    (app_fullscreen : bool) : M (list AppRequest) :=
  virt_viewer_window_set_fullscreen app_fullscreen false.

Section Actions.

Variables MIN_ZOOM_LEVEL MAX_ZOOM_LEVEL : Z.
Variables MIN_DISPLAY_WIDTH MIN_DISPLAY_HEIGHT : Z.

(** The bit [VIRT_VIEWER_DISPLAY_SHOW_HINT_READY] of virt-viewer-display.h,
    a parameter like the zoom constants. *)
Variable VIRT_VIEWER_DISPLAY_SHOW_HINT_READY : Z.

(** [display_show_hint], the "notify::show-hint" handler: [emitter] is the
    display that emits the signal, as the handler receives it, and
    [show_hint] the value of its "show-hint" property. *)
Definition display_show_hint (emitter : VirtViewerDisplay) (show_hint : Z)
    : M unit :=
  let hint := Z.land show_hint VIRT_VIEWER_DISPLAY_SHOW_HINT_READY in
  zoom_set <- gets initial_zoom_set ;;
  if negb zoom_set && negb (hint =? 0) && display_enabled emitter then
    modify (set_initial_zoom_set true) ;;
    z <- gets zoomlevel ;;
    virt_viewer_window_set_zoom_level
      MIN_ZOOM_LEVEL MAX_ZOOM_LEVEL MIN_DISPLAY_WIDTH MIN_DISPLAY_HEIGHT z
  else ret tt.

(** [zoom_in_activated] *)
Definition zoom_in_activated : M unit :=
  real <- virt_viewer_window_get_real_zoom_level ;;
  virt_viewer_window_set_zoom_level
    MIN_ZOOM_LEVEL MAX_ZOOM_LEVEL MIN_DISPLAY_WIDTH MIN_DISPLAY_HEIGHT
    (wrap_gint (real + ZOOM_STEP)).

(** [zoom_out_activated] *)
Definition zoom_out_activated : M unit :=
  real <- virt_viewer_window_get_real_zoom_level ;;
  virt_viewer_window_set_zoom_level
    MIN_ZOOM_LEVEL MAX_ZOOM_LEVEL MIN_DISPLAY_WIDTH MIN_DISPLAY_HEIGHT
    (wrap_gint (real - ZOOM_STEP)).

(** [zoom_reset_activated] *)
Definition zoom_reset_activated : M unit :=
  virt_viewer_window_set_zoom_level
    MIN_ZOOM_LEVEL MAX_ZOOM_LEVEL MIN_DISPLAY_WIDTH MIN_DISPLAY_HEIGHT
    NORMAL_ZOOM_LEVEL.

(** Everything the main loop can ask of the window in this model: the events
    above, the show hint, and the menu actions. *)
Inductive Action : Type :=
| window_event (e : Event)
| display_notify_show_hint (emitter : VirtViewerDisplay) (show_hint : Z)
| zoom_in
| zoom_out
| zoom_reset
| view_fullscreen (app_fullscreen : bool)
| headerbar_leave_fullscreen (app_fullscreen : bool).

Definition perform (a : Action) : M unit :=
  match a with
  | window_event e =>
      handle MIN_ZOOM_LEVEL MAX_ZOOM_LEVEL MIN_DISPLAY_WIDTH MIN_DISPLAY_HEIGHT e
  | display_notify_show_hint emitter show_hint =>
      display_show_hint emitter show_hint
  | zoom_in => zoom_in_activated
  | zoom_out => zoom_out_activated
  | zoom_reset => zoom_reset_activated
  | view_fullscreen app_fullscreen =>
      virt_viewer_window_menu_view_fullscreen app_fullscreen ;; ret tt
  | headerbar_leave_fullscreen app_fullscreen =>
      virt_viewer_window_headerbar_leave_fullscreen app_fullscreen ;; ret tt
  end.

Fixpoint run_actions (acts : list Action) (w : VirtViewerWindow)
    : VirtViewerWindow :=
  match acts with
  | [] => w
  | a :: acts' => run_actions acts' (exec (perform a) w)
  end.

End Actions.

(** The fullscreen bookkeeping is consistent: at most one map handler is
    connected, and only while the fullscreen flag is set; a window that is
    not fullscreen targets no monitor; and unless an entry is waiting for the
    map event, the attached display has been told the window's monitor and
    fullscreen flag. *)
Definition fullscreen_consistent (w : VirtViewerWindow) : Prop :=
  (map_event_handlers w <= 1)%nat
  /\ (map_event_handlers w = 1%nat -> fullscreen w = true)
  /\ (fullscreen w = false -> fullscreen_monitor w = -1)
  /\ (map_event_handlers w = O ->
      forall d, display w = Some d ->
                display_monitor d = fullscreen_monitor w
                /\ display_fullscreen d = fullscreen w).

(** The stored zoom level lies between the two bounds. *)
Definition zoom_in_range (low high : Z) (w : VirtViewerWindow) : Prop :=
  low <= zoomlevel w <= high.

(** Is the action a request to turn kiosk mode off? *)
Definition turns_kiosk_off (a : Action) : bool :=
  match a with
  | window_event (set_kiosk_mode false) => true
  | _ => false
  end.

(* ------------------------------------------------------------------ *)
(** ** Vocabulary of the further statements *)

(** What a call changes in the number of times group [g] is missing from
    the window's accelerator groups. *)
Definition accel_delta (g : AccelGroup) (c : Call) : Z :=
  match c with
  | gtk_window_remove_accel_group g' => if g' =? g then 1 else 0
  | gtk_window_add_accel_group g' => if g' =? g then -1 else 0
  | _ => 0
  end.

(** Removals of [g] minus additions of [g] in a log. *)
Fixpoint accel_balance (g : AccelGroup) (cs : list Call) : Z :=
  match cs with
  | [] => 0
  | c :: cs' => accel_delta g c + accel_balance g cs'
  end.

(** How often [g] is listed. *)
Fixpoint occurrences (g : AccelGroup) (l : list AccelGroup) : Z :=
  match l with
  | [] => 0
  | g' :: l' => (if g' =? g then 1 else 0) + occurrences g l'
  end.

(** The log accounts for the modifiers' state: while they are enabled every
    group has been added back as often as it was removed, and while they
    are disabled exactly the groups the exemption rule lets through are
    out, once per listing in [accel_list]. *)
Definition accel_groups_accounted (w : VirtViewerWindow) : Prop :=
  forall g,
    accel_balance g (calls w)
    = if accel_enabled w then 0 else occurrences g (non_exempt_groups w).

(** An operation keeps the account of the accelerator groups. *)
Definition keeps_accounted {A} (m : M A) : Prop :=
  forall w, accel_groups_accounted w -> accel_groups_accounted (exec m w).

(** Is the action the display's keyboard ungrab? *)
Definition ungrabs_keyboard (a : Action) : bool :=
  match a with
  | window_event display_keyboard_ungrab => true
  | _ => false
  end.

(** The release-pointer hint of the title the header bar shows after the
    calls of a log; a window starts without it. *)
Definition title_hint (cs : list Call) : bool :=
  fold_left
    (fun shown c =>
       match c with
       | gtk_header_bar_set_title with_hint => with_hint
       | _ => shown
       end)
    cs false.

(** Three formats as gdk-pixbuf may report them: PNG and JPEG can be
    written, GIF cannot. *)
Definition sample_formats : list GdkPixbufFormat :=
  [mkFormat "png" true ["png"%string];
   mkFormat "jpeg" true ["jpeg"%string; "jpe"%string; "jpg"%string];
   mkFormat "gif" false ["gif"%string]].

(** [fresh_window_with_display] after show(): visible, mapped, the display
    enabled. *)
Definition shown_window : VirtViewerWindow :=
  exec virt_viewer_window_show fresh_window_with_display.

(* ------------------------------------------------------------------ *)
(** ** Basic facts about the log *)

Lemma new_calls_of_appended {A} (m : M A) w l :
  calls (exec m w) = calls w ++ l -> new_calls m w = l.
Proof.
  intros H. unfold new_calls. rewrite H.
  rewrite skipn_app, skipn_all, Nat.sub_diag. reflexivity.
Qed.

Lemma appended_calls (cs l : list Call) : skipn (List.length cs) (cs ++ l) = l.
Proof. rewrite skipn_app, skipn_all, Nat.sub_diag. reflexivity. Qed.

Lemma set_calls_same w : set_calls (calls w) w = w.
Proof. destruct w; reflexivity. Qed.

(** The loop over [accel_list] in both modifier functions: one call per group
    that is not exempt, in list order, and nothing else. *)
Lemma for_each_accel_group (toolkit_call : AccelGroup -> Call) l w :
  for_each l (fun g =>
      skip <- gets (fun w => exempt w g) ;;
      if skip then ret tt else call (toolkit_call g)) w
  = (tt, set_calls
           (calls w ++ map toolkit_call (filter (fun g => negb (exempt w g)) l))
           w).
Proof.
  revert w. induction l as [| g l IH]; intros w.
  - simpl. unfold ret. rewrite app_nil_r, set_calls_same. reflexivity.
  - cbn [for_each filter]. unfold bind at 1. unfold bind at 1.
    unfold gets at 1.
    destruct (exempt w g) eqn:E; cbn [negb].
    + unfold ret at 1. apply IH.
    + unfold call at 1, modify at 1. rewrite IH.
      cbn [map]. f_equal. unfold set_calls; cbn.
      rewrite <- app_assoc. reflexivity.
Qed.

(* ------------------------------------------------------------------ *)
(** ** Modifiers *)

Lemma disable_modifiers_noop w :
  accel_enabled w = false -> virt_viewer_window_disable_modifiers w = (tt, w).
Proof.
  intros H. unfold virt_viewer_window_disable_modifiers, bind, gets.
  rewrite H. reflexivity.
Qed.

Lemma enable_modifiers_noop w :
  accel_enabled w = true -> virt_viewer_window_enable_modifiers w = (tt, w).
Proof.
  intros H. unfold virt_viewer_window_enable_modifiers, bind, gets.
  rewrite H. reflexivity.
Qed.

Lemma disable_modifiers_effect w :
  accel_enabled w = true ->
  exec virt_viewer_window_disable_modifiers w
  = set_accel_enabled false
      (set_gtk_enable_mnemonics false
         (set_enable_mnemonics_save (gtk_enable_mnemonics w)
            (set_calls
               (calls w ++ map gtk_window_remove_accel_group (non_exempt_groups w))
               (set_gtk_menu_bar_accel None
                  (set_accel_setting (gtk_menu_bar_accel w) w))))).
Proof.
  intros H. unfold exec, virt_viewer_window_disable_modifiers.
  unfold bind at 1, gets at 1. rewrite H. cbn [negb].
  unfold bind at 1, gets at 1. unfold bind at 1, modify at 1.
  unfold bind at 1, modify at 1. unfold bind at 1, gets at 1.
  unfold bind at 1. rewrite for_each_accel_group.
  destruct w; reflexivity.
Qed.

Lemma enable_modifiers_effect w :
  accel_enabled w = false ->
  exec virt_viewer_window_enable_modifiers w
  = set_accel_enabled true
      (set_gtk_enable_mnemonics (enable_mnemonics_save w)
         (set_calls
            (calls w ++ map gtk_window_add_accel_group (non_exempt_groups w))
            (set_gtk_menu_bar_accel (accel_setting w) w))).
Proof.
  intros H. unfold exec, virt_viewer_window_enable_modifiers.
  unfold bind at 1, gets at 1. rewrite H.
  unfold bind at 1, gets at 1. unfold bind at 1, modify at 1.
  unfold bind at 1, gets at 1.
  unfold bind at 1. rewrite for_each_accel_group.
  destruct w; reflexivity.
Qed.

Lemma disable_modifiers_disables w :
  accel_enabled (exec virt_viewer_window_disable_modifiers w) = false.
Proof.
  destruct (accel_enabled w) eqn:E.
  - rewrite disable_modifiers_effect by exact E. reflexivity.
  - unfold exec. rewrite disable_modifiers_noop by exact E. exact E.
Qed.

Lemma enable_modifiers_enables w :
  accel_enabled (exec virt_viewer_window_enable_modifiers w) = true.
Proof.
  destruct (accel_enabled w) eqn:E.
  - unfold exec. rewrite enable_modifiers_noop by exact E. exact E.
  - rewrite enable_modifiers_effect by exact E. reflexivity.
Qed.

(* ------------------------------------------------------------------ *)
(** ** Framing: which operations leave which fields alone *)

Lemma exec_bind {A B} (m : M A) (k : A -> M B) w :
  exec (bind m k) w = exec (k (eval m w)) (exec m w).
Proof. unfold exec, eval, bind. destruct (m w); reflexivity. Qed.

Lemma preserves_ret {A B} (f : VirtViewerWindow -> A) (b : B) :
  preserves f (ret b).
Proof. intros w. reflexivity. Qed.

Lemma preserves_gets {A B} (f : VirtViewerWindow -> A)
    (g : VirtViewerWindow -> B) :
  preserves f (gets g).
Proof. intros w. reflexivity. Qed.

Lemma preserves_modify {A} (f : VirtViewerWindow -> A) g :
  (forall w, f (g w) = f w) -> preserves f (modify g).
Proof. intros H w. apply H. Qed.

Lemma preserves_bind {A B C} (f : VirtViewerWindow -> A) (m : M B)
    (k : B -> M C) :
  preserves f m -> (forall b, preserves f (k b)) -> preserves f (bind m k).
Proof.
  intros Hm Hk w. rewrite exec_bind, Hk. apply Hm.
Qed.

Lemma preserves_for_each {A B} (f : VirtViewerWindow -> A) (l : list B) body :
  (forall b, preserves f (body b)) -> preserves f (for_each l body).
Proof.
  intros H. induction l as [| b l IH].
  - apply preserves_ret.
  - cbn [for_each]. apply preserves_bind; [apply H | intros _; exact IH].
Qed.

Ltac frame_unfold :=
  unfold virt_viewer_window_show, virt_viewer_window_hide,
    virt_viewer_window_set_kiosk, virt_viewer_window_enable_kiosk,
    virt_viewer_window_keyboard_grab, virt_viewer_window_keyboard_ungrab,
    virt_viewer_window_pointer_grab, virt_viewer_window_pointer_ungrab,
    virt_viewer_window_update_title,
    virt_viewer_window_enable_modifiers, virt_viewer_window_disable_modifiers,
    map_event, mapped, virt_viewer_window_enter_fullscreen,
    virt_viewer_window_leave_fullscreen, virt_viewer_window_move_to_monitor,
    virt_viewer_window_desktop_resize, virt_viewer_window_queue_resize,
    virt_viewer_window_set_zoom_level, virt_viewer_window_get_zoom_level,
    virt_viewer_window_get_minimal_zoom_level,
    virt_viewer_window_get_minimal_dimensions,
    virt_viewer_window_get_real_zoom_level,
    g_signal_connect_mapped, g_signal_handlers_disconnect_by_func_mapped,
    gtk_widget_show_priv_window, gtk_widget_hide_priv_window,
    virt_viewer_display_set_monitor, virt_viewer_display_set_fullscreen,
    virt_viewer_display_set_zoom_level, virt_viewer_display_enable,
    virt_viewer_display_disable, if_display, with_display, call.

(** Decide a [preserves] goal by walking through the operation. *)
Ltac frame :=
  repeat first
    [ apply preserves_ret
    | apply preserves_gets
    | apply preserves_modify; intros ?; reflexivity
    | apply preserves_for_each; intros ?
    | apply preserves_bind; [ | intros ? ]
    | match goal with
      | |- preserves _ (if ?b then _ else _) => destruct b
      | |- preserves _ (match ?d with _ => _ end) => destruct d
      end
    | progress frame_unfold ].

(* ------------------------------------------------------------------ *)
(** ** Running an operation on a window whose fields are known *)

Lemma disable_modifiers_run w :
  accel_enabled w = true ->
  virt_viewer_window_disable_modifiers w
  = (tt, set_accel_enabled false
           (set_gtk_enable_mnemonics false
              (set_enable_mnemonics_save (gtk_enable_mnemonics w)
                 (set_calls
                    (calls w
                     ++ map gtk_window_remove_accel_group (non_exempt_groups w))
                    (set_gtk_menu_bar_accel None
                       (set_accel_setting (gtk_menu_bar_accel w) w)))))).
Proof.
  intros H. rewrite <- (disable_modifiers_effect w H). unfold exec.
  destruct (virt_viewer_window_disable_modifiers w) as [[] w']. reflexivity.
Qed.

Lemma enable_modifiers_run w :
  accel_enabled w = false ->
  virt_viewer_window_enable_modifiers w
  = (tt, set_accel_enabled true
           (set_gtk_enable_mnemonics (enable_mnemonics_save w)
              (set_calls
                 (calls w ++ map gtk_window_add_accel_group (non_exempt_groups w))
                 (set_gtk_menu_bar_accel (accel_setting w) w)))).
Proof.
  intros H. rewrite <- (enable_modifiers_effect w H). unfold exec.
  destruct (virt_viewer_window_enable_modifiers w) as [[] w']. reflexivity.
Qed.

(** Unfold the operations and the monad on a window given field by field;
    the loops over [accel_list], the list functions and the arithmetic stay
    folded. *)
Ltac run :=
  cbv beta iota zeta delta
    -[virt_viewer_window_disable_modifiers virt_viewer_window_enable_modifiers
      app map filter Z.eqb Z.ltb Z.gtb Z.leb Z.mul Z.add Z.opp Z.max Z.min
      ceil round MAX_double MAX CLAMP gint_of_double wrap_gint double_of_int
      double_mul double_div Qmult Qdiv Qplus Qminus inject_Z
      ZOOM_STEP NORMAL_ZOOM_LEVEL].

(** After [run]: settle the modifier functions and tidy the log. *)
Ltac settle :=
  rewrite ?disable_modifiers_run by reflexivity;
  rewrite ?disable_modifiers_noop by reflexivity;
  rewrite ?enable_modifiers_run by reflexivity;
  rewrite ?enable_modifiers_noop by reflexivity;
  run;
  rewrite <- ?app_assoc, ?app_nil_r; cbn [app].

Ltac destruct_window w :=
  destruct w as [w_ag w_d w_ae w_aset w_al w_ems w_g w_fm w_drp w_k w_z w_fs
                 w_izs w_vis w_mp w_meh w_mba w_gem w_tmw w_aea w_cs].

(** Read a field through the updates wrapped around a window. *)
Ltac fields :=
  cbn [fst snd calls display fullscreen fullscreen_monitor window_mapped
       window_visible map_event_handlers kiosk accel_enabled zoomlevel
       desktop_resize_pending
       set_calls set_display set_fullscreen set_fullscreen_monitor
       set_map_event_handlers set_window_mapped set_window_visible
       set_kiosk set_accel_enabled set_zoomlevel set_desktop_resize_pending].

(* ------------------------------------------------------------------ *)
(** ** Show and hide *)

(** Every call [virt_viewer_window_show] makes, in order. *)
Lemma show_calls w :
  calls (exec virt_viewer_window_show w)
  = calls w
    ++ match display w with
       | Some d =>
           if display_enabled d then [] else [virt_viewer_display_enable_call]
       | None => []
       end
    ++ (if desktop_resize_pending w then queue_resize_calls else [])
    ++ [gtk_widget_show_window]
    ++ (if kiosk w then
          virt_viewer_timed_revealer_force_reveal false
          :: (if accel_enabled w
              then map gtk_window_remove_accel_group (non_exempt_groups w)
              else [])
        else [])
    ++ (if fullscreen w then move_to_monitor_calls (fullscreen_monitor w) else []).
Proof.
  destruct_window w.
  destruct w_d as [[dw dh dz [|] dm df da] |];
    destruct w_drp, w_k, w_ae, w_fs; run; settle;
    try destruct (w_fm =? -1); settle; reflexivity.
Qed.

Lemma show_state w :
  let w' := exec virt_viewer_window_show w in
  window_visible w' = true
  /\ desktop_resize_pending w' = false
  /\ option_map display_enabled (display w') = option_map (fun _ => true) (display w).
Proof.
  destruct_window w.
  destruct w_d as [[dw dh dz [|] dm df da] |];
    destruct w_drp, w_k, w_ae, w_fs; run; settle;
    try destruct (w_fm =? -1); settle; repeat split.
Qed.

Lemma hide_run w :
  kiosk w = false ->
  virt_viewer_window_hide w
  = (tt, set_display
           (option_map
              (fun d =>
                 mkDisplay (desktop_width d) (desktop_height d)
                   (display_zoom_level d) false (display_monitor d)
                   (display_fullscreen d) (allocation_width d))
              (display w))
           (set_window_mapped false
              (set_window_visible false
                 (set_calls
                    (calls w
                     ++ gtk_widget_hide_window
                        :: match display w with
                           | Some _ => [virt_viewer_display_disable_call]
                           | None => []
                           end)
                    w)))).
Proof.
  destruct_window w. cbn [kiosk]. intros ->.
  destruct w_d as [dpy |]; run; settle; reflexivity.
Qed.

(** C7: hide() while kiosk mode is active is rejected: the whole effect of
    the call is one warning in the log; the window record is otherwise the
    one before the call, so the window's visibility and the attached
    display (with its enabled flag) are as they were. *)
Theorem hide_in_kiosk_mode_is_rejected w :
  kiosk w = true ->
  virt_viewer_window_hide w
  = (tt, set_calls
           (calls w ++ [g_warning "Can't hide windows in kiosk mode"%string]) w)
  /\ window_visible (exec virt_viewer_window_hide w) = window_visible w
  /\ display (exec virt_viewer_window_hide w) = display w.
Proof.
  intros Hk.
  assert (E : virt_viewer_window_hide w
              = (tt, set_calls
                       (calls w
                        ++ [g_warning "Can't hide windows in kiosk mode"%string])
                       w)).
  { unfold virt_viewer_window_hide, bind, gets. rewrite Hk. reflexivity. }
  split; [exact E |].
  unfold exec. rewrite E. split; reflexivity.
Qed.

Lemma hide_in_kiosk_mode_is_rejected_witness :
  let w := exec (virt_viewer_window_set_kiosk true) fresh_window_with_display in
  virt_viewer_window_hide w
  = (tt, set_calls
           (calls w ++ [g_warning "Can't hide windows in kiosk mode"%string]) w)
  /\ window_visible (exec virt_viewer_window_hide w) = window_visible w
  /\ display (exec virt_viewer_window_hide w) = display w.
Proof.
  apply (hide_in_kiosk_mode_is_rejected
           (exec (virt_viewer_window_set_kiosk true) fresh_window_with_display)).
  reflexivity.
Defined.

(** C10: with a display attached, hide() outside kiosk mode hides the window
    and then disables the display, and show() enables the display, if it is
    disabled, before it shows the window: afterwards the window is visible
    and the display enabled, respectively hidden and disabled. *)
Theorem show_and_hide_toggle_the_display w d :
  display w = Some d ->
  (kiosk w = false ->
   new_calls virt_viewer_window_hide w
   = [gtk_widget_hide_window; virt_viewer_display_disable_call]
   /\ window_visible (exec virt_viewer_window_hide w) = false
   /\ option_map display_enabled (display (exec virt_viewer_window_hide w))
      = Some false)
  /\ (exists after_show,
        new_calls virt_viewer_window_show w
        = (if display_enabled d then [] else [virt_viewer_display_enable_call])
          ++ (if desktop_resize_pending w then queue_resize_calls else [])
          ++ gtk_widget_show_window :: after_show)
  /\ window_visible (exec virt_viewer_window_show w) = true
  /\ option_map display_enabled (display (exec virt_viewer_window_show w))
     = Some true.
Proof.
  intros Hd. split; [| split; [| split]].
  - intros Hk. unfold new_calls, exec. rewrite (hide_run w Hk).
    cbn [snd]. rewrite Hd. destruct_window w. cbn.
    rewrite appended_calls. repeat split.
  - eexists. apply new_calls_of_appended. rewrite show_calls, Hd.
    reflexivity.
  - apply show_state.
  - destruct (show_state w) as (_ & _ & E). rewrite E, Hd. reflexivity.
Qed.

Lemma show_and_hide_toggle_the_display_witness :
  let w := fresh_window_with_display in
  (new_calls virt_viewer_window_hide w
   = [gtk_widget_hide_window; virt_viewer_display_disable_call]
   /\ window_visible (exec virt_viewer_window_hide w) = false
   /\ option_map display_enabled (display (exec virt_viewer_window_hide w))
      = Some false)
  /\ (exists after_show,
        new_calls virt_viewer_window_show w
        = (if display_enabled sample_display
           then [] else [virt_viewer_display_enable_call])
          ++ (if desktop_resize_pending w then queue_resize_calls else [])
          ++ gtk_widget_show_window :: after_show)
  /\ window_visible (exec virt_viewer_window_show w) = true
  /\ option_map display_enabled (display (exec virt_viewer_window_show w))
     = Some true.
Proof.
  destruct (show_and_hide_toggle_the_display fresh_window_with_display
              sample_display eq_refl) as (Hhide & Hshow).
  split; [apply Hhide; reflexivity | exact Hshow].
Defined.

(* ------------------------------------------------------------------ *)
(** ** Kiosk mode *)

(** C3, as the code has it: setKiosk(false) while kiosk mode is active clears
    the kiosk flag and logs that disabling is not implemented; nothing else
    changes, so the modifiers and the toolkit settings stay as kiosk mode
    left them and the window stays as visible as it was. *)
Theorem set_kiosk_false_only_clears_the_flag w :
  kiosk w = true ->
  virt_viewer_window_set_kiosk false w
  = (tt, set_calls
           (calls w ++ [g_debug "disabling kiosk not implemented yet"%string])
           (set_kiosk false w))
  /\ (let w' := exec (virt_viewer_window_set_kiosk false) w in
      kiosk w' = false
      /\ accel_enabled w' = accel_enabled w
      /\ gtk_menu_bar_accel w' = gtk_menu_bar_accel w
      /\ gtk_enable_mnemonics w' = gtk_enable_mnemonics w
      /\ window_visible w' = window_visible w
      /\ display w' = display w).
Proof.
  intros Hk.
  assert (E : virt_viewer_window_set_kiosk false w
              = (tt, set_calls
                       (calls w
                        ++ [g_debug "disabling kiosk not implemented yet"%string])
                       (set_kiosk false w))).
  { unfold virt_viewer_window_set_kiosk, bind, gets. rewrite Hk. reflexivity. }
  split; [exact E |].
  unfold exec. rewrite E. repeat split.
Qed.

Lemma set_kiosk_false_only_clears_the_flag_witness :
  let w := exec (virt_viewer_window_set_kiosk true) fresh_window in
  virt_viewer_window_set_kiosk false w
  = (tt, set_calls
           (calls w ++ [g_debug "disabling kiosk not implemented yet"%string])
           (set_kiosk false w))
  /\ (let w' := exec (virt_viewer_window_set_kiosk false) w in
      kiosk w' = false
      /\ accel_enabled w' = accel_enabled w
      /\ gtk_menu_bar_accel w' = gtk_menu_bar_accel w
      /\ gtk_enable_mnemonics w' = gtk_enable_mnemonics w
      /\ window_visible w' = window_visible w
      /\ display w' = display w).
Proof.
  apply (set_kiosk_false_only_clears_the_flag
           (exec (virt_viewer_window_set_kiosk true) fresh_window)).
  reflexivity.
Defined.

(** C3 fails as stated: on a fresh window put into kiosk mode and shown,
    setKiosk(false) turns the kiosk flag off, and a hide() that was rejected
    before is carried out after it. *)
Lemma set_kiosk_false_changes_the_state :
  let w := exec virt_viewer_window_show
             (exec (virt_viewer_window_set_kiosk true) fresh_window) in
  let w' := exec (virt_viewer_window_set_kiosk false) w in
  kiosk w = true
  /\ kiosk w' = false
  /\ window_visible (exec virt_viewer_window_hide w) = true
  /\ window_visible (exec virt_viewer_window_hide w') = false.
Proof. vm_compute. repeat split. Qed.

(* ------------------------------------------------------------------ *)
(** ** Modifiers: idempotence and inverse *)

(** C8: disabling the modifiers twice is the same as disabling them once
    (the second call changes nothing and makes no call); enabling them when
    they are enabled changes nothing; and enabling after disabling puts the
    saved menu-bar accelerator and the saved mnemonics setting back and
    re-adds exactly the groups that were removed, those of [accel_list] that
    the exemption rule lets through, in the same order. *)
Theorem modifiers_idempotent_and_inverse w :
  exec virt_viewer_window_disable_modifiers
    (exec virt_viewer_window_disable_modifiers w)
  = exec virt_viewer_window_disable_modifiers w
  /\ new_calls virt_viewer_window_disable_modifiers
       (exec virt_viewer_window_disable_modifiers w) = []
  /\ (accel_enabled w = true ->
      virt_viewer_window_enable_modifiers w = (tt, w)
      /\ (let w1 := exec virt_viewer_window_disable_modifiers w in
          let w2 := exec virt_viewer_window_enable_modifiers w1 in
          new_calls virt_viewer_window_disable_modifiers w
          = map gtk_window_remove_accel_group (non_exempt_groups w)
          /\ new_calls virt_viewer_window_enable_modifiers w1
             = map gtk_window_add_accel_group (non_exempt_groups w)
          /\ gtk_menu_bar_accel w1 = None
          /\ gtk_enable_mnemonics w1 = false
          /\ gtk_menu_bar_accel w2 = gtk_menu_bar_accel w
          /\ gtk_enable_mnemonics w2 = gtk_enable_mnemonics w
          /\ accel_enabled w2 = true)).
Proof.
  assert (Hoff := disable_modifiers_disables w).
  split; [| split].
  - unfold exec at 1. rewrite (disable_modifiers_noop _ Hoff). reflexivity.
  - apply new_calls_of_appended. unfold exec at 1.
    rewrite (disable_modifiers_noop _ Hoff). cbn [snd].
    rewrite app_nil_r. reflexivity.
  - intros Hon. split; [apply enable_modifiers_noop; exact Hon |].
    cbv zeta.
    rewrite (enable_modifiers_effect _ Hoff).
    rewrite (disable_modifiers_effect _ Hon).
    split; [| split].
    + apply new_calls_of_appended.
      rewrite (disable_modifiers_effect _ Hon). reflexivity.
    + apply new_calls_of_appended.
      rewrite enable_modifiers_effect by reflexivity. reflexivity.
    + repeat split.
Qed.

Lemma modifiers_idempotent_and_inverse_witness :
  let w := fresh_window in
  let w1 := exec virt_viewer_window_disable_modifiers w in
  let w2 := exec virt_viewer_window_enable_modifiers w1 in
  virt_viewer_window_enable_modifiers w = (tt, w)
  /\ new_calls virt_viewer_window_disable_modifiers w
     = map gtk_window_remove_accel_group (non_exempt_groups w)
  /\ new_calls virt_viewer_window_enable_modifiers w1
     = map gtk_window_add_accel_group (non_exempt_groups w)
  /\ gtk_menu_bar_accel w1 = None
  /\ gtk_enable_mnemonics w1 = false
  /\ gtk_menu_bar_accel w2 = gtk_menu_bar_accel w
  /\ gtk_enable_mnemonics w2 = gtk_enable_mnemonics w
  /\ accel_enabled w2 = true.
Proof.
  destruct (modifiers_idempotent_and_inverse fresh_window) as (_ & _ & H).
  exact (H eq_refl).
Defined.

(* ------------------------------------------------------------------ *)
(** ** Fullscreen *)

Lemma enter_sequence_option_map f is_mapped d m :
  enter_sequence is_mapped (option_map f d) m = enter_sequence is_mapped d m.
Proof. destruct d; reflexivity. Qed.

(** Leaving fullscreen from a window that has the flag set. *)
Lemma leave_fullscreen_run w :
  fullscreen w = true ->
  virt_viewer_window_leave_fullscreen w
  = (tt, set_calls (calls w ++ leave_sequence (display w))
           (set_display
              (option_map
                 (fun d =>
                    mkDisplay (desktop_width d) (desktop_height d)
                      (display_zoom_level d) (display_enabled d) (-1) false
                      (allocation_width d))
                 (display w))
              (set_fullscreen_monitor (-1)
                 (set_fullscreen false (set_map_event_handlers O w))))).
Proof.
  destruct_window w. cbn [fullscreen]. intros ->.
  destruct w_d as [dpy |]; run; settle; reflexivity.
Qed.

(** Leaving fullscreen from a window that has the flag clear: only the map
    handler is disconnected. *)
Lemma leave_fullscreen_when_normal w :
  fullscreen w = false ->
  virt_viewer_window_leave_fullscreen w
  = (tt, set_map_event_handlers O
           (set_calls (calls w ++ [g_signal_handlers_disconnect_mapped]) w)).
Proof.
  destruct_window w. cbn [fullscreen]. intros ->. reflexivity.
Qed.

(** Entering fullscreen from the normal state, on a mapped window. *)
Lemma enter_fullscreen_mapped_run w m :
  fullscreen w = false -> window_mapped w = true ->
  virt_viewer_window_enter_fullscreen m w
  = (tt, set_calls (calls w ++ enter_sequence true (display w) m)
           (set_display
              (option_map
                 (fun d =>
                    mkDisplay (desktop_width d) (desktop_height d)
                      (display_zoom_level d) (display_enabled d) m true
                      (allocation_width d))
                 (display w))
              (set_fullscreen true (set_fullscreen_monitor m w)))).
Proof.
  destruct_window w. cbn [fullscreen window_mapped]. intros -> ->.
  destruct w_d as [dpy |]; run; settle; destruct (m =? -1); settle;
    reflexivity.
Qed.

(** Entering fullscreen from the normal state, before the window is mapped:
    the window is placed, the flag is set, and the rest waits for the map
    event. *)
Lemma enter_fullscreen_unmapped_run w m :
  fullscreen w = false -> window_mapped w = false ->
  virt_viewer_window_enter_fullscreen m w
  = (tt, set_map_event_handlers (S (map_event_handlers w))
           (set_calls (calls w ++ enter_sequence false (display w) m)
              (set_fullscreen true (set_fullscreen_monitor m w)))).
Proof.
  destruct_window w. cbn [fullscreen window_mapped]. intros -> ->.
  run; settle; destruct (m =? -1); settle; reflexivity.
Qed.

(** Entering fullscreen on the monitor the window is fullscreen on. *)
Lemma enter_fullscreen_same_monitor w m :
  fullscreen w = true -> fullscreen_monitor w = m ->
  virt_viewer_window_enter_fullscreen m w = (tt, w).
Proof.
  destruct_window w. cbn [fullscreen fullscreen_monitor]. intros -> ->.
  run. rewrite Z.eqb_refl. reflexivity.
Qed.

(** Entering fullscreen on another monitor: leave, then enter. *)
Lemma enter_fullscreen_other_monitor w m :
  fullscreen w = true -> fullscreen_monitor w <> m ->
  virt_viewer_window_enter_fullscreen m w
  = virt_viewer_window_enter_fullscreen m
      (exec virt_viewer_window_leave_fullscreen w).
Proof.
  intros Hfs Hm. unfold exec. rewrite (leave_fullscreen_run w Hfs). cbn [snd].
  destruct_window w. cbn [fullscreen fullscreen_monitor] in Hfs, Hm. subst w_fs.
  destruct w_d as [dpy |], w_mp; run;
    destruct (Z.eqb_spec w_fm m); try contradiction; settle;
    destruct (m =? -1); settle; reflexivity.
Qed.

Lemma enter_fullscreen_sets_the_target w m :
  fullscreen (exec (virt_viewer_window_enter_fullscreen m) w) = true
  /\ fullscreen_monitor (exec (virt_viewer_window_enter_fullscreen m) w) = m.
Proof.
  destruct_window w.
  destruct w_fs, w_d as [dpy |], w_mp; run;
    destruct (Z.eqb_spec w_fm m); settle;
    destruct (m =? -1); settle; split; (reflexivity || assumption).
Qed.

(** C6: after enterFullscreen(m1), enterFullscreen(m2) for another monitor
    m2 runs the complete leave sequence once and then the entry for m2 from
    the normal state, so the toolkit is asked to unfullscreen exactly once
    and the window ends fullscreen on m2; enterFullscreen(m) on a window
    that is fullscreen on m changes nothing and makes no call. *)
Theorem monitor_change_leaves_once_then_enters w m1 m2 :
  (m1 <> m2 ->
   let w1 := exec (virt_viewer_window_enter_fullscreen m1) w in
   let w2 := exec (virt_viewer_window_enter_fullscreen m2) w1 in
   w2 = exec (virt_viewer_window_enter_fullscreen m2)
          (exec virt_viewer_window_leave_fullscreen w1)
   /\ new_calls virt_viewer_window_leave_fullscreen w1
      = leave_sequence (display w1)
   /\ new_calls (virt_viewer_window_enter_fullscreen m2) w1
      = leave_sequence (display w1)
        ++ enter_sequence (window_mapped w1) (display w1) m2
   /\ List.length
        (filter is_unfullscreen
           (new_calls (virt_viewer_window_enter_fullscreen m2) w1)) = 1%nat
   /\ fullscreen w2 = true
   /\ fullscreen_monitor w2 = m2)
  /\ (fullscreen w = true -> fullscreen_monitor w = m1 ->
      virt_viewer_window_enter_fullscreen m1 w = (tt, w)).
Proof.
  split; [| apply enter_fullscreen_same_monitor].
  intros Hne. cbv zeta.
  destruct (enter_fullscreen_sets_the_target w m1) as [Hfs Hmon].
  set (w1 := exec (virt_viewer_window_enter_fullscreen m1) w) in *.
  assert (Hother : fullscreen_monitor w1 <> m2) by (rewrite Hmon; exact Hne).
  assert (Hleave := leave_fullscreen_run w1 Hfs).
  assert (Hcalls :
    calls (exec (virt_viewer_window_enter_fullscreen m2) w1)
    = calls w1 ++ leave_sequence (display w1)
      ++ enter_sequence (window_mapped w1) (display w1) m2).
  { unfold exec at 1. rewrite (enter_fullscreen_other_monitor w1 m2 Hfs Hother).
    unfold exec at 1. rewrite Hleave. cbn [snd].
    destruct (window_mapped w1) eqn:Hmp.
    - rewrite enter_fullscreen_mapped_run by (reflexivity || exact Hmp).
      fields. rewrite enter_sequence_option_map, app_assoc. reflexivity.
    - rewrite enter_fullscreen_unmapped_run by (reflexivity || exact Hmp).
      fields. rewrite enter_sequence_option_map, app_assoc. reflexivity. }
  split; [| split; [| split; [| split]]].
  - unfold exec at 1.
    rewrite (enter_fullscreen_other_monitor w1 m2 Hfs Hother). reflexivity.
  - apply new_calls_of_appended. unfold exec. rewrite Hleave. reflexivity.
  - apply new_calls_of_appended. exact Hcalls.
  - rewrite (new_calls_of_appended _ _ _ Hcalls).
    destruct (display w1), (window_mapped w1); cbn;
      unfold move_to_monitor_calls; destruct (m2 =? -1); reflexivity.
  - apply enter_fullscreen_sets_the_target.
Qed.

Lemma monitor_change_leaves_once_then_enters_witness :
  let w := exec virt_viewer_window_show fresh_window_with_display in
  let w1 := exec (virt_viewer_window_enter_fullscreen 0) w in
  let w2 := exec (virt_viewer_window_enter_fullscreen 1) w1 in
  (w2 = exec (virt_viewer_window_enter_fullscreen 1)
          (exec virt_viewer_window_leave_fullscreen w1)
   /\ new_calls virt_viewer_window_leave_fullscreen w1
      = leave_sequence (display w1)
   /\ new_calls (virt_viewer_window_enter_fullscreen 1) w1
      = leave_sequence (display w1)
        ++ enter_sequence (window_mapped w1) (display w1) 1
   /\ List.length
        (filter is_unfullscreen
           (new_calls (virt_viewer_window_enter_fullscreen 1) w1)) = 1%nat
   /\ fullscreen w2 = true
   /\ fullscreen_monitor w2 = 1)
  /\ virt_viewer_window_enter_fullscreen 0 w1 = (tt, w1).
Proof.
  split.
  - apply (proj1 (monitor_change_leaves_once_then_enters
                    (exec virt_viewer_window_show fresh_window_with_display)
                    0 1)).
    discriminate.
  - apply (proj2 (monitor_change_leaves_once_then_enters
                    (exec (virt_viewer_window_enter_fullscreen 0)
                       (exec virt_viewer_window_show fresh_window_with_display))
                    0 1)); reflexivity.
Defined.

(** C1, as the code has it: before the window is mapped, enterFullscreen(m)
    from the normal state only places the window and connects the map
    handler, with no call to the display; leaveFullscreen() then disconnects
    the handler, so a later map event does nothing, and, the fullscreen flag
    having been set by the entry, runs the whole leave sequence: an attached
    display is told monitor -1 and fullscreen off, and only without a display
    are there no calls to its setters. *)
Theorem enter_then_leave_before_map w m :
  window_mapped w = false -> fullscreen w = false ->
  let w1 := exec (virt_viewer_window_enter_fullscreen m) w in
  let w2 := exec virt_viewer_window_leave_fullscreen w1 in
  new_calls (virt_viewer_window_enter_fullscreen m) w
  = move_to_monitor_calls m ++ [g_signal_connect_map_event]
  /\ filter is_display_setter
       (new_calls (virt_viewer_window_enter_fullscreen m) w) = []
  /\ map_event_handlers w1 = S (map_event_handlers w)
  /\ new_calls virt_viewer_window_leave_fullscreen w1
     = leave_sequence (display w)
  /\ filter is_display_setter
       (new_calls virt_viewer_window_leave_fullscreen w1)
     = match display w with
       | Some _ => [virt_viewer_display_set_monitor_call (-1);
                    virt_viewer_display_set_fullscreen_call false]
       | None => []
       end
  /\ map_event_handlers w2 = O
  /\ fullscreen w2 = false
  /\ fullscreen_monitor w2 = -1
  /\ map_event w2 = (tt, w2).
Proof.
  intros Hmp Hfs. cbv zeta.
  assert (Henter := enter_fullscreen_unmapped_run w m Hfs Hmp).
  assert (E1 : new_calls (virt_viewer_window_enter_fullscreen m) w
               = move_to_monitor_calls m ++ [g_signal_connect_map_event]).
  { apply new_calls_of_appended. unfold exec. rewrite Henter. reflexivity. }
  assert (Hw1 : exec (virt_viewer_window_enter_fullscreen m) w
                = snd (virt_viewer_window_enter_fullscreen m w))
    by reflexivity.
  rewrite Henter in Hw1. cbn [snd] in Hw1. rewrite Hw1, E1.
  set (w1 := set_map_event_handlers _ _).
  assert (Hleave := leave_fullscreen_run w1 (eq_refl : fullscreen w1 = true)).
  assert (E2 : new_calls virt_viewer_window_leave_fullscreen w1
               = leave_sequence (display w)).
  { apply new_calls_of_appended. unfold exec. rewrite Hleave. reflexivity. }
  assert (Hw2 : exec virt_viewer_window_leave_fullscreen w1
                = snd (virt_viewer_window_leave_fullscreen w1))
    by reflexivity.
  rewrite Hleave in Hw2. cbn [snd] in Hw2. rewrite Hw2, E2.
  repeat split.
  - unfold move_to_monitor_calls. destruct (m =? -1); reflexivity.
  - destruct (display w); reflexivity.
Qed.

Lemma enter_then_leave_before_map_witness :
  let w := fresh_window_with_display in
  let w1 := exec (virt_viewer_window_enter_fullscreen 0) w in
  let w2 := exec virt_viewer_window_leave_fullscreen w1 in
  new_calls (virt_viewer_window_enter_fullscreen 0) w
  = move_to_monitor_calls 0 ++ [g_signal_connect_map_event]
  /\ filter is_display_setter
       (new_calls (virt_viewer_window_enter_fullscreen 0) w) = []
  /\ map_event_handlers w1 = S (map_event_handlers w)
  /\ new_calls virt_viewer_window_leave_fullscreen w1
     = leave_sequence (display w)
  /\ filter is_display_setter
       (new_calls virt_viewer_window_leave_fullscreen w1)
     = match display w with
       | Some _ => [virt_viewer_display_set_monitor_call (-1);
                    virt_viewer_display_set_fullscreen_call false]
       | None => []
       end
  /\ map_event_handlers w2 = O
  /\ fullscreen w2 = false
  /\ fullscreen_monitor w2 = -1
  /\ map_event w2 = (tt, w2).
Proof.
  apply (enter_then_leave_before_map fresh_window_with_display 0);
    reflexivity.
Defined.

(** C1 fails as stated: on a fresh, never mapped window with a display
    attached, enterFullscreen(0) followed by leaveFullscreen() makes two
    calls to the display's setters, both from leaveFullscreen(). *)
Lemma enter_then_leave_notifies_the_display :
  let w := fresh_window_with_display in
  let w1 := exec (virt_viewer_window_enter_fullscreen 0) w in
  window_mapped w = false
  /\ filter is_display_setter
       (new_calls (virt_viewer_window_enter_fullscreen 0) w
        ++ new_calls virt_viewer_window_leave_fullscreen w1)
     = [virt_viewer_display_set_monitor_call (-1);
        virt_viewer_display_set_fullscreen_call false].
Proof. vm_compute. split; reflexivity. Qed.

(* ------------------------------------------------------------------ *)
(** ** Zoom: arithmetic of the floor *)










Lemma gint_of_integer (k : Z) :
  G_MININT <= k <= G_MAXINT -> gint_of_double (finite (inject_Z k)) = k.
Proof.
  intros H. unfold gint_of_double. cbv zeta.
  assert (E : (if Qle_bool 0 (inject_Z k) then Qfloor (inject_Z k)
               else Qceiling (inject_Z k)) = k).
  { destruct (Qle_bool 0 (inject_Z k));
      [apply Qfloor_Z | apply Qceiling_Z]. }
  rewrite E.
  destruct (Z.leb_spec G_MININT k); [| lia].
  destruct (Z.leb_spec k G_MAXINT); [reflexivity | lia].
Qed.



Lemma CLAMP_in_range x low high :
  low <= high -> low <= CLAMP x low high <= high.
Proof.
  intros H. unfold CLAMP.
  destruct (Z.gtb_spec x high); [lia |].
  destruct (Z.ltb_spec x low); lia.
Qed.

(** The two tests at the head of [virt_viewer_window_set_zoom_level] clamp. *)
Lemma head_tests_clamp low high x :
  low <= high ->
  (if (if x <? low then low else x) >? high then high
   else if x <? low then low else x) = clamp low high x.
Proof.
  intros H. unfold clamp.
  destruct (Z.ltb_spec x low); destruct (Z.gtb_spec low high);
    try destruct (Z.gtb_spec x high); lia.
Qed.

Lemma clamp_in_range low high x : low <= high -> low <= clamp low high x <= high.
Proof. unfold clamp. lia. Qed.

Lemma clamp_idempotent low high x :
  clamp low high (clamp low high x) = clamp low high x.
Proof. unfold clamp. lia. Qed.

Lemma clamp_above low high x : low <= high -> high < x -> clamp low high x = high.
Proof. unfold clamp. lia. Qed.

Lemma clamp_of_high low high : low <= high -> clamp low high high = high.
Proof. unfold clamp. lia. Qed.




Lemma minimal_zoom_level_exact_in_range MIN min_width min_height w h :
  MIN <= NORMAL_ZOOM_LEVEL ->
  MIN <= minimal_zoom_level_exact MIN min_width min_height w h
      <= NORMAL_ZOOM_LEVEL.
Proof. intros H. apply CLAMP_in_range. exact H. Qed.

(* ------------------------------------------------------------------ *)
(** ** Zoom: the operations *)

Section ZoomFacts.

Variables MIN_ZOOM_LEVEL MAX_ZOOM_LEVEL : Z.
Variables MIN_DISPLAY_WIDTH MIN_DISPLAY_HEIGHT : Z.

Local Abbreviation get_minimal_dimensions :=
  (virt_viewer_window_get_minimal_dimensions MIN_DISPLAY_WIDTH MIN_DISPLAY_HEIGHT).
Local Abbreviation get_minimal_zoom_level :=
  (virt_viewer_window_get_minimal_zoom_level
     MIN_ZOOM_LEVEL MIN_DISPLAY_WIDTH MIN_DISPLAY_HEIGHT).
Local Abbreviation set_zoom_level_to :=
  (virt_viewer_window_set_zoom_level
     MIN_ZOOM_LEVEL MAX_ZOOM_LEVEL MIN_DISPLAY_WIDTH MIN_DISPLAY_HEIGHT).

(** The floor is computed without touching the window. *)
Lemma get_minimal_zoom_level_value w dpy :
  display w = Some dpy ->
  get_minimal_zoom_level w
  = (minimal_zoom_level_exact MIN_ZOOM_LEVEL
       (MAX MIN_DISPLAY_WIDTH (top_menu_width w)) MIN_DISPLAY_HEIGHT
       (desktop_width dpy) (desktop_height dpy),
     w).
Proof.
  destruct_window w. cbn [display]. intros ->. reflexivity.
Qed.

(** Without a display the zoom level is stored and nothing else happens. *)
Lemma set_zoom_level_without_display w x :
  display w = None ->
  set_zoom_level_to x w
  = (tt, set_zoomlevel
           (if (if x <? MIN_ZOOM_LEVEL then MIN_ZOOM_LEVEL else x)
               >? MAX_ZOOM_LEVEL
            then MAX_ZOOM_LEVEL
            else if x <? MIN_ZOOM_LEVEL then MIN_ZOOM_LEVEL else x) w).
Proof.
  destruct_window w. cbn [display]. intros ->. reflexivity.
Qed.

(** With a display, the stored zoom level is the clamped request raised to
    the floor. *)
Lemma set_zoom_level_stored w dpy x :
  display w = Some dpy ->
  zoomlevel (exec (set_zoom_level_to x) w)
  = let requested :=
      if (if x <? MIN_ZOOM_LEVEL then MIN_ZOOM_LEVEL else x) >? MAX_ZOOM_LEVEL
      then MAX_ZOOM_LEVEL
      else if x <? MIN_ZOOM_LEVEL then MIN_ZOOM_LEVEL else x in
    let min_zoom := eval get_minimal_zoom_level w in
    if min_zoom >? requested then min_zoom else requested.
Proof.
  intros Hd. unfold eval. rewrite (get_minimal_zoom_level_value w dpy Hd).
  destruct_window w. cbn [display] in Hd. subst w_d.
  run.
  repeat match goal with
         | |- context [if ?b then _ else _] => destruct b; run
         end; reflexivity.
Qed.

(** The request enters [virt_viewer_window_set_zoom_level] only through the
    two tests at its head. *)
Lemma set_zoom_level_of_clamped w x :
  MIN_ZOOM_LEVEL <= MAX_ZOOM_LEVEL ->
  set_zoom_level_to x w
  = set_zoom_level_to (clamp MIN_ZOOM_LEVEL MAX_ZOOM_LEVEL x) w.
Proof.
  intros H. unfold virt_viewer_window_set_zoom_level. cbv zeta.
  rewrite !head_tests_clamp by exact H.
  rewrite clamp_idempotent. reflexivity.
Qed.

(** C5: setZoomLevel(x) clamps x into [MIN_ZOOM_LEVEL, MAX_ZOOM_LEVEL]
    before anything else, so the call is the call on the clamped value, and
    every x above MAX_ZOOM_LEVEL behaves as MAX_ZOOM_LEVEL itself; without a
    display the clamped value is stored, getZoomLevel reads it back, and
    nothing else changes and no call is made. *)
Theorem set_zoom_level_clamps_first w x :
  MIN_ZOOM_LEVEL <= MAX_ZOOM_LEVEL ->
  let c := clamp MIN_ZOOM_LEVEL MAX_ZOOM_LEVEL x in
  MIN_ZOOM_LEVEL <= c <= MAX_ZOOM_LEVEL
  /\ set_zoom_level_to x w = set_zoom_level_to c w
  /\ (MAX_ZOOM_LEVEL < x ->
      set_zoom_level_to x w = set_zoom_level_to MAX_ZOOM_LEVEL w)
  /\ (display w = None ->
      set_zoom_level_to x w = (tt, set_zoomlevel c w)
      /\ eval virt_viewer_window_get_zoom_level (exec (set_zoom_level_to x) w)
         = c
      /\ new_calls (set_zoom_level_to x) w = []).
Proof.
  intros H. cbv zeta. split; [| split; [| split]].
  - apply clamp_in_range. exact H.
  - apply set_zoom_level_of_clamped. exact H.
  - intros Hx. rewrite set_zoom_level_of_clamped by exact H.
    rewrite (clamp_above _ _ _ H Hx).
    rewrite (set_zoom_level_of_clamped w MAX_ZOOM_LEVEL H).
    rewrite (clamp_of_high _ _ H). reflexivity.
  - intros Hd.
    assert (E : set_zoom_level_to x w
                = (tt, set_zoomlevel (clamp MIN_ZOOM_LEVEL MAX_ZOOM_LEVEL x) w)).
    { rewrite (set_zoom_level_without_display w x Hd).
      rewrite head_tests_clamp by exact H. reflexivity. }
    split; [exact E |]. split.
    + unfold exec. rewrite E. reflexivity.
    + apply new_calls_of_appended. unfold exec. rewrite E.
      cbn [snd]. rewrite app_nil_r. reflexivity.
Qed.


End ZoomFacts.

Lemma set_zoom_level_clamps_first_witness :
  let c := clamp 10 400 900 in
  let w := fresh_window in
  (10 <= c <= 400
   /\ virt_viewer_window_set_zoom_level 10 400 50 50 900 w
      = virt_viewer_window_set_zoom_level 10 400 50 50 c w)
  /\ virt_viewer_window_set_zoom_level 10 400 50 50 900 w
     = virt_viewer_window_set_zoom_level 10 400 50 50 400 w
  /\ virt_viewer_window_set_zoom_level 10 400 50 50 900 w
     = (tt, set_zoomlevel c w)
  /\ eval virt_viewer_window_get_zoom_level
       (exec (virt_viewer_window_set_zoom_level 10 400 50 50 900) w) = c
  /\ new_calls (virt_viewer_window_set_zoom_level 10 400 50 50 900) w = [].
Proof.
  destruct (set_zoom_level_clamps_first 10 400 50 50 fresh_window 900)
    as (H1 & H2 & H3 & H4); [lia |].
  split; [split; [exact H1 | exact H2] |].
  split; [apply H3; lia |].
  apply H4. reflexivity.
Defined.



(* ------------------------------------------------------------------ *)
(** ** The machine: what the events leave alone *)

Section MachineFacts.

Variables MIN_ZOOM_LEVEL MAX_ZOOM_LEVEL : Z.
Variables MIN_DISPLAY_WIDTH MIN_DISPLAY_HEIGHT : Z.

Local Abbreviation handle_event :=
  (handle MIN_ZOOM_LEVEL MAX_ZOOM_LEVEL MIN_DISPLAY_WIDTH MIN_DISPLAY_HEIGHT).
Local Abbreviation run_events :=
  (run MIN_ZOOM_LEVEL MAX_ZOOM_LEVEL MIN_DISPLAY_WIDTH MIN_DISPLAY_HEIGHT).

Lemma run_app es1 es2 w :
  run_events (es1 ++ es2) w = run_events es2 (run_events es1 w).
Proof.
  revert w. induction es1 as [| e es1 IH]; intros w; [reflexivity |].
  cbn [app run]. apply IH.
Qed.

(** Only show() and the desktop-resize handler write [desktop_resize_pending]. *)
Lemma handle_preserves_desktop_resize_pending e :
  is_show e = false -> e <> display_desktop_resize ->
  preserves desktop_resize_pending (handle_event e).
Proof.
  intros Hshow Hresize.
  destruct e; try discriminate; try congruence; unfold handle; frame.
Qed.

Lemma desktop_resize_run w :
  virt_viewer_window_desktop_resize w
  = (tt, if window_visible w
         then set_calls (calls w ++ queue_resize_calls) w
         else set_desktop_resize_pending true w).
Proof.
  destruct_window w. destruct w_vis; run; settle; reflexivity.
Qed.

Lemma desktop_resize_keeps_pending w :
  desktop_resize_pending w = true ->
  desktop_resize_pending (exec virt_viewer_window_desktop_resize w) = true.
Proof.
  intros H. unfold exec. rewrite desktop_resize_run. cbn [snd].
  destruct (window_visible w); [exact H | reflexivity].
Qed.

Lemma pending_until_show es w :
  forallb (fun e => negb (is_show e)) es = true ->
  desktop_resize_pending w = true ->
  desktop_resize_pending (run_events es w) = true.
Proof.
  revert w. induction es as [| e es IH]; intros w Hes Hp; [exact Hp |].
  cbn [forallb] in Hes. apply andb_prop in Hes. destruct Hes as [He Hes].
  apply negb_true_iff in He.
  cbn [run]. apply IH; [exact Hes |].
  destruct e; try discriminate He;
    try (rewrite handle_preserves_desktop_resize_pending;
         [exact Hp | reflexivity | discriminate]).
  apply desktop_resize_keeps_pending. exact Hp.
Qed.

(** C9: a desktop-size change on a window that is not visible only sets
    [desktop_resize_pending] and requests no resize; the flag then stays set
    through every event but show(), and show() requests the resize to the
    natural size, before it shows the window, and clears the flag; on a
    visible window the resize to the natural size is requested at once. *)
Theorem desktop_resize_is_deferred_until_shown w :
  (window_visible w = false ->
   virt_viewer_window_desktop_resize w
   = (tt, set_desktop_resize_pending true w))
  /\ (window_visible w = true ->
      virt_viewer_window_desktop_resize w
      = (tt, set_calls (calls w ++ queue_resize_calls) w))
  /\ (desktop_resize_pending w = true ->
      (forall es,
          forallb (fun e => negb (is_show e)) es = true ->
          desktop_resize_pending (run_events es w) = true)
      /\ desktop_resize_pending (exec virt_viewer_window_show w) = false
      /\ exists before after,
           new_calls virt_viewer_window_show w
           = before ++ queue_resize_calls ++ gtk_widget_show_window :: after
           /\ ~ In gtk_widget_show_window before).
Proof.
  split; [| split].
  - intros Hv. rewrite desktop_resize_run, Hv. reflexivity.
  - intros Hv. rewrite desktop_resize_run, Hv. reflexivity.
  - intros Hp. split; [| split].
    + intros es Hes. apply pending_until_show; assumption.
    + apply show_state.
    + eexists; eexists. split.
      * apply new_calls_of_appended. rewrite show_calls, Hp. reflexivity.
      * destruct (display w) as [dpy |]; [destruct (display_enabled dpy) |];
          cbn; intuition discriminate.
Qed.

(* ---------------------------------------------------------------- *)
(** ** The machine: the modifiers *)

(** Only the modifier functions write [accel_enabled]. *)
Lemma handle_preserves_accel_enabled e :
  match e with
  | display_keyboard_grab | display_keyboard_ungrab | set_kiosk_mode _ | show =>
      True
  | _ => preserves accel_enabled (handle_event e)
  end.
Proof. destruct e; try exact I; unfold handle; frame. Qed.

Lemma set_kiosk_keeps_modifiers_off b w :
  accel_enabled w = false ->
  accel_enabled (exec (virt_viewer_window_set_kiosk b) w) = false.
Proof.
  destruct_window w. cbn [accel_enabled]. intros ->.
  destruct b, w_k; run; settle; reflexivity.
Qed.

Lemma show_keeps_modifiers_off w :
  accel_enabled w = false ->
  accel_enabled (exec virt_viewer_window_show w) = false.
Proof.
  destruct_window w. cbn [accel_enabled]. intros ->.
  destruct w_d as [[dw dh dz [|] dm df da] |];
    destruct w_drp, w_k, w_fs; run; settle;
    try destruct (w_fm =? -1); settle; reflexivity.
Qed.

Lemma set_kiosk_true_switches_modifiers_off w :
  kiosk w = false ->
  accel_enabled (exec (virt_viewer_window_set_kiosk true) w) = false.
Proof.
  destruct_window w. cbn [kiosk]. intros ->.
  destruct w_ae; run; settle; reflexivity.
Qed.

Lemma show_in_kiosk_switches_modifiers_off w :
  kiosk w = true ->
  accel_enabled (exec virt_viewer_window_show w) = false.
Proof.
  destruct_window w. cbn [kiosk]. intros ->.
  destruct w_d as [[dw dh dz [|] dm df da] |];
    destruct w_drp, w_ae, w_fs; run; settle;
    try destruct (w_fm =? -1); settle; reflexivity.
Qed.

(** Off stays off under every event but the keyboard ungrab. *)
Lemma modifiers_stay_off e w :
  is_keyboard_ungrab e = false ->
  accel_enabled w = false ->
  accel_enabled (exec (handle_event e) w) = false.
Proof.
  intros He Hoff.
  pose proof (handle_preserves_accel_enabled e) as Hframe.
  destruct e; try discriminate He; try (rewrite Hframe; exact Hoff).
  - apply disable_modifiers_disables.
  - apply set_kiosk_keeps_modifiers_off. exact Hoff.
  - apply show_keeps_modifiers_off. exact Hoff.
Qed.

Lemma modifiers_switched_off e w :
  disables_modifiers e w = true ->
  accel_enabled (exec (handle_event e) w) = false.
Proof.
  intros He. destruct e; try discriminate He.
  - apply disable_modifiers_disables.
  - destruct enabled; [| discriminate He].
    apply set_kiosk_true_switches_modifiers_off.
    apply negb_true_iff. exact He.
  - apply show_in_kiosk_switches_modifiers_off. exact He.
Qed.

Lemma modifiers_off_through es w :
  forallb (fun e => negb (is_keyboard_ungrab e)) es = true ->
  accel_enabled w = false ->
  accel_enabled (run_events es w) = false.
Proof.
  revert w. induction es as [| e es IH]; intros w Hes Hoff; [exact Hoff |].
  cbn [forallb] in Hes. apply andb_prop in Hes. destruct Hes as [He Hes].
  apply negb_true_iff in He.
  cbn [run]. apply IH; [exact Hes |].
  apply modifiers_stay_off; assumption.
Qed.

(** C2, as the code has it: the modifiers are off from every keyboard grab,
    every setKiosk(true) that turns kiosk mode on and every show() in kiosk
    mode until the next keyboard ungrab; only a keyboard ungrab turns them
    on again, and it does so whatever [grabbed] and [kiosk] are; the pointer
    grab and ungrab write [grabbed] and leave the modifiers as they are. *)
Theorem modifiers_off_from_grab_or_kiosk_until_ungrab w :
  (forall before e after,
      disables_modifiers e (run_events before w) = true ->
      forallb (fun e' => negb (is_keyboard_ungrab e')) after = true ->
      accel_enabled (run_events (before ++ e :: after) w) = false)
  /\ (forall e,
         accel_enabled w = false ->
         accel_enabled (exec (handle_event e) w) = true ->
         e = display_keyboard_ungrab)
  /\ accel_enabled (exec (handle_event display_keyboard_ungrab) w) = true
  /\ (accel_enabled (exec (handle_event display_pointer_grab) w)
      = accel_enabled w
      /\ grabbed (exec (handle_event display_pointer_grab) w) = true)
  /\ (accel_enabled (exec (handle_event display_pointer_ungrab) w)
      = accel_enabled w
      /\ grabbed (exec (handle_event display_pointer_ungrab) w) = false).
Proof.
  split; [| split; [| split; [| split]]].
  - intros before e after He Hafter.
    rewrite run_app. cbn [run].
    apply modifiers_off_through; [exact Hafter |].
    apply modifiers_switched_off. exact He.
  - intros e Hoff Hon.
    destruct (is_keyboard_ungrab e) eqn:He.
    + destruct e; try discriminate He. reflexivity.
    + rewrite (modifiers_stay_off e w He Hoff) in Hon. discriminate Hon.
  - apply enable_modifiers_enables.
  - destruct_window w. split; reflexivity.
  - destruct_window w. split; reflexivity.
Qed.

End MachineFacts.

Lemma desktop_resize_is_deferred_until_shown_witness :
  let w := fresh_window_with_display in
  let w1 := exec virt_viewer_window_desktop_resize w in
  virt_viewer_window_desktop_resize w = (tt, set_desktop_resize_pending true w)
  /\ desktop_resize_pending
       (run 10 400 50 50 [display_pointer_grab; set_zoom_level 50] w1) = true
  /\ desktop_resize_pending (exec virt_viewer_window_show w1) = false
  /\ (exists before after,
         new_calls virt_viewer_window_show w1
         = before ++ queue_resize_calls ++ gtk_widget_show_window :: after
         /\ ~ In gtk_widget_show_window before)
  /\ virt_viewer_window_desktop_resize (exec virt_viewer_window_show w1)
     = (tt, set_calls
              (calls (exec virt_viewer_window_show w1) ++ queue_resize_calls)
              (exec virt_viewer_window_show w1)).
Proof.
  destruct (desktop_resize_is_deferred_until_shown 10 400 50 50
              fresh_window_with_display) as (Hhidden & _ & _).
  destruct (desktop_resize_is_deferred_until_shown 10 400 50 50
              (exec virt_viewer_window_desktop_resize fresh_window_with_display))
    as (_ & _ & Hpending).
  destruct (desktop_resize_is_deferred_until_shown 10 400 50 50
              (exec virt_viewer_window_show
                 (exec virt_viewer_window_desktop_resize
                    fresh_window_with_display)))
    as (_ & Hvisible & _).
  destruct (Hpending eq_refl) as (Hkeep & Hclear & Hcalls).
  split; [apply Hhidden; reflexivity |].
  split; [apply Hkeep; reflexivity |].
  split; [exact Hclear |].
  split; [exact Hcalls |].
  apply Hvisible. reflexivity.
Defined.

Lemma modifiers_off_from_grab_or_kiosk_until_ungrab_witness :
  let w := fresh_window_with_display in
  accel_enabled
    (run 10 400 50 50
       ([display_pointer_grab]
        ++ display_keyboard_grab :: [display_pointer_ungrab; show]) w) = false
  /\ accel_enabled
       (run 10 400 50 50
          ([] ++ set_kiosk_mode true :: [display_pointer_grab; hide]) w) = false
  /\ accel_enabled
       (exec (handle 10 400 50 50 display_keyboard_ungrab)
          (run 10 400 50 50 [set_kiosk_mode true] w)) = true.
Proof.
  destruct (modifiers_off_from_grab_or_kiosk_until_ungrab 10 400 50 50
              fresh_window_with_display) as (Hoff & _).
  destruct (modifiers_off_from_grab_or_kiosk_until_ungrab 10 400 50 50
              (run 10 400 50 50 [set_kiosk_mode true] fresh_window_with_display))
    as (_ & _ & Hon & _).
  split; [apply Hoff; reflexivity |].
  split; [apply Hoff; reflexivity |].
  exact Hon.
Defined.

(** C2 fails as stated: after a pointer grab on a fresh window [grabbed] is
    set and the modifiers are enabled; and in kiosk mode a keyboard grab
    followed by a keyboard ungrab leaves the modifiers enabled. *)
Lemma grabbed_or_kiosk_with_modifiers_enabled :
  let w1 := run 10 400 50 50 [display_pointer_grab] fresh_window_with_display in
  let w2 := run 10 400 50 50
              [set_kiosk_mode true; display_keyboard_grab;
               display_keyboard_ungrab] fresh_window_with_display in
  (grabbed w1 = true /\ accel_enabled w1 = true)
  /\ (kiosk w2 = true /\ accel_enabled w2 = true).
Proof. vm_compute. repeat split. Qed.

(* ------------------------------------------------------------------ *)
(** ** The two readings of [double] compared *)

(** In binary64 the floor of the 550x400 desktop with minimal dimensions
    200x150 is 40 as well, and that of the 0x400 desktop is 10. *)
Lemma binary64_floor_of_the_example :
  minimal_zoom_level_binary64 10 200 150 550 400 = 40
  /\ minimal_zoom_level_binary64 10 200 150 0 400 = 10.
Proof. split; vm_compute; reflexivity. Qed.

(** The binary64 and the rational reading give the same floor for minimal
    sizes 50 and 200 on every square desktop of side 0 to 4096. *)
Lemma readings_agree_up_to_4096 :
  readings_agree 50 (sizes 0 4097) = true
  /\ readings_agree 200 (sizes 0 4097) = true.
Proof. split; vm_compute; reflexivity. Qed.

(* ------------------------------------------------------------------ *)
(** ** Send-key actions: which key a name selects *)

Lemma string_length_append (p s : string) :
  String.length (p ++ s) = (String.length p + String.length s)%nat.
Proof. induction p as [| c p IH]; cbn; [reflexivity | rewrite IH; reflexivity]. Qed.

Lemma substring_whole (s : string) : substring 0 (String.length s) s = s.
Proof. induction s as [| c s IH]; cbn; [reflexivity | rewrite IH; reflexivity]. Qed.

Lemma substring_past_prefix (p s : string) (k m : nat) :
  substring (String.length p + k) m (p ++ s) = substring k m s.
Proof. induction p as [| c p IH]; cbn; [reflexivity | exact IH]. Qed.

(** A string is its first [n] characters followed by the rest. *)
Lemma substring_split (s : string) (n : nat) :
  (n <= String.length s)%nat ->
  s = (substring 0 n s ++ substring n (String.length s - n) s)%string.
Proof.
  revert s. induction n as [| n IH]; intros s Hn.
  - cbn. rewrite Nat.sub_0_r, substring_whole.
    destruct s; reflexivity.
  - destruct s as [| c s]; cbn in Hn; [lia |].
    cbn. rewrite <- (IH s) by lia. reflexivity.
Qed.

(** A suffix test on [p ++ s] against a [t] no longer than [s] looks at [s]
    only. *)
Lemma has_suffix_append (p s t : string) :
  (String.length t <= String.length s)%nat ->
  g_str_has_suffix (p ++ s) t = g_str_has_suffix s t.
Proof.
  intros Ht. unfold g_str_has_suffix. rewrite string_length_append.
  destruct (Nat.ltb_spec (String.length p + String.length s) (String.length t));
    [lia |].
  destruct (Nat.ltb_spec (String.length s) (String.length t)); [lia |].
  replace (String.length p + String.length s - String.length t)%nat
    with (String.length p + (String.length s - String.length t))%nat by lia.
  rewrite substring_past_prefix. reflexivity.
Qed.

Lemma has_suffix_true (str t : string) :
  g_str_has_suffix str t = true -> exists p, str = (p ++ t)%string.
Proof.
  unfold g_str_has_suffix. intros H.
  destruct (Nat.ltb_spec (String.length str) (String.length t));
    [discriminate H |].
  apply String.eqb_eq in H.
  exists (substring 0 (String.length str - String.length t) str).
  pose proof (substring_split str (String.length str - String.length t)
                ltac:(lia)) as S.
  replace (String.length str - (String.length str - String.length t))%nat
    with (String.length t) in S by lia.
  rewrite H in S. exact S.
Qed.

(** Settle the suffix tests of a name [p ++ s] with a known end [s]. *)
Ltac suffix_tests :=
  repeat match goal with
         | |- context [g_str_has_suffix (?p ++ ?s) ?t] =>
             rewrite (has_suffix_append p s t) by (cbn; lia);
             let b := eval vm_compute in (g_str_has_suffix s t) in
             change (g_str_has_suffix s t) with b;
             cbv beta iota
         end.

(** X1: whatever precedes it, a name that ends in the label of a function
    key, "f1" to "f12", sends Control_L, Alt_L and that function key: the
    twelve suffix tests never mistake one label for another. *)
Theorem ctrl_alt_fn_sends_the_named_key (prefix label : string) (key : GdkKey) :
  In (label, key) function_keys ->
  ctrl_alt_fn_activated (prefix ++ label)
  = Some [GDK_KEY_Control_L; GDK_KEY_Alt_L; key].
Proof.
  intros Hin. unfold function_keys in Hin. cbn [In] in Hin.
  repeat (destruct Hin as [Hin | Hin]; [inversion Hin; subst; clear Hin |]);
    try contradiction;
    unfold ctrl_alt_fn_activated; cbv zeta; suffix_tests; reflexivity.
Qed.

Lemma ctrl_alt_fn_sends_the_named_key_witness :
  ctrl_alt_fn_activated ("ctrl+alt+" ++ "f11")
  = Some [GDK_KEY_Control_L; GDK_KEY_Alt_L; GDK_KEY_F11].
Proof.
  apply (ctrl_alt_fn_sends_the_named_key "ctrl+alt+" "f11" GDK_KEY_F11).
  cbn. tauto.
Defined.

(** X2: [ctrl_alt_fn_activated] sends keys only for a name that ends in the
    label of a function key, and then exactly Control_L, Alt_L and that key;
    for every other name it returns without sending. *)
Theorem ctrl_alt_fn_sends_only_for_a_label (name : string) (keys : list GdkKey) :
  ctrl_alt_fn_activated name = Some keys ->
  exists prefix label key,
    In (label, key) function_keys
    /\ name = (prefix ++ label)%string
    /\ keys = [GDK_KEY_Control_L; GDK_KEY_Alt_L; key].
Proof.
  unfold ctrl_alt_fn_activated. cbv zeta. intros H.
  repeat match type of H with
         | (if g_str_has_suffix name ?t then _ else _) = _ =>
             destruct (g_str_has_suffix name t) eqn:E;
             [ apply has_suffix_true in E; destruct E as [p ->];
               inversion H; subst; clear H;
               eexists p, _, _; split; [| split; reflexivity];
               cbn; tauto
             | clear E ]
         end.
  discriminate H.
Qed.

Lemma ctrl_alt_fn_sends_only_for_a_label_witness :
  exists prefix label key,
    In (label, key) function_keys
    /\ "ctrl+alt+f3"%string = (prefix ++ label)%string
    /\ [GDK_KEY_Control_L; GDK_KEY_Alt_L; GDK_KEY_F3]
       = [GDK_KEY_Control_L; GDK_KEY_Alt_L; key].
Proof.
  apply (ctrl_alt_fn_sends_only_for_a_label "ctrl+alt+f3").
  reflexivity.
Defined.

(** X3: every entry of [send_key_entries] that is bound to
    [ctrl_alt_fn_activated] is named "ctrl+alt+" followed by the label of a
    function key and sends that key: no registered action falls through to
    the silent return. *)
Theorem send_key_entries_reach_their_key (entry : string * SendKeyCallback) :
  In entry send_key_entries ->
  snd entry = ctrl_alt_fn_activated_callback ->
  exists label key,
    In (label, key) function_keys
    /\ fst entry = ("ctrl+alt+" ++ label)%string
    /\ activate_send_key_entry entry
       = Some [GDK_KEY_Control_L; GDK_KEY_Alt_L; key].
Proof.
  intros Hin Hcb. unfold send_key_entries in Hin. cbn [In] in Hin.
  repeat (destruct Hin as [Hin | Hin]; [subst entry |]);
    try contradiction; try discriminate Hcb;
    (eexists _, _; split; [| split]; [| reflexivity | reflexivity];
     cbn; tauto).
Qed.

Lemma send_key_entries_reach_their_key_witness :
  exists label key,
    In (label, key) function_keys
    /\ "ctrl+alt+f10"%string = ("ctrl+alt+" ++ label)%string
    /\ activate_send_key_entry
         ("ctrl+alt+f10"%string, ctrl_alt_fn_activated_callback)
       = Some [GDK_KEY_Control_L; GDK_KEY_Alt_L; key].
Proof.
  apply (send_key_entries_reach_their_key
           ("ctrl+alt+f10"%string, ctrl_alt_fn_activated_callback)).
  - cbn. tauto.
  - reflexivity.
Defined.

(* ------------------------------------------------------------------ *)
(** ** Screenshots: the format table *)

Lemma find_filter_implied {A} (P Q : A -> bool) (l : list A) :
  (forall a, P a = true -> Q a = true) ->
  find P (filter Q l) = find P l.
Proof.
  intros H. induction l as [| a l IH]; [reflexivity |].
  cbn. destruct (Q a) eqn:Eq; cbn.
  - rewrite IH. reflexivity.
  - destruct (P a) eqn:Ep; [| exact IH].
    rewrite (H a Ep) in Eq. discriminate Eq.
Qed.

Lemma find_app {A} (P : A -> bool) (l1 l2 : list A) :
  find P (l1 ++ l2)
  = match find P l1 with Some a => Some a | None => find P l2 end.
Proof.
  induction l1 as [| a l1 IH]; [reflexivity |].
  cbn. destruct (P a); [reflexivity | exact IH].
Qed.

(** A lookup after an insertion finds the inserted value under its key and
    the former contents elsewhere. *)
Lemma lookup_insert table key value key' :
  g_hash_table_lookup (g_hash_table_insert table key value) key'
  = if String.eqb key key' then Some value
    else g_hash_table_lookup table key'.
Proof.
  unfold g_hash_table_lookup, g_hash_table_insert. cbn [find fst snd].
  destruct (String.eqb_spec key key') as [-> | Hne]; [reflexivity |].
  rewrite find_filter_implied; [reflexivity |].
  intros [k v]. cbn. intros Hk. apply String.eqb_eq in Hk. subst k.
  apply negb_true_iff. apply String.eqb_neq. congruence.
Qed.

Lemma lookup_insert_extensions data exts table key :
  g_hash_table_lookup
    (fold_left (fun t ext => g_hash_table_insert t ext data) exts table) key
  = if existsb (String.eqb key) exts then Some data
    else g_hash_table_lookup table key.
Proof.
  revert table. induction exts as [| e exts IH]; intros table; [reflexivity |].
  cbn [fold_left existsb]. rewrite IH, lookup_insert.
  rewrite (String.eqb_sym key e).
  destruct (String.eqb e key), (existsb (String.eqb key) exts); reflexivity.
Qed.

Lemma lookup_add_if_writable data table key :
  g_hash_table_lookup (add_if_writable data table) key
  = if writes_extension key data then Some data
    else g_hash_table_lookup table key.
Proof.
  unfold add_if_writable, writes_extension.
  destruct (gdk_pixbuf_format_is_writable data); cbn [andb].
  - apply lookup_insert_extensions.
  - reflexivity.
Qed.

Lemma lookup_fold_formats formats table key :
  g_hash_table_lookup
    (fold_left (fun format_map data => add_if_writable data format_map)
       formats table) key
  = match find (writes_extension key) (rev formats) with
    | Some format => Some format
    | None => g_hash_table_lookup table key
    end.
Proof.
  revert table. induction formats as [| f formats IH]; intros table;
    [reflexivity |].
  cbn [fold_left rev]. rewrite IH, find_app, lookup_add_if_writable.
  destruct (find (writes_extension key) (rev formats)); [reflexivity |].
  cbn [find]. destruct (writes_extension key f); reflexivity.
Qed.

Lemma strrchr_starts_with s c tail :
  strrchr s c = Some tail -> exists rest, tail = String c rest.
Proof.
  revert tail. induction s as [| a s IH]; intros tail H; [discriminate H |].
  cbn in H. destruct (strrchr s c) as [t |].
  - inversion H; subst. apply IH. reflexivity.
  - destruct (Ascii.eqb_spec a c) as [-> | _]; [| discriminate H].
    inversion H; subst. eexists. reflexivity.
Qed.

(** X4: the format of a file name is the last writable format, in the order
    of [gdk_pixbuf_get_formats], that lists the text after the name's last
    dot among its extensions; a name without a dot has no format, and a
    format that cannot be written is never chosen. *)
Theorem get_image_format_is_the_last_writable_match
    (formats : list GdkPixbufFormat) (filename : string) :
  get_image_format formats filename
  = match extension_of filename with
    | Some ext => find (writes_extension ext) (rev formats)
    | None => None
    end
  /\ (forall format,
        get_image_format formats filename = Some format ->
        In format formats
        /\ gdk_pixbuf_format_is_writable format = true
        /\ exists ext,
             extension_of filename = Some ext
             /\ In ext (gdk_pixbuf_format_get_extensions format)).
Proof.
  assert (E : get_image_format formats filename
              = match extension_of filename with
                | Some ext => find (writes_extension ext) (rev formats)
                | None => None
                end).
  { unfold get_image_format, extension_of, init_image_formats.
    destruct (strrchr filename ".") as [tail |] eqn:Et; [| reflexivity].
    destruct (strrchr_starts_with _ _ _ Et) as [rest ->].
    rewrite lookup_fold_formats.
    destruct (find (writes_extension rest) (rev formats)); reflexivity. }
  split; [exact E |].
  intros format H. rewrite E in H.
  destruct (extension_of filename) as [ext |]; [| discriminate H].
  apply find_some in H. destruct H as [Hin Hw].
  apply andb_prop in Hw. destruct Hw as [Hw Hext].
  apply existsb_exists in Hext. destruct Hext as (e & He & Heq).
  apply String.eqb_eq in Heq. subst e.
  split; [apply in_rev; exact Hin |].
  split; [exact Hw |].
  exists ext. split; [reflexivity | exact He].
Qed.

(** X5: a screenshot whose name has the extension of a writable format is
    saved under that very name in that format; every other screenshot is
    saved as PNG, with the generator text, under a name that ends in ".png":
    the given name if it ends so, the name with ".png" appended if not. *)
Theorem save_screenshot_name_and_type
    (formats : list GdkPixbufFormat) (file : string) :
  let save := virt_viewer_window_save_screenshot formats file in
  match get_image_format formats file with
  | Some format =>
      save = mkSave file (gdk_pixbuf_format_get_name format) false
  | None =>
      save_type save = "png"%string
      /\ save_generator_text save = true
      /\ g_str_has_suffix (save_filename save) ".png" = true
      /\ save_filename save
         = if g_str_has_suffix file ".png" then file
           else (file ++ ".png")%string
  end.
Proof.
  cbv zeta. unfold virt_viewer_window_save_screenshot.
  destruct (get_image_format formats file); [reflexivity |].
  destruct (g_str_has_suffix file ".png") eqn:E; cbn.
  - repeat split. exact E.
  - repeat split. rewrite has_suffix_append by (cbn; lia). reflexivity.
Qed.

(* ------------------------------------------------------------------ *)
(** ** The show hint and the zoom actions *)

Ltac frame_actions :=
  unfold perform, display_show_hint, zoom_in_activated, zoom_out_activated,
    zoom_reset_activated, virt_viewer_window_menu_view_fullscreen,
    virt_viewer_window_headerbar_leave_fullscreen,
    virt_viewer_window_set_fullscreen, handle;
  frame.

Section ActionFacts.

Variables MIN_ZOOM_LEVEL MAX_ZOOM_LEVEL : Z.
Variables MIN_DISPLAY_WIDTH MIN_DISPLAY_HEIGHT : Z.
Variable VIRT_VIEWER_DISPLAY_SHOW_HINT_READY : Z.

Local Abbreviation set_zoom :=
  (virt_viewer_window_set_zoom_level
     MIN_ZOOM_LEVEL MAX_ZOOM_LEVEL MIN_DISPLAY_WIDTH MIN_DISPLAY_HEIGHT).
Local Abbreviation minimal_zoom :=
  (virt_viewer_window_get_minimal_zoom_level
     MIN_ZOOM_LEVEL MIN_DISPLAY_WIDTH MIN_DISPLAY_HEIGHT).
Local Abbreviation show_hint :=
  (display_show_hint MIN_ZOOM_LEVEL MAX_ZOOM_LEVEL MIN_DISPLAY_WIDTH
     MIN_DISPLAY_HEIGHT VIRT_VIEWER_DISPLAY_SHOW_HINT_READY).
Local Abbreviation perform_action :=
  (perform MIN_ZOOM_LEVEL MAX_ZOOM_LEVEL MIN_DISPLAY_WIDTH
     MIN_DISPLAY_HEIGHT VIRT_VIEWER_DISPLAY_SHOW_HINT_READY).
Local Abbreviation run_all :=
  (run_actions MIN_ZOOM_LEVEL MAX_ZOOM_LEVEL MIN_DISPLAY_WIDTH
     MIN_DISPLAY_HEIGHT VIRT_VIEWER_DISPLAY_SHOW_HINT_READY).

Lemma run_actions_app acts1 acts2 w :
  run_all (acts1 ++ acts2) w = run_all acts2 (run_all acts1 w).
Proof.
  revert w. induction acts1 as [| a acts1 IH]; intros w; [reflexivity |].
  cbn [app run_actions]. apply IH.
Qed.

Lemma set_zoom_level_keeps_initial_zoom_set x :
  preserves initial_zoom_set (set_zoom x).
Proof. frame. Qed.

Lemma show_hint_run emitter w hint :
  show_hint emitter hint w
  = if negb (initial_zoom_set w)
       && negb (Z.land hint VIRT_VIEWER_DISPLAY_SHOW_HINT_READY =? 0)
       && display_enabled emitter
    then set_zoom (zoomlevel w) (set_initial_zoom_set true w)
    else (tt, w).
Proof.
  unfold display_show_hint. cbv zeta. unfold bind at 1, gets at 1.
  destruct (negb (initial_zoom_set w)
            && negb (Z.land hint VIRT_VIEWER_DISPLAY_SHOW_HINT_READY =? 0)
            && display_enabled emitter); reflexivity.
Qed.

(** X6: the zoom level is pushed on the show hint at most once.  A
    notification applies the stored zoom level, and sets
    [initial_zoom_set], exactly when the emitting display is enabled, its
    hint has the READY bit and the flag is still clear; every other
    notification changes nothing; and once the flag is set no sequence of
    notifications changes the window or makes a call. *)
Theorem show_hint_applies_the_zoom_once emitter w hint :
  (initial_zoom_set w = false ->
   Z.land hint VIRT_VIEWER_DISPLAY_SHOW_HINT_READY <> 0 ->
   display_enabled emitter = true ->
   show_hint emitter hint w
   = set_zoom (zoomlevel w) (set_initial_zoom_set true w)
   /\ initial_zoom_set (exec (show_hint emitter hint) w) = true)
  /\ (initial_zoom_set w = true
      \/ Z.land hint VIRT_VIEWER_DISPLAY_SHOW_HINT_READY = 0
      \/ display_enabled emitter = false ->
      show_hint emitter hint w = (tt, w))
  /\ (initial_zoom_set w = true ->
      forall notifications,
        run_all
          (map (fun n => display_notify_show_hint (fst n) (snd n))
             notifications) w
        = w).
Proof.
  split; [| split].
  - intros Hz Hr He.
    assert (E : show_hint emitter hint w
                = set_zoom (zoomlevel w) (set_initial_zoom_set true w)).
    { rewrite show_hint_run, Hz, He.
      destruct (Z.eqb_spec (Z.land hint VIRT_VIEWER_DISPLAY_SHOW_HINT_READY) 0);
        [contradiction | reflexivity]. }
    split; [exact E |].
    unfold exec. rewrite E.
    apply (set_zoom_level_keeps_initial_zoom_set (zoomlevel w)
             (set_initial_zoom_set true w)).
  - intros H. rewrite show_hint_run.
    destruct H as [H | [H | H]]; rewrite H.
    + reflexivity.
    + cbn. rewrite andb_false_r. reflexivity.
    + rewrite andb_false_r. reflexivity.
  - intros Hz notifications.
    induction notifications as [| n notifications IH]; [reflexivity |].
    cbn [map run_actions]. unfold exec. cbn [perform].
    rewrite show_hint_run, Hz. cbn [negb andb snd]. exact IH.
Qed.

(* ---------------------------------------------------------------- *)
(** ** The stored zoom level stays within its bounds *)

Lemma set_zoom_level_in_range x w :
  MIN_ZOOM_LEVEL <= NORMAL_ZOOM_LEVEL <= MAX_ZOOM_LEVEL ->
  zoom_in_range MIN_ZOOM_LEVEL MAX_ZOOM_LEVEL (exec (set_zoom x) w).
Proof.
  intros H. unfold zoom_in_range.
  assert (Hc := clamp_in_range MIN_ZOOM_LEVEL MAX_ZOOM_LEVEL x ltac:(lia)).
  destruct (display w) as [dpy |] eqn:Hd.
  - rewrite (set_zoom_level_stored _ _ _ _ w dpy x Hd). cbv zeta.
    rewrite head_tests_clamp by lia.
    unfold eval.
    rewrite (get_minimal_zoom_level_value _ _ _ w dpy Hd). cbn [fst].
    match goal with
    | |- context [minimal_zoom_level_exact ?m ?a ?b ?c ?d] =>
        pose proof (minimal_zoom_level_exact_in_range m a b c d ltac:(lia))
          as Hf
    end.
    match goal with
    | |- context [?a >? ?b] => destruct (Z.gtb_spec a b)
    end; lia.
  - unfold exec.
    rewrite (set_zoom_level_without_display _ _ _ _ w x Hd).
    cbn [snd]. rewrite head_tests_clamp by lia.
    destruct w; exact Hc.
Qed.

Lemma perform_keeps_zoom_in_range a w :
  MIN_ZOOM_LEVEL <= NORMAL_ZOOM_LEVEL <= MAX_ZOOM_LEVEL ->
  zoom_in_range MIN_ZOOM_LEVEL MAX_ZOOM_LEVEL w ->
  zoom_in_range MIN_ZOOM_LEVEL MAX_ZOOM_LEVEL (exec (perform_action a) w).
Proof.
  intros H Hw.
  assert (Hkeep : forall m : M unit,
             preserves zoomlevel m ->
             zoom_in_range MIN_ZOOM_LEVEL MAX_ZOOM_LEVEL (exec m w)).
  { intros m Hm. unfold zoom_in_range. rewrite Hm. exact Hw. }
  destruct a as [e | emitter hint | | | | app_fs | app_fs].
  - destruct e; try solve [apply Hkeep; frame_actions].
    apply set_zoom_level_in_range. exact H.
  - cbn [perform]. unfold exec. rewrite show_hint_run.
    match goal with |- context [if ?b then _ else _] => destruct b end;
      [| exact Hw].
    apply set_zoom_level_in_range. exact H.
  - cbn [perform]. unfold zoom_in_activated. rewrite exec_bind.
    apply set_zoom_level_in_range. exact H.
  - cbn [perform]. unfold zoom_out_activated. rewrite exec_bind.
    apply set_zoom_level_in_range. exact H.
  - apply set_zoom_level_in_range. exact H.
  - apply Hkeep. frame_actions.
  - apply Hkeep. frame_actions.
Qed.

(** X7: with MIN_ZOOM_LEVEL <= NORMAL_ZOOM_LEVEL <= MAX_ZOOM_LEVEL, the
    stored zoom level of a window never leaves
    [MIN_ZOOM_LEVEL, MAX_ZOOM_LEVEL]: a freshly built window is inside, and
    every event, show hint and menu action keeps it inside, raised to the
    floor or not. *)
Theorem zoom_level_stays_in_range acts w :
  MIN_ZOOM_LEVEL <= NORMAL_ZOOM_LEVEL <= MAX_ZOOM_LEVEL ->
  zoom_in_range MIN_ZOOM_LEVEL MAX_ZOOM_LEVEL w ->
  zoom_in_range MIN_ZOOM_LEVEL MAX_ZOOM_LEVEL (run_all acts w).
Proof.
  intros H. revert w. induction acts as [| a acts IH]; intros w Hw;
    [exact Hw |].
  cbn [run_actions]. apply IH. apply perform_keeps_zoom_in_range; assumption.
Qed.

(** X8: with a display attached, no request stores a zoom level below the
    floor computed from the desktop size; and "zoom reset" stores exactly
    NORMAL_ZOOM_LEVEL, with or without a display, because the floor never
    exceeds it. *)
Theorem zoom_never_below_the_floor_and_reset_is_normal w :
  MIN_ZOOM_LEVEL <= NORMAL_ZOOM_LEVEL <= MAX_ZOOM_LEVEL ->
  (forall x dpy,
      display w = Some dpy ->
      eval minimal_zoom w <= zoomlevel (exec (set_zoom x) w)
      /\ eval minimal_zoom (exec (set_zoom x) w) = eval minimal_zoom w)
  /\ zoomlevel
       (exec (zoom_reset_activated MIN_ZOOM_LEVEL MAX_ZOOM_LEVEL
                MIN_DISPLAY_WIDTH MIN_DISPLAY_HEIGHT) w)
     = NORMAL_ZOOM_LEVEL.
Proof.
  intros H. split.
  - intros x dpy Hd. split.
    + rewrite (set_zoom_level_stored _ _ _ _ w dpy x Hd). cbv zeta.
      match goal with
      | |- context [?a >? ?b] => destruct (Z.gtb_spec a b)
      end; lia.
    + unfold eval.
      assert (Hd' : exists dpy', display (exec (set_zoom x) w) = Some dpy'
                                 /\ desktop_width dpy' = desktop_width dpy
                                 /\ desktop_height dpy' = desktop_height dpy).
      { destruct_window w. cbn [display] in Hd. subst w_d. run.
        repeat match goal with
               | |- context [if ?b then _ else _] => destruct b; run
               end; eexists; repeat split. }
      destruct Hd' as (dpy' & Hd' & Ew & Eh).
      rewrite (get_minimal_zoom_level_value _ _ _ _ dpy' Hd').
      rewrite (get_minimal_zoom_level_value _ _ _ w dpy Hd).
      cbn [fst]. rewrite Ew, Eh.
      assert (Et : top_menu_width (exec (set_zoom x) w) = top_menu_width w).
      { assert (P : preserves top_menu_width (set_zoom x)) by frame.
        apply P. }
      rewrite Et. reflexivity.
  - unfold zoom_reset_activated.
    destruct (display w) as [dpy |] eqn:Hd.
    + rewrite (set_zoom_level_stored _ _ _ _ w dpy _ Hd). cbv zeta.
      rewrite head_tests_clamp by lia.
      unfold eval.
      rewrite (get_minimal_zoom_level_value _ _ _ w dpy Hd). cbn [fst].
      match goal with
      | |- context [minimal_zoom_level_exact ?m ?a ?b ?c ?d] =>
          pose proof (minimal_zoom_level_exact_in_range m a b c d ltac:(lia))
            as Hf
      end.
      unfold clamp.
      match goal with
      | |- context [?a >? ?b] => destruct (Z.gtb_spec a b)
      end; lia.
    + unfold exec.
      rewrite (set_zoom_level_without_display _ _ _ _ w _ Hd).
      cbn [snd]. rewrite head_tests_clamp by lia.
      destruct w; cbn. unfold clamp. lia.
Qed.

End ActionFacts.

(* ------------------------------------------------------------------ *)
(** ** The real zoom level *)

(** On a positive divisor, [round] of the quotient is an integer division. *)
Lemma round_of_quotient (n a b : Z) :
  0 < b -> 0 <= n -> 0 <= a ->
  round (double_of_int n * double_of_int a / double_of_int b)%double
  = finite (inject_Z ((n * a * 2 + b) / (b * 2))).
Proof.
  intros Hb Hn Ha. destruct b as [| p | p]; try lia.
  unfold double_of_int, double_mul, double_div.
  change (Qeq_bool (inject_Z (Z.pos p)) 0) with false. cbv iota.
  unfold round. f_equal. f_equal.
  unfold Qle_bool, Qdiv, Qmult, Qinv, Qplus, Qfloor, inject_Z.
  cbn -[Z.mul Z.add Z.div Z.leb Qceiling].
  rewrite !Z.mul_1_r, ?Z.mul_0_l, ?Z.mul_1_l.
  destruct (Z.leb_spec 0 (n * a)); [| nia].
  rewrite ?Pos2Z.inj_mul. reflexivity.
Qed.

Lemma round_is_nearest (n a b : Z) :
  0 < b -> 0 <= n -> 0 <= a ->
  n * a <= G_MAXINT * b ->
  let r := gint_of_double
             (round (double_of_int n * double_of_int a
                     / double_of_int b)%double) in
  2 * (n * a) - b < 2 * r * b <= 2 * (n * a) + b.
Proof.
  intros Hb Hn Ha Hfit. cbv zeta.
  rewrite round_of_quotient by assumption.
  pose proof (Z.div_mod (n * a * 2 + b) (b * 2) ltac:(lia)) as D.
  pose proof (Z.mod_pos_bound (n * a * 2 + b) (b * 2) ltac:(lia)) as B.
  set (q := (n * a * 2 + b) / (b * 2)) in *.
  set (m := (n * a * 2 + b) mod (b * 2)) in *.
  assert (Hq : G_MININT <= q <= G_MAXINT).
  { unfold G_MININT, G_MAXINT in *. split; nia. }
  rewrite gint_of_integer by exact Hq. nia.
Qed.

(** X9: with a display attached, [virt_viewer_window_get_real_zoom_level]
    reads the window only, and for a desktop of positive width and a
    non-negative allocated width, with NORMAL_ZOOM_LEVEL * allocated width /
    desktop width at most G_MAXINT, it returns the integer nearest to that
    quotient, the upper one at a tie; without a display it logs a critical
    and returns NORMAL_ZOOM_LEVEL. *)
Theorem real_zoom_level_is_the_nearest_percentage w :
  (forall dpy,
      display w = Some dpy ->
      0 < desktop_width dpy -> 0 <= allocation_width dpy ->
      NORMAL_ZOOM_LEVEL * allocation_width dpy
      <= G_MAXINT * desktop_width dpy ->
      let real := eval virt_viewer_window_get_real_zoom_level w in
      exec virt_viewer_window_get_real_zoom_level w = w
      /\ 2 * (NORMAL_ZOOM_LEVEL * allocation_width dpy) - desktop_width dpy
         < 2 * real * desktop_width dpy
         <= 2 * (NORMAL_ZOOM_LEVEL * allocation_width dpy) + desktop_width dpy)
  /\ (display w = None ->
      eval virt_viewer_window_get_real_zoom_level w = NORMAL_ZOOM_LEVEL
      /\ new_calls virt_viewer_window_get_real_zoom_level w
         = [g_critical "self->priv->display != NULL"%string]).
Proof.
  split.
  - intros dpy Hd Hw Ha Hfit. cbv zeta.
    unfold exec, eval, virt_viewer_window_get_real_zoom_level, bind, gets.
    rewrite Hd. cbn [fst snd ret]. split; [reflexivity |].
    apply round_is_nearest; [exact Hw | discriminate | exact Ha | exact Hfit].
  - intros Hd. split.
    + unfold eval, virt_viewer_window_get_real_zoom_level, bind, gets.
      rewrite Hd. reflexivity.
    + apply new_calls_of_appended.
      unfold exec, virt_viewer_window_get_real_zoom_level, bind, gets.
      rewrite Hd. reflexivity.
Qed.

(** Outside these bounds the conversion to [gint] decides.  On a desktop of
    width 0 the quotient is an infinity or a NaN, and the real zoom level is
    [G_MININT]. *)
Lemma real_zoom_level_on_a_zero_width_desktop w dpy :
  display w = Some dpy -> desktop_width dpy = 0 ->
  eval virt_viewer_window_get_real_zoom_level w = G_MININT.
Proof.
  intros Hd Hw.
  unfold eval, virt_viewer_window_get_real_zoom_level, bind, gets.
  rewrite Hd. cbn [fst ret]. rewrite Hw.
  unfold double_of_int, double_mul, double_div.
  change (Qeq_bool (inject_Z 0) 0) with true. cbv iota.
  destruct (Qeq_bool _ 0); reflexivity.
Qed.

(** It is [G_MININT] as well when the rounded quotient is beyond
    [G_MAXINT], as for an allocation 30000000 wide on a desktop of width 1;
    and "zoom out" on a desktop of size 0x0 then asks for
    [G_MININT - ZOOM_STEP], which wraps around to a large level and stores
    the maximum. *)
Lemma real_zoom_level_beyond_gint :
  let wide := set_display (Some (mkDisplay 1 400 100 true (-1) false 30000000))
                fresh_window in
  let empty := set_display (Some (mkDisplay 0 0 100 true (-1) false 0))
                 fresh_window in
  eval virt_viewer_window_get_real_zoom_level wide = G_MININT
  /\ zoomlevel (exec (zoom_out_activated 10 400 50 50) empty) = 400.
Proof. split; vm_compute; reflexivity. Qed.

(* ------------------------------------------------------------------ *)
(** ** Fullscreen bookkeeping *)

(** [preserves] for observations of the attached display. *)
Ltac frame_display :=
  repeat first
    [ apply preserves_ret
    | apply preserves_gets
    | apply preserves_modify; intros ?;
      first [ reflexivity
            | cbn; match goal with
                   | |- context [display ?w] => destruct (display w)
                   end; reflexivity ]
    | apply preserves_for_each; intros ?
    | apply preserves_bind; [ | intros ? ]
    | match goal with
      | |- preserves _ (if ?b then _ else _) => destruct b
      | |- preserves _ (match ?d with _ => _ end) => destruct d
      end
    | progress frame_unfold ].

Lemma consistent_of_same_observations w w' :
  map_event_handlers w' = map_event_handlers w ->
  fullscreen w' = fullscreen w ->
  fullscreen_monitor w' = fullscreen_monitor w ->
  option_map display_monitor (display w')
  = option_map display_monitor (display w) ->
  option_map display_fullscreen (display w')
  = option_map display_fullscreen (display w) ->
  fullscreen_consistent w -> fullscreen_consistent w'.
Proof.
  intros E1 E2 E3 E4 E5 (H1 & H2 & H3 & H4).
  unfold fullscreen_consistent. rewrite E1, E2, E3.
  split; [exact H1 |]. split; [exact H2 |]. split; [exact H3 |].
  intros Hh d' Hd. rewrite Hd in E4, E5.
  destruct (display w) as [d0 |]; [| discriminate E4].
  destruct (H4 Hh d0 eq_refl) as [A B].
  cbn in E4, E5. split; congruence.
Qed.

Ltac consistent_cases :=
  repeat split; intros; cbn in *;
  repeat match goal with
         | H : Some _ = Some _ |- _ => inversion H; subst; clear H
         | H : ?a = ?a -> _ |- _ => specialize (H eq_refl)
         | H : forall d, Some ?x = Some d -> _ |- _ =>
             specialize (H x eq_refl)
         | H : _ /\ _ |- _ => destruct H
         end;
  cbn in *; subst; try reflexivity; try lia; try congruence.

Lemma enter_fullscreen_keeps_consistent m w :
  fullscreen_consistent w ->
  fullscreen_consistent (exec (virt_viewer_window_enter_fullscreen m) w).
Proof.
  destruct_window w. unfold fullscreen_consistent.
  cbn [map_event_handlers fullscreen fullscreen_monitor display].
  intros (H1 & H2 & H3 & H4).
  destruct w_meh as [| [| n]]; [| | lia];
    destruct w_fs, w_d as [[dw dh dz de dm df da] |], w_mp; run;
    destruct (Z.eqb_spec w_fm m); settle;
    try destruct (m =? -1); settle; consistent_cases.
Qed.

Lemma leave_fullscreen_keeps_consistent w :
  fullscreen_consistent w ->
  fullscreen_consistent (exec virt_viewer_window_leave_fullscreen w).
Proof.
  destruct_window w. unfold fullscreen_consistent.
  cbn [map_event_handlers fullscreen fullscreen_monitor display].
  intros (H1 & H2 & H3 & H4).
  destruct w_meh as [| [| n]]; [| | lia];
    destruct w_fs, w_d as [[dw dh dz de dm df da] |]; run; settle;
    consistent_cases.
Qed.

Lemma map_event_keeps_consistent w :
  fullscreen_consistent w ->
  fullscreen_consistent (exec map_event w).
Proof.
  destruct_window w. unfold fullscreen_consistent.
  cbn [map_event_handlers fullscreen fullscreen_monitor display].
  intros (H1 & H2 & H3 & H4).
  destruct w_meh as [| [| n]]; [| | lia];
    destruct w_fs, w_d as [[dw dh dz de dm df da] |], w_mp; run;
    rewrite ?Z.eqb_refl; settle;
    try destruct (w_fm =? -1); settle; consistent_cases.
Qed.

Section FullscreenFacts.

Variables MIN_ZOOM_LEVEL MAX_ZOOM_LEVEL : Z.
Variables MIN_DISPLAY_WIDTH MIN_DISPLAY_HEIGHT : Z.
Variable VIRT_VIEWER_DISPLAY_SHOW_HINT_READY : Z.

Local Abbreviation perform_action :=
  (perform MIN_ZOOM_LEVEL MAX_ZOOM_LEVEL MIN_DISPLAY_WIDTH
     MIN_DISPLAY_HEIGHT VIRT_VIEWER_DISPLAY_SHOW_HINT_READY).
Local Abbreviation run_all :=
  (run_actions MIN_ZOOM_LEVEL MAX_ZOOM_LEVEL MIN_DISPLAY_WIDTH
     MIN_DISPLAY_HEIGHT VIRT_VIEWER_DISPLAY_SHOW_HINT_READY).

Lemma set_fullscreen_exec app_fs fs w :
  exec (virt_viewer_window_set_fullscreen app_fs fs) w
  = if fs then exec (virt_viewer_window_enter_fullscreen (-1)) w
    else if app_fs then w
    else exec virt_viewer_window_leave_fullscreen w.
Proof.
  unfold virt_viewer_window_set_fullscreen.
  destruct fs; [| destruct app_fs]; rewrite ?exec_bind; reflexivity.
Qed.

Lemma perform_view_fullscreen app_fs w :
  exec (perform_action (view_fullscreen app_fs)) w
  = exec (virt_viewer_window_set_fullscreen app_fs (negb (fullscreen w))) w.
Proof.
  cbn [perform]. unfold virt_viewer_window_menu_view_fullscreen.
  rewrite !exec_bind. reflexivity.
Qed.

Lemma perform_headerbar_leave_fullscreen app_fs w :
  exec (perform_action (headerbar_leave_fullscreen app_fs)) w
  = exec (virt_viewer_window_set_fullscreen app_fs false) w.
Proof.
  cbn [perform]. unfold virt_viewer_window_headerbar_leave_fullscreen.
  rewrite !exec_bind. reflexivity.
Qed.


(** The operations that do not take part in the fullscreen bookkeeping. *)
Lemma consistent_under_bystander (m : M unit) w :
  preserves map_event_handlers m ->
  preserves fullscreen m ->
  preserves fullscreen_monitor m ->
  preserves (fun w => option_map display_monitor (display w)) m ->
  preserves (fun w => option_map display_fullscreen (display w)) m ->
  fullscreen_consistent w -> fullscreen_consistent (exec m w).
Proof.
  intros P1 P2 P3 P4 P5. apply consistent_of_same_observations.
  - apply P1.
  - apply P2.
  - apply P3.
  - apply (P4 w).
  - apply (P5 w).
Qed.

Ltac bystander :=
  apply consistent_under_bystander;
  [ frame_actions | frame_actions | frame_actions
  | unfold perform, display_show_hint, zoom_in_activated, zoom_out_activated,
      zoom_reset_activated, handle; frame_display
  | unfold perform, display_show_hint, zoom_in_activated, zoom_out_activated,
      zoom_reset_activated, handle; frame_display ].

Lemma perform_keeps_fullscreen_consistent a w :
  fullscreen_consistent w ->
  fullscreen_consistent (exec (perform_action a) w).
Proof.
  destruct a as [e | emitter hint | | | | app_fs | app_fs].
  - destruct e; try solve [bystander].
    + apply map_event_keeps_consistent.
    + apply enter_fullscreen_keeps_consistent.
    + apply leave_fullscreen_keeps_consistent.
  - bystander.
  - bystander.
  - bystander.
  - bystander.
  - intros H. rewrite perform_view_fullscreen, set_fullscreen_exec.
    destruct (negb (fullscreen w)); [| destruct app_fs].
    + apply enter_fullscreen_keeps_consistent. exact H.
    + exact H.
    + apply leave_fullscreen_keeps_consistent. exact H.
  - intros H. rewrite perform_headerbar_leave_fullscreen, set_fullscreen_exec.
    destruct app_fs.
    + exact H.
    + apply leave_fullscreen_keeps_consistent. exact H.
Qed.

(** X10: the fullscreen bookkeeping stays consistent under every sequence
    of events, show hints and menu actions: the map handler is never
    connected twice, it is pending only while the fullscreen flag is set, a
    window that is not fullscreen targets monitor -1, and whenever no entry
    is waiting for the map event, the attached display's monitor and
    fullscreen flag are the window's. *)
Theorem fullscreen_bookkeeping_stays_consistent acts w :
  fullscreen_consistent w ->
  fullscreen_consistent (run_all acts w).
Proof.
  revert w. induction acts as [| a acts IH]; intros w Hw; [exact Hw |].
  cbn [run_actions]. apply IH.
  apply perform_keeps_fullscreen_consistent. exact Hw.
Qed.

End FullscreenFacts.

(* ------------------------------------------------------------------ *)
(** ** Fullscreen: deferred entry, round trip, toggle *)

Lemma sequences_of_same_presence (d d' : option VirtViewerDisplay) :
  option_map (fun _ => tt) d' = option_map (fun _ => tt) d ->
  leave_sequence d' = leave_sequence d
  /\ (forall is_mapped m,
         enter_sequence is_mapped d' m = enter_sequence is_mapped d m)
  /\ (forall A (c : A),
         option_map (fun _ => c) d' = option_map (fun _ => c) d).
Proof.
  destruct d, d'; cbn; intros H; try discriminate H; repeat split.
Qed.

Lemma show_fullscreen_observations w :
  let w' := exec virt_viewer_window_show w in
  fullscreen w' = fullscreen w
  /\ fullscreen_monitor w' = fullscreen_monitor w
  /\ map_event_handlers w' = map_event_handlers w
  /\ window_mapped w' = true
  /\ option_map (fun _ => tt) (display w') = option_map (fun _ => tt) (display w).
Proof.
  cbv zeta.
  assert (P1 : preserves fullscreen virt_viewer_window_show) by frame.
  assert (P2 : preserves fullscreen_monitor virt_viewer_window_show) by frame.
  assert (P3 : preserves map_event_handlers virt_viewer_window_show) by frame.
  assert (P4 : preserves (fun w => option_map (fun _ => tt) (display w))
                 virt_viewer_window_show) by frame_display.
  split; [apply P1 |]. split; [apply P2 |]. split; [apply P3 |].
  split; [| apply (P4 w)].
  destruct_window w.
  destruct w_d as [[dw dh dz [|] dm df da] |];
    destruct w_drp, w_k, w_ae, w_fs; run; settle;
    try destruct (w_fm =? -1); settle; reflexivity.
Qed.

(** The map event on a mapped window with the handler connected. *)
Lemma map_event_mapped_run w :
  map_event_handlers w <> O -> window_mapped w = true ->
  map_event w
  = (tt, set_calls
           (calls w
            ++ g_signal_handlers_disconnect_mapped
               :: enter_sequence true (display w) (fullscreen_monitor w))
           (set_display
              (option_map
                 (fun d =>
                    mkDisplay (desktop_width d) (desktop_height d)
                      (display_zoom_level d) (display_enabled d)
                      (fullscreen_monitor w) true (allocation_width d))
                 (display w))
              (set_fullscreen true (set_map_event_handlers O w)))).
Proof.
  destruct_window w. cbn [map_event_handlers window_mapped]. intros Hh ->.
  destruct w_meh as [| n]; [contradiction |].
  destruct w_d as [dpy |]; run; settle;
    destruct (w_fm =? -1); settle; reflexivity.
Qed.

(** X11: an entry requested before the window is mapped is carried out by
    the first map event after show(): the handler disconnects itself and
    runs the entry for a mapped window on the recorded monitor, so the
    display is told the monitor and fullscreen, the toolkit is asked to go
    fullscreen, the window ends fullscreen on that monitor with no handler
    left, and a second map event does nothing. *)
Theorem deferred_entry_runs_on_the_map_event w m :
  window_mapped w = false -> fullscreen w = false ->
  let w1 := exec (virt_viewer_window_enter_fullscreen m) w in
  let w2 := exec virt_viewer_window_show w1 in
  let w3 := exec map_event w2 in
  new_calls map_event w2
  = g_signal_handlers_disconnect_mapped :: enter_sequence true (display w) m
  /\ fullscreen w3 = true
  /\ fullscreen_monitor w3 = m
  /\ map_event_handlers w3 = O
  /\ option_map display_monitor (display w3)
     = option_map (fun _ => m) (display w)
  /\ option_map display_fullscreen (display w3)
     = option_map (fun _ => true) (display w)
  /\ map_event w3 = (tt, w3).
Proof.
  intros Hmp Hfs. cbv zeta.
  assert (Hw1 : exec (virt_viewer_window_enter_fullscreen m) w
                = snd (virt_viewer_window_enter_fullscreen m w))
    by reflexivity.
  rewrite (enter_fullscreen_unmapped_run w m Hfs Hmp) in Hw1.
  cbn [snd] in Hw1. rewrite Hw1. clear Hw1.
  set (w1 := set_map_event_handlers _ _).
  destruct (show_fullscreen_observations w1) as (S1 & S2 & S3 & S4 & S5).
  set (w2 := exec virt_viewer_window_show w1) in *.
  assert (Hh : map_event_handlers w2 <> O) by (rewrite S3; discriminate).
  assert (Hrun := map_event_mapped_run w2 Hh S4).
  destruct (sequences_of_same_presence (display w) (display w2) S5)
    as (_ & Hseq & Hmap).
  rewrite S2 in Hrun. change (fullscreen_monitor w1) with m in Hrun.
  split.
  { apply new_calls_of_appended. unfold exec. rewrite Hrun. cbn [snd].
    fields. rewrite Hseq. reflexivity. }
  unfold exec. rewrite Hrun. cbn [snd]. fields.
  split; [reflexivity |]. split; [rewrite S2; reflexivity |].
  split; [reflexivity |].
  split; [| split].
  - rewrite <- (Hmap Z m). destruct (display w2); reflexivity.
  - rewrite <- (Hmap bool true). destruct (display w2); reflexivity.
  - reflexivity.
Qed.

(** X12: on a consistent window that is not fullscreen, entering fullscreen
    on any monitor and leaving again restores the window, whether it is
    mapped or not: afterwards it differs from the window before only in its
    log, which holds the entry's calls followed by the complete leave
    sequence. *)
Theorem enter_then_leave_restores_the_window w m :
  fullscreen_consistent w -> fullscreen w = false ->
  exec virt_viewer_window_leave_fullscreen
    (exec (virt_viewer_window_enter_fullscreen m) w)
  = set_calls
      (calls w ++ enter_sequence (window_mapped w) (display w) m
       ++ leave_sequence (display w))
      w.
Proof.
  destruct_window w. unfold fullscreen_consistent.
  cbn [map_event_handlers fullscreen fullscreen_monitor display].
  intros (H1 & H2 & H3 & H4) ->.
  specialize (H3 eq_refl). subst w_fm.
  destruct w_meh as [| [| n]]; [| specialize (H2 eq_refl); discriminate | lia].
  specialize (H4 eq_refl).
  destruct w_d as [[dw dh dz de dm df da] |], w_mp; run; settle;
    destruct (m =? -1); settle;
    try (destruct (H4 _ eq_refl) as [A B]; cbn in A, B; subst dm df);
    reflexivity.
Qed.

(** X14: "view fullscreen" toggles the window when the application is not
    in fullscreen mode: on a window that is not fullscreen it enters on
    monitor -1, which asks the toolkit for no move and no size, and on a
    fullscreen window it leaves; when the application is in fullscreen mode
    the request to leave goes to the application and the window is left as
    it is. *)
Theorem view_fullscreen_toggles w :
  fullscreen (exec (virt_viewer_window_menu_view_fullscreen false) w)
  = negb (fullscreen w)
  /\ (fullscreen w = false ->
      forall app_fs,
        eval (virt_viewer_window_menu_view_fullscreen app_fs) w = []
        /\ fullscreen_monitor
             (exec (virt_viewer_window_menu_view_fullscreen app_fs) w) = -1
        /\ new_calls (virt_viewer_window_menu_view_fullscreen app_fs) w
           = if window_mapped w then
               [gtk_widget_show_fullscreen_headerbar;
                virt_viewer_timed_revealer_force_reveal true]
               ++ match display w with
                  | Some _ => [virt_viewer_display_set_monitor_call (-1);
                               virt_viewer_display_set_fullscreen_call true]
                  | None => []
                  end
               ++ [gtk_window_fullscreen]
             else [g_signal_connect_map_event])
  /\ (fullscreen w = true ->
      virt_viewer_window_menu_view_fullscreen true w
      = ([g_object_set_app_fullscreen false], w)).
Proof.
  split; [| split].
  - destruct_window w.
    destruct w_fs, w_d as [dpy |], w_mp; run; settle; reflexivity.
  - intros Hfs app_fs.
    assert (E : virt_viewer_window_menu_view_fullscreen app_fs w
                = ([], exec (virt_viewer_window_enter_fullscreen (-1)) w)).
    { unfold virt_viewer_window_menu_view_fullscreen,
        virt_viewer_window_set_fullscreen, bind, gets, exec.
      rewrite Hfs. cbn [negb].
      destruct (virt_viewer_window_enter_fullscreen (-1) w). reflexivity. }
    unfold eval, new_calls, exec at 1 2. rewrite E. cbn [fst snd].
    split; [reflexivity |].
    split; [apply enter_fullscreen_sets_the_target |].
    fold (new_calls (virt_viewer_window_enter_fullscreen (-1)) w).
    apply new_calls_of_appended. unfold exec.
    destruct (window_mapped w) eqn:Hmp.
    + rewrite (enter_fullscreen_mapped_run w (-1) Hfs Hmp). reflexivity.
    + rewrite (enter_fullscreen_unmapped_run w (-1) Hfs Hmp). reflexivity.
  - intros Hfs.
    unfold virt_viewer_window_menu_view_fullscreen,
      virt_viewer_window_set_fullscreen, bind, gets.
    rewrite Hfs. reflexivity.
Qed.

Section MoreActionFacts.

Variables MIN_ZOOM_LEVEL MAX_ZOOM_LEVEL : Z.
Variables MIN_DISPLAY_WIDTH MIN_DISPLAY_HEIGHT : Z.
Variable VIRT_VIEWER_DISPLAY_SHOW_HINT_READY : Z.

Local Abbreviation set_zoom :=
  (virt_viewer_window_set_zoom_level
     MIN_ZOOM_LEVEL MAX_ZOOM_LEVEL MIN_DISPLAY_WIDTH MIN_DISPLAY_HEIGHT).
Local Abbreviation perform_action :=
  (perform MIN_ZOOM_LEVEL MAX_ZOOM_LEVEL MIN_DISPLAY_WIDTH
     MIN_DISPLAY_HEIGHT VIRT_VIEWER_DISPLAY_SHOW_HINT_READY).
Local Abbreviation run_all :=
  (run_actions MIN_ZOOM_LEVEL MAX_ZOOM_LEVEL MIN_DISPLAY_WIDTH
     MIN_DISPLAY_HEIGHT VIRT_VIEWER_DISPLAY_SHOW_HINT_READY).

Lemma perform_keeps_the_kiosk_window a w :
  turns_kiosk_off a = false ->
  kiosk w = true -> window_visible w = true ->
  kiosk (exec (perform_action a) w) = true
  /\ window_visible (exec (perform_action a) w) = true.
Proof.
  intros Ha Hk Hv.
  assert (Hkeep : forall m : M unit,
             preserves kiosk m -> preserves window_visible m ->
             kiosk (exec m w) = true /\ window_visible (exec m w) = true).
  { intros m P1 P2. rewrite P1, P2. split; assumption. }
  destruct a as [e | emitter hint | | | | app_fs | app_fs];
    try solve [apply Hkeep; frame_actions].
  destruct e; try solve [apply Hkeep; frame_actions].
  - (* setKiosk *)
    destruct enabled; [| discriminate Ha].
    cbn [perform handle].
    unfold exec, virt_viewer_window_set_kiosk, bind, gets. rewrite Hk.
    cbn. split; assumption.
  - (* show *)
    split.
    + assert (P : preserves kiosk virt_viewer_window_show) by frame.
      cbn [perform handle]. rewrite P. exact Hk.
    + apply show_state.
  - (* hide *)
    cbn [perform handle].
    unfold exec, virt_viewer_window_hide, bind, gets. rewrite Hk.
    cbn. split; assumption.
Qed.

(** X13: a visible window in kiosk mode cannot be hidden: whatever events,
    show hints and menu actions follow, short of a setKiosk(false), the
    window stays in kiosk mode and stays visible. *)
Theorem kiosk_window_stays_visible acts w :
  kiosk w = true -> window_visible w = true ->
  forallb (fun a => negb (turns_kiosk_off a)) acts = true ->
  kiosk (run_all acts w) = true /\ window_visible (run_all acts w) = true.
Proof.
  revert w. induction acts as [| a acts IH]; intros w Hk Hv Hacts.
  - split; assumption.
  - cbn [forallb] in Hacts. apply andb_prop in Hacts.
    destruct Hacts as [Ha Hacts]. apply negb_true_iff in Ha.
    destruct (perform_keeps_the_kiosk_window a w Ha Hk Hv) as [Hk' Hv'].
    cbn [run_actions]. apply IH; assumption.
Qed.

End MoreActionFacts.

Section RepeatedZoomFacts.

Variables MIN_ZOOM_LEVEL MAX_ZOOM_LEVEL : Z.
Variables MIN_DISPLAY_WIDTH MIN_DISPLAY_HEIGHT : Z.

Local Abbreviation set_zoom :=
  (virt_viewer_window_set_zoom_level
     MIN_ZOOM_LEVEL MAX_ZOOM_LEVEL MIN_DISPLAY_WIDTH MIN_DISPLAY_HEIGHT).
Local Abbreviation minimal_zoom :=
  (virt_viewer_window_get_minimal_zoom_level
     MIN_ZOOM_LEVEL MIN_DISPLAY_WIDTH MIN_DISPLAY_HEIGHT).

(** With a display attached, a request leaves the stored level in the
    window and in the display, whether or not it was pushed. *)
Lemma set_zoom_level_state x w dpy :
  display w = Some dpy ->
  let stored := zoomlevel (exec (set_zoom x) w) in
  set_calls [] (exec (set_zoom x) w)
  = set_calls []
      (set_display
         (Some (mkDisplay (desktop_width dpy) (desktop_height dpy) stored
                  (display_enabled dpy) (display_monitor dpy)
                  (display_fullscreen dpy) (allocation_width dpy)))
         (set_zoomlevel stored w)).
Proof.
  destruct_window w. cbn [display]. intros ->. cbv zeta.
  destruct dpy as [dw dh dz de dm df da]. run.
  match goal with
  | |- context [if ?b then _ else _] => destruct b
  end; run;
    match goal with
    | |- context [?z =? dz] => destruct (Z.eqb_spec z dz)
    end; run;
    try match goal with
        | |- context [if ?b then _ else _] => destruct b
        end; run; subst; reflexivity.
Qed.

(** X15: asking for the same zoom level twice leaves the window and the
    display as asking once does: the second call can only repeat calls in
    the log. *)
Theorem set_zoom_level_twice x w :
  set_calls [] (exec (set_zoom x) (exec (set_zoom x) w))
  = set_calls [] (exec (set_zoom x) w).
Proof.
  destruct (display w) as [dpy |] eqn:Hd.
  - pose proof (set_zoom_level_state x w dpy Hd) as E1. cbv zeta in E1.
    pose proof (set_zoom_level_stored MIN_ZOOM_LEVEL MAX_ZOOM_LEVEL
                  MIN_DISPLAY_WIDTH MIN_DISPLAY_HEIGHT w dpy x Hd) as Sw.
    cbv zeta in Sw. unfold eval in Sw.
    rewrite (get_minimal_zoom_level_value MIN_ZOOM_LEVEL
               MIN_DISPLAY_WIDTH MIN_DISPLAY_HEIGHT w dpy Hd) in Sw.
    set (w1 := exec (set_zoom x) w) in *.
    set (z := zoomlevel w1) in *.
    set (dpy1 := mkDisplay (desktop_width dpy) (desktop_height dpy) z
                   (display_enabled dpy) (display_monitor dpy)
                   (display_fullscreen dpy) (allocation_width dpy)) in *.
    assert (Hd1 : display w1 = Some dpy1).
    { change (display w1) with (display (set_calls [] w1)).
      rewrite E1. reflexivity. }
    assert (Ht : top_menu_width w1 = top_menu_width w).
    { change (top_menu_width w1) with (top_menu_width (set_calls [] w1)).
      rewrite E1. reflexivity. }
    assert (Hz : zoomlevel (exec (set_zoom x) w1) = z).
    { rewrite (set_zoom_level_stored MIN_ZOOM_LEVEL MAX_ZOOM_LEVEL
                  MIN_DISPLAY_WIDTH MIN_DISPLAY_HEIGHT w1 dpy1 x Hd1).
      cbv zeta. unfold eval.
      rewrite (get_minimal_zoom_level_value MIN_ZOOM_LEVEL
               MIN_DISPLAY_WIDTH MIN_DISPLAY_HEIGHT w1 dpy1 Hd1).
      rewrite Ht, Sw. reflexivity. }
    pose proof (set_zoom_level_state x w1 dpy1 Hd1) as E2. cbv zeta in E2.
    rewrite Hz in E2. rewrite E2.
    change (set_calls []
              (set_display
                 (Some (mkDisplay (desktop_width dpy1) (desktop_height dpy1) z
                          (display_enabled dpy1) (display_monitor dpy1)
                          (display_fullscreen dpy1) (allocation_width dpy1)))
                 (set_zoomlevel z w1)))
      with (set_display (Some dpy1) (set_zoomlevel z (set_calls [] w1))).
    rewrite E1. reflexivity.
  - unfold exec.
    rewrite (set_zoom_level_without_display _ _ _ _ w x Hd). cbn [snd].
    rewrite set_zoom_level_without_display by exact Hd. reflexivity.
Qed.

End RepeatedZoomFacts.

(* ------------------------------------------------------------------ *)
(** ** Accelerator groups: removals and additions balance *)

Lemma accel_balance_app g cs1 cs2 :
  accel_balance g (cs1 ++ cs2) = accel_balance g cs1 + accel_balance g cs2.
Proof.
  induction cs1 as [| c cs1 IH]; cbn [app accel_balance]; [reflexivity |].
  rewrite IH. lia.
Qed.

Lemma accel_balance_removals g l :
  accel_balance g (map gtk_window_remove_accel_group l) = occurrences g l.
Proof.
  induction l as [| g' l IH]; cbn; [reflexivity |]. rewrite IH. reflexivity.
Qed.

Lemma accel_balance_additions g l :
  accel_balance g (map gtk_window_add_accel_group l) = - occurrences g l.
Proof.
  induction l as [| g' l IH]; cbn; [reflexivity |]. rewrite IH.
  destruct (g' =? g); lia.
Qed.

(** [preserves] for the balance of a group: a call that is neither a
    removal nor an addition leaves it alone. *)
Ltac frame_balance :=
  repeat first
    [ apply preserves_ret
    | apply preserves_gets
    | apply preserves_modify; intros ?;
      first [ reflexivity
            | cbn; rewrite accel_balance_app; cbn; lia ]
    | apply preserves_bind; [ | intros ? ]
    | match goal with
      | |- preserves _ (if ?b then _ else _) => destruct b
      | |- preserves _ (match ?d with _ => _ end) => destruct d
      end
    | progress
        unfold virt_viewer_window_hide,
          virt_viewer_window_pointer_grab, virt_viewer_window_pointer_ungrab,
          virt_viewer_window_update_title,
          map_event, mapped, virt_viewer_window_enter_fullscreen,
          virt_viewer_window_leave_fullscreen,
          virt_viewer_window_move_to_monitor,
          virt_viewer_window_desktop_resize, virt_viewer_window_queue_resize,
          virt_viewer_window_set_zoom_level, virt_viewer_window_get_zoom_level,
          virt_viewer_window_get_minimal_zoom_level,
          virt_viewer_window_get_minimal_dimensions,
          virt_viewer_window_get_real_zoom_level,
          g_signal_connect_mapped, g_signal_handlers_disconnect_by_func_mapped,
          gtk_widget_show_priv_window, gtk_widget_hide_priv_window,
          virt_viewer_display_set_monitor, virt_viewer_display_set_fullscreen,
          virt_viewer_display_set_zoom_level, virt_viewer_display_enable,
          virt_viewer_display_disable, if_display, with_display, call,
          display_show_hint, zoom_in_activated, zoom_out_activated,
          zoom_reset_activated, virt_viewer_window_menu_view_fullscreen,
          virt_viewer_window_headerbar_leave_fullscreen,
          virt_viewer_window_set_fullscreen ].

(** An operation that touches neither the modifiers nor the groups. *)
Lemma accounted_under_bystander {A} (m : M A) :
  preserves accel_enabled m ->
  preserves non_exempt_groups m ->
  (forall g, preserves (fun w => accel_balance g (calls w)) m) ->
  keeps_accounted m.
Proof.
  intros P1 P2 P3 w H g. rewrite P1, P2, (P3 g w). apply H.
Qed.

Lemma disable_modifiers_keeps_accounted :
  keeps_accounted virt_viewer_window_disable_modifiers.
Proof.
  intros w H g. destruct (accel_enabled w) eqn:E.
  - rewrite (disable_modifiers_effect w E).
    specialize (H g). rewrite E in H.
    change (accel_balance g
              (calls w
               ++ map gtk_window_remove_accel_group (non_exempt_groups w))
            = occurrences g (non_exempt_groups w)).
    rewrite accel_balance_app, accel_balance_removals, H. reflexivity.
  - unfold exec. rewrite (disable_modifiers_noop w E). exact (H g).
Qed.

Lemma enable_modifiers_keeps_accounted :
  keeps_accounted virt_viewer_window_enable_modifiers.
Proof.
  intros w H g. destruct (accel_enabled w) eqn:E.
  - unfold exec. rewrite (enable_modifiers_noop w E). exact (H g).
  - rewrite (enable_modifiers_effect w E).
    specialize (H g). rewrite E in H.
    change (accel_balance g
              (calls w
               ++ map gtk_window_add_accel_group (non_exempt_groups w))
            = 0).
    rewrite accel_balance_app, accel_balance_additions, H. lia.
Qed.

Lemma accounted_bind {A B} (m : M A) (k : A -> M B) :
  keeps_accounted m -> (forall a, keeps_accounted (k a)) ->
  keeps_accounted (bind m k).
Proof.
  intros Hm Hk w H. rewrite exec_bind. apply Hk. apply Hm. exact H.
Qed.

(** Walk through an operation: the modifier functions keep the account by
    the two lemmas above, everything else as a bystander. *)
Ltac accounted :=
  repeat first
    [ apply disable_modifiers_keeps_accounted
    | apply enable_modifiers_keeps_accounted
    | solve [ apply accounted_under_bystander;
              [ frame_balance | frame_balance | intros ?; frame_balance ] ]
    | apply accounted_bind; [ | intros ? ]
    | match goal with
      | |- keeps_accounted (if ?b then _ else _) => destruct b
      | |- keeps_accounted (match ?d with _ => _ end) => destruct d
      end
    | progress
        unfold perform, handle, virt_viewer_window_show,
          virt_viewer_window_set_kiosk, virt_viewer_window_enable_kiosk,
          virt_viewer_window_keyboard_grab,
          virt_viewer_window_keyboard_ungrab ].

Section AccelFacts.

Variables MIN_ZOOM_LEVEL MAX_ZOOM_LEVEL : Z.
Variables MIN_DISPLAY_WIDTH MIN_DISPLAY_HEIGHT : Z.
Variable VIRT_VIEWER_DISPLAY_SHOW_HINT_READY : Z.

Local Abbreviation perform_action :=
  (perform MIN_ZOOM_LEVEL MAX_ZOOM_LEVEL MIN_DISPLAY_WIDTH
     MIN_DISPLAY_HEIGHT VIRT_VIEWER_DISPLAY_SHOW_HINT_READY).
Local Abbreviation run_all :=
  (run_actions MIN_ZOOM_LEVEL MAX_ZOOM_LEVEL MIN_DISPLAY_WIDTH
     MIN_DISPLAY_HEIGHT VIRT_VIEWER_DISPLAY_SHOW_HINT_READY).

Lemma perform_keeps_accounted a : keeps_accounted (perform_action a).
Proof.
  destruct a as [e | emitter hint | | | | app_fs | app_fs]; [destruct e | ..];
    accounted.
Qed.

(** X16: the log accounts for the accelerator groups at every moment.
    Starting from a window whose log balances (a freshly built one does),
    after any events, show hints and menu actions each group has been added
    back exactly as often as it was removed whenever the modifiers are
    enabled, and while they are disabled exactly the groups that the
    exemption rule lets through are out: no grab, kiosk or show sequence
    removes a group twice or loses one for good. *)
Theorem accelerator_groups_stay_accounted acts w :
  accel_groups_accounted w ->
  accel_groups_accounted (run_all acts w)
  /\ (accel_enabled (run_all acts w) = true ->
      forall g, accel_balance g (calls (run_all acts w)) = 0).
Proof.
  intros Hw.
  assert (H : accel_groups_accounted (run_all acts w)).
  { revert w Hw. induction acts as [| a acts IH]; intros w Hw; [exact Hw |].
    cbn [run_actions]. apply IH. apply perform_keeps_accounted. exact Hw. }
  split; [exact H |].
  intros He g. specialize (H g). rewrite He in H. exact H.
Qed.

End AccelFacts.

(* ------------------------------------------------------------------ *)
(** ** Modifiers: the settings come back; the title follows the grab *)

Lemma disable_modifiers_exec_noop w :
  accel_enabled w = false -> exec virt_viewer_window_disable_modifiers w = w.
Proof.
  intros H. unfold exec. rewrite (disable_modifiers_noop w H). reflexivity.
Qed.

Lemma enable_modifiers_exec_noop w :
  accel_enabled w = true -> exec virt_viewer_window_enable_modifiers w = w.
Proof.
  intros H. unfold exec. rewrite (enable_modifiers_noop w H). reflexivity.
Qed.

Section SettingsFacts.

Variables MIN_ZOOM_LEVEL MAX_ZOOM_LEVEL : Z.
Variables MIN_DISPLAY_WIDTH MIN_DISPLAY_HEIGHT : Z.
Variable VIRT_VIEWER_DISPLAY_SHOW_HINT_READY : Z.

Local Abbreviation perform_action :=
  (perform MIN_ZOOM_LEVEL MAX_ZOOM_LEVEL MIN_DISPLAY_WIDTH
     MIN_DISPLAY_HEIGHT VIRT_VIEWER_DISPLAY_SHOW_HINT_READY).
Local Abbreviation run_all :=
  (run_actions MIN_ZOOM_LEVEL MAX_ZOOM_LEVEL MIN_DISPLAY_WIDTH
     MIN_DISPLAY_HEIGHT VIRT_VIEWER_DISPLAY_SHOW_HINT_READY).

Lemma run_all_app acts1 acts2 w :
  run_all (acts1 ++ acts2) w = run_all acts2 (run_all acts1 w).
Proof.
  revert w. induction acts1 as [| a acts1 IH]; intros w; [reflexivity |].
  cbn [app run_actions]. apply IH.
Qed.

(** While the modifiers are off, nothing but the keyboard ungrab touches
    them or the two saved settings. *)
Lemma saved_settings_are_frozen a w :
  ungrabs_keyboard a = false -> accel_enabled w = false ->
  let w' := exec (perform_action a) w in
  accel_enabled w' = false
  /\ accel_setting w' = accel_setting w
  /\ enable_mnemonics_save w' = enable_mnemonics_save w.
Proof.
  intros Ha Hoff. cbv zeta.
  assert (Hkeep : forall m : M unit,
             preserves accel_enabled m -> preserves accel_setting m ->
             preserves enable_mnemonics_save m ->
             accel_enabled (exec m w) = false
             /\ accel_setting (exec m w) = accel_setting w
             /\ enable_mnemonics_save (exec m w) = enable_mnemonics_save w).
  { intros m P1 P2 P3. rewrite P1, P2, P3. repeat split. exact Hoff. }
  destruct a as [e | emitter hint | | | | app_fs | app_fs];
    try solve [apply Hkeep; frame_actions].
  destruct e; try discriminate Ha; try solve [apply Hkeep; frame_actions].
  - (* keyboard grab *)
    cbn [perform handle]. unfold virt_viewer_window_keyboard_grab.
    rewrite (disable_modifiers_exec_noop w Hoff). repeat split. exact Hoff.
  - (* setKiosk *)
    cbn [perform handle]. destruct_window w. cbn [accel_enabled] in Hoff.
    subst w_ae. destruct enabled, w_k; run; settle; repeat split.
  - (* show *)
    cbn [perform handle]. destruct_window w. cbn [accel_enabled] in Hoff.
    subst w_ae.
    destruct w_d as [[dw dh dz [|] dm df da] |];
      destruct w_drp, w_k, w_fs; run; settle;
      try destruct (w_fm =? -1); settle; repeat split.
Qed.

Lemma saved_settings_stay_frozen acts w :
  forallb (fun a => negb (ungrabs_keyboard a)) acts = true ->
  accel_enabled w = false ->
  accel_enabled (run_all acts w) = false
  /\ accel_setting (run_all acts w) = accel_setting w
  /\ enable_mnemonics_save (run_all acts w) = enable_mnemonics_save w.
Proof.
  revert w. induction acts as [| a acts IH]; intros w Hacts Hoff.
  - repeat split. exact Hoff.
  - cbn [forallb] in Hacts. apply andb_prop in Hacts.
    destruct Hacts as [Ha Hacts]. apply negb_true_iff in Ha.
    destruct (saved_settings_are_frozen a w Ha Hoff) as (H1 & H2 & H3).
    cbn [run_actions].
    destruct (IH _ Hacts H1) as (I1 & I2 & I3).
    rewrite I2, I3, H2, H3. repeat split. exact I1.
Qed.

(** X17: a keyboard grab on a window with the modifiers enabled, followed by
    anything but a keyboard ungrab, and then the keyboard ungrab, gives the
    toolkit back the menu-bar accelerator and the mnemonics setting it had
    before the grab, with the modifiers enabled again: kiosk mode, show()
    and further grabs in between do not overwrite what was saved. *)
Theorem keyboard_ungrab_restores_the_settings between w :
  accel_enabled w = true ->
  forallb (fun a => negb (ungrabs_keyboard a)) between = true ->
  let w' := run_all (window_event display_keyboard_grab :: between
                     ++ [window_event display_keyboard_ungrab]) w in
  gtk_menu_bar_accel w' = gtk_menu_bar_accel w
  /\ gtk_enable_mnemonics w' = gtk_enable_mnemonics w
  /\ accel_enabled w' = true.
Proof.
  intros Hon Hbetween. cbv zeta.
  cbn [run_actions]. rewrite run_all_app. cbn [run_actions perform handle].
  unfold virt_viewer_window_keyboard_grab, virt_viewer_window_keyboard_ungrab.
  rewrite (disable_modifiers_effect w Hon).
  set (w1 := set_accel_enabled false _).
  destruct (saved_settings_stay_frozen between w1 Hbetween eq_refl)
    as (H1 & H2 & H3).
  rewrite (enable_modifiers_effect _ H1).
  cbn [gtk_menu_bar_accel gtk_enable_mnemonics accel_enabled
       set_accel_enabled set_gtk_enable_mnemonics set_calls
       set_gtk_menu_bar_accel].
  rewrite H2, H3. repeat split.
Qed.

(** The title is set by the pointer handlers only. *)
Lemma title_hint_app cs c :
  title_hint (cs ++ [c])
  = match c with
    | gtk_header_bar_set_title with_hint => with_hint
    | _ => title_hint cs
    end.
Proof. unfold title_hint. rewrite fold_left_app. reflexivity. Qed.

Lemma title_hint_removals cs l :
  title_hint (cs ++ map gtk_window_remove_accel_group l) = title_hint cs.
Proof.
  unfold title_hint. rewrite fold_left_app.
  induction l as [| g l IH]; [reflexivity | exact IH].
Qed.

Lemma title_hint_additions cs l :
  title_hint (cs ++ map gtk_window_add_accel_group l) = title_hint cs.
Proof.
  unfold title_hint. rewrite fold_left_app.
  induction l as [| g l IH]; [reflexivity | exact IH].
Qed.

Lemma modifiers_keep_the_title :
  preserves (fun w => title_hint (calls w)) virt_viewer_window_disable_modifiers
  /\ preserves (fun w => title_hint (calls w))
       virt_viewer_window_enable_modifiers.
Proof.
  split; intros w; destruct (accel_enabled w) eqn:E.
  - rewrite (disable_modifiers_effect w E). apply title_hint_removals.
  - rewrite (disable_modifiers_exec_noop w E). reflexivity.
  - rewrite (enable_modifiers_exec_noop w E). reflexivity.
  - rewrite (enable_modifiers_effect w E). apply title_hint_additions.
Qed.

Ltac frame_title :=
  repeat first
    [ apply preserves_ret
    | apply preserves_gets
    | apply (proj1 modifiers_keep_the_title)
    | apply (proj2 modifiers_keep_the_title)
    | apply preserves_modify; intros ?;
      first [ reflexivity | cbn; apply title_hint_app ]
    | apply preserves_bind; [ | intros ? ]
    | match goal with
      | |- preserves _ (if ?b then _ else _) => destruct b
      | |- preserves _ (match ?d with _ => _ end) => destruct d
      end
    | progress
        unfold perform, handle, virt_viewer_window_show,
          virt_viewer_window_hide,
          virt_viewer_window_set_kiosk, virt_viewer_window_enable_kiosk,
          virt_viewer_window_keyboard_grab,
          virt_viewer_window_keyboard_ungrab,
          map_event, mapped, virt_viewer_window_enter_fullscreen,
          virt_viewer_window_leave_fullscreen,
          virt_viewer_window_move_to_monitor,
          virt_viewer_window_desktop_resize, virt_viewer_window_queue_resize,
          virt_viewer_window_set_zoom_level, virt_viewer_window_get_zoom_level,
          virt_viewer_window_get_minimal_zoom_level,
          virt_viewer_window_get_minimal_dimensions,
          virt_viewer_window_get_real_zoom_level,
          g_signal_connect_mapped, g_signal_handlers_disconnect_by_func_mapped,
          gtk_widget_show_priv_window, gtk_widget_hide_priv_window,
          virt_viewer_display_set_monitor, virt_viewer_display_set_fullscreen,
          virt_viewer_display_set_zoom_level, virt_viewer_display_enable,
          virt_viewer_display_disable, if_display, with_display, call,
          display_show_hint, zoom_in_activated, zoom_out_activated,
          zoom_reset_activated, virt_viewer_window_menu_view_fullscreen,
          virt_viewer_window_headerbar_leave_fullscreen,
          virt_viewer_window_set_fullscreen ].

Lemma perform_keeps_the_title_in_step a w :
  title_hint (calls w) = grabbed w ->
  title_hint (calls (exec (perform_action a) w))
  = grabbed (exec (perform_action a) w).
Proof.
  intros H.
  assert (Hkeep : forall m : M unit,
             preserves (fun w => title_hint (calls w)) m ->
             preserves grabbed m ->
             title_hint (calls (exec m w)) = grabbed (exec m w)).
  { intros m P1 P2. rewrite (P1 w), P2. exact H. }
  destruct a as [e | emitter hint | | | | app_fs | app_fs];
    [destruct e | ..];
    try solve [apply Hkeep; [frame_title | frame_actions]].
  - cbn [perform handle]. destruct_window w. cbn. apply title_hint_app.
  - cbn [perform handle]. destruct_window w. cbn. apply title_hint_app.
Qed.

(** X18: the title follows the pointer grab: after any sequence of events,
    show hints and menu actions on a window whose title was in step, the
    last title set on the header bar carries the release-pointer hint
    exactly when [grabbed] is set. *)
Theorem title_follows_the_pointer_grab acts w :
  title_hint (calls w) = grabbed w ->
  title_hint (calls (run_all acts w)) = grabbed (run_all acts w).
Proof.
  revert w. induction acts as [| a acts IH]; intros w Hw; [exact Hw |].
  cbn [run_actions]. apply IH. apply perform_keeps_the_title_in_step.
  exact Hw.
Qed.

End SettingsFacts.

(* ------------------------------------------------------------------ *)
(** ** The further statements on sample windows *)

Lemma fresh_window_with_display_is_consistent :
  fullscreen_consistent fresh_window_with_display.
Proof.
  unfold fullscreen_consistent. cbn.
  repeat split; intros; try lia; try discriminate;
    match goal with
    | H : Some _ = Some _ |- _ => inversion H; subst; reflexivity
    end.
Qed.

Lemma fresh_window_is_accounted : accel_groups_accounted fresh_window.
Proof. intros g. reflexivity. Qed.

Lemma get_image_format_is_the_last_writable_match_witness :
  In (mkFormat "jpeg" true ["jpeg"%string; "jpe"%string; "jpg"%string])
    sample_formats
  /\ gdk_pixbuf_format_is_writable
       (mkFormat "jpeg" true ["jpeg"%string; "jpe"%string; "jpg"%string])
     = true
  /\ exists ext,
       extension_of "screen.shot.jpg" = Some ext
       /\ In ext
            (gdk_pixbuf_format_get_extensions
               (mkFormat "jpeg" true
                  ["jpeg"%string; "jpe"%string; "jpg"%string])).
Proof.
  apply (proj2 (get_image_format_is_the_last_writable_match
                  sample_formats "screen.shot.jpg")).
  reflexivity.
Defined.

Lemma show_hint_applies_the_zoom_once_witness :
  let w := shown_window in
  let enabled := mkDisplay 550 400 100 true (-1) false 550 in
  let fired := exec (display_show_hint 10 400 50 50 1 enabled 3) w in
  (display_show_hint 10 400 50 50 1 enabled 3 w
   = virt_viewer_window_set_zoom_level 10 400 50 50 (zoomlevel w)
       (set_initial_zoom_set true w)
   /\ initial_zoom_set fired = true)
  /\ display_show_hint 10 400 50 50 1 enabled 2 w = (tt, w)
  /\ display_show_hint 10 400 50 50 1 sample_display 3 w = (tt, w)
  /\ run_actions 10 400 50 50 1
       (map (fun n => display_notify_show_hint (fst n) (snd n))
          [(enabled, 3); (enabled, 1); (sample_display, 2)])
       fired
     = fired.
Proof.
  destruct (show_hint_applies_the_zoom_once 10 400 50 50 1
              (mkDisplay 550 400 100 true (-1) false 550) shown_window 3)
    as (Hfire & _ & _).
  destruct (show_hint_applies_the_zoom_once 10 400 50 50 1
              (mkDisplay 550 400 100 true (-1) false 550) shown_window 2)
    as (_ & Hidle & _).
  destruct (show_hint_applies_the_zoom_once 10 400 50 50 1
              sample_display shown_window 3)
    as (_ & Hdisabled & _).
  destruct (show_hint_applies_the_zoom_once 10 400 50 50 1
              (mkDisplay 550 400 100 true (-1) false 550)
              (exec (display_show_hint 10 400 50 50 1
                       (mkDisplay 550 400 100 true (-1) false 550) 3)
                 shown_window) 3)
    as (_ & _ & Hdone).
  split; [apply Hfire; reflexivity || discriminate |].
  split; [apply Hidle; right; left; reflexivity |].
  split; [apply Hdisabled; right; right; reflexivity |].
  apply Hdone. reflexivity.
Defined.

Lemma zoom_level_stays_in_range_witness :
  zoom_in_range 10 400
    (run_actions 10 400 50 50 1
       [zoom_in; window_event (set_zoom_level 5000); zoom_out;
        display_notify_show_hint sample_display 1; zoom_reset]
       shown_window).
Proof.
  apply zoom_level_stays_in_range.
  - unfold NORMAL_ZOOM_LEVEL. lia.
  - unfold zoom_in_range.
    replace (zoomlevel shown_window) with 100 by reflexivity. lia.
Defined.

Lemma zoom_never_below_the_floor_and_reset_is_normal_witness :
  let w := fresh_window_with_display in
  (eval (virt_viewer_window_get_minimal_zoom_level 10 50 150) w
   <= zoomlevel (exec (virt_viewer_window_set_zoom_level 10 400 50 150 10) w)
   /\ eval (virt_viewer_window_get_minimal_zoom_level 10 50 150)
        (exec (virt_viewer_window_set_zoom_level 10 400 50 150 10) w)
      = eval (virt_viewer_window_get_minimal_zoom_level 10 50 150) w)
  /\ zoomlevel (exec (zoom_reset_activated 10 400 50 150) w)
     = NORMAL_ZOOM_LEVEL.
Proof.
  destruct (zoom_never_below_the_floor_and_reset_is_normal 10 400 50 150
              fresh_window_with_display) as (Hfloor & Hreset).
  - unfold NORMAL_ZOOM_LEVEL. lia.
  - split; [| exact Hreset].
    apply (Hfloor 10 sample_display). reflexivity.
Defined.

Lemma real_zoom_level_is_the_nearest_percentage_witness :
  let w := fresh_window_with_display in
  let real := eval virt_viewer_window_get_real_zoom_level w in
  (exec virt_viewer_window_get_real_zoom_level w = w
   /\ 2 * (NORMAL_ZOOM_LEVEL * 550) - 550 < 2 * real * 550
      <= 2 * (NORMAL_ZOOM_LEVEL * 550) + 550)
  /\ eval virt_viewer_window_get_real_zoom_level fresh_window
     = NORMAL_ZOOM_LEVEL
  /\ new_calls virt_viewer_window_get_real_zoom_level fresh_window
     = [g_critical "self->priv->display != NULL"%string].
Proof.
  split.
  - apply (proj1 (real_zoom_level_is_the_nearest_percentage
                    fresh_window_with_display) sample_display);
      reflexivity || (cbn; lia) || discriminate.
  - apply (proj2 (real_zoom_level_is_the_nearest_percentage fresh_window)).
    reflexivity.
Defined.

Lemma fullscreen_bookkeeping_stays_consistent_witness :
  fullscreen_consistent
    (run_actions 10 400 50 50 1
       [window_event (enter_fullscreen 1); window_event show;
        window_event (enter_fullscreen 0); window_event window_map_event;
        view_fullscreen false; window_event hide]
       fresh_window_with_display).
Proof.
  apply fullscreen_bookkeeping_stays_consistent.
  exact fresh_window_with_display_is_consistent.
Defined.

Lemma deferred_entry_runs_on_the_map_event_witness :
  let w := fresh_window_with_display in
  let w1 := exec (virt_viewer_window_enter_fullscreen 1) w in
  let w2 := exec virt_viewer_window_show w1 in
  let w3 := exec map_event w2 in
  new_calls map_event w2
  = g_signal_handlers_disconnect_mapped :: enter_sequence true (display w) 1
  /\ fullscreen w3 = true
  /\ fullscreen_monitor w3 = 1
  /\ map_event_handlers w3 = O
  /\ option_map display_monitor (display w3)
     = option_map (fun _ => 1) (display w)
  /\ option_map display_fullscreen (display w3)
     = option_map (fun _ => true) (display w)
  /\ map_event w3 = (tt, w3).
Proof.
  apply (deferred_entry_runs_on_the_map_event fresh_window_with_display 1);
    reflexivity.
Defined.

Lemma enter_then_leave_restores_the_window_witness :
  let w := fresh_window_with_display in
  exec virt_viewer_window_leave_fullscreen
    (exec (virt_viewer_window_enter_fullscreen 0) w)
  = set_calls
      (calls w ++ enter_sequence (window_mapped w) (display w) 0
       ++ leave_sequence (display w))
      w.
Proof.
  apply (enter_then_leave_restores_the_window fresh_window_with_display 0).
  - exact fresh_window_with_display_is_consistent.
  - reflexivity.
Defined.

Lemma kiosk_window_stays_visible_witness :
  let w := exec virt_viewer_window_show
             (exec (virt_viewer_window_set_kiosk true)
                fresh_window_with_display) in
  let acts := [window_event hide; window_event display_keyboard_ungrab;
               view_fullscreen false; window_event hide;
               window_event (set_kiosk_mode true)] in
  kiosk (run_actions 10 400 50 50 1 acts w) = true
  /\ window_visible (run_actions 10 400 50 50 1 acts w) = true.
Proof.
  apply kiosk_window_stays_visible; reflexivity.
Defined.

Lemma view_fullscreen_toggles_witness :
  let w := shown_window in
  let fs := exec (virt_viewer_window_enter_fullscreen 1) w in
  (eval (virt_viewer_window_menu_view_fullscreen true) w = []
   /\ fullscreen_monitor
        (exec (virt_viewer_window_menu_view_fullscreen true) w) = -1
   /\ new_calls (virt_viewer_window_menu_view_fullscreen true) w
      = if window_mapped w then
          [gtk_widget_show_fullscreen_headerbar;
           virt_viewer_timed_revealer_force_reveal true]
          ++ match display w with
             | Some _ => [virt_viewer_display_set_monitor_call (-1);
                          virt_viewer_display_set_fullscreen_call true]
             | None => []
             end
          ++ [gtk_window_fullscreen]
        else [g_signal_connect_map_event])
  /\ virt_viewer_window_menu_view_fullscreen true fs
     = ([g_object_set_app_fullscreen false], fs).
Proof.
  split.
  - apply (proj1 (proj2 (view_fullscreen_toggles shown_window))).
    reflexivity.
  - apply (proj2 (proj2 (view_fullscreen_toggles
                           (exec (virt_viewer_window_enter_fullscreen 1)
                              shown_window)))).
    reflexivity.
Defined.

Lemma accelerator_groups_stay_accounted_witness :
  let w := run_actions 10 400 50 50 1
             [window_event display_keyboard_grab;
              window_event (set_kiosk_mode true); window_event show;
              window_event display_keyboard_grab;
              window_event display_keyboard_ungrab]
             fresh_window in
  accel_groups_accounted w
  /\ accel_balance 1 (calls w) = 0
  /\ accel_balance 2 (calls w) = 0.
Proof.
  destruct (accelerator_groups_stay_accounted 10 400 50 50 1
              [window_event display_keyboard_grab;
               window_event (set_kiosk_mode true); window_event show;
               window_event display_keyboard_grab;
               window_event display_keyboard_ungrab]
              fresh_window fresh_window_is_accounted) as [H1 H2].
  split; [exact H1 |].
  split; apply H2; reflexivity.
Defined.

Lemma keyboard_ungrab_restores_the_settings_witness :
  let w := fresh_window_with_display in
  let w' := run_actions 10 400 50 50 1
              (window_event display_keyboard_grab
               :: [window_event (set_kiosk_mode true); window_event show;
                   window_event display_keyboard_grab]
               ++ [window_event display_keyboard_ungrab]) w in
  gtk_menu_bar_accel w' = gtk_menu_bar_accel w
  /\ gtk_enable_mnemonics w' = gtk_enable_mnemonics w
  /\ accel_enabled w' = true.
Proof.
  apply (keyboard_ungrab_restores_the_settings 10 400 50 50 1
           [window_event (set_kiosk_mode true); window_event show;
            window_event display_keyboard_grab]
           fresh_window_with_display); reflexivity.
Defined.

Lemma title_follows_the_pointer_grab_witness :
  let w := run_actions 10 400 50 50 1
             [window_event display_pointer_grab; window_event show;
              window_event display_keyboard_grab]
             fresh_window_with_display in
  title_hint (calls w) = grabbed w.
Proof.
  apply title_follows_the_pointer_grab. reflexivity.
Defined.
